(** * Gray Book salary parity: extraction and aggregation

    A shallow embedding of the three programs of the repository

    - [parse_graybook_html.py]  (module [Html]),
    - [parse_graybook.py]       (module [Docx]),
    - [analyze_parity.py]       (module [Analyze]),

    over a small model of the Python values they manipulate (module [Py]),
    followed by the properties of the specification that concern them. *)

From Stdlib Require Import List String Ascii Bool Arith NArith ZArith QArith Lia.
Import ListNotations.
Close Scope Q_scope.
Open Scope string_scope.
Open Scope list_scope.

Set Implicit Arguments.

(* ================================================================= *)
(** * Python values *)

Module Py.

(** ** Exceptions and fallible computations *)

Inductive exn : Type :=
| ValueError
| KeyError (key : string)
| TypeError
| AttributeError.

Inductive result (A : Type) : Type :=
| Ok (a : A)
| Raise (e : exn).
Arguments Ok {A} a.
Arguments Raise {A} e.

Definition bind {A B} (m : result A) (k : A -> result B) : result B :=
  match m with
  | Ok a => k a
  | Raise e => Raise e
  end.

(** [try: body except ValueError: handler] *)
Definition try_except_ValueError {A} (body handler : result A) : result A :=
  match body with
  | Raise ValueError => handler
  | other => other
  end.

Fixpoint mapM {A B} (f : A -> result B) (l : list A) : result (list B) :=
  match l with
  | [] => Ok []
  | x :: r => bind (f x) (fun y => bind (mapM f r) (fun ys => Ok (y :: ys)))
  end.

Fixpoint foldM {S A} (f : S -> A -> result S) (s : S) (l : list A) : result S :=
  match l with
  | [] => Ok s
  | x :: r => bind (f s x) (fun s' => foldM f s' r)
  end.

(** ** Strings

    A string is a sequence of code points; the model holds the code
    points U+0000 to U+00FF, one per character. *)

(** [needle in hay] *)
Fixpoint contains (needle hay : string) : bool :=
  prefix needle hay ||
  match hay with
  | EmptyString => false
  | String _ rest => contains needle rest
  end.

Definition in_range (lo hi : N) (c : ascii) : bool :=
  let n := N_of_ascii c in (lo <=? n)%N && (n <=? hi)%N.

(** The upper case of one character: the letters a to z and the
    letters U+00E0 to U+00FE (the division sign U+00F7 apart) move down
    by 32, and the sharp s U+00DF becomes "SS".  The capitals of U+00B5
    and U+00FF lie beyond U+00FF; these two characters stand for their
    capitals. *)
Definition upper_char (c : ascii) : string :=
  if in_range 97 122 c || (in_range 224 254 c && negb (N_of_ascii c =? 247)%N)
  then String (ascii_of_N (N_of_ascii c - 32)) EmptyString
  else if (N_of_ascii c =? 223)%N then "SS"
  else String c EmptyString.

(** [s.upper()] *)
Fixpoint upper (s : string) : string :=
  match s with
  | EmptyString => EmptyString
  | String c r => (upper_char c ++ upper r)%string
  end.

(** The letters A to Z in lower case: [float] compares the spellings of
    the infinities and of NaN without regard to the case of these. *)
Definition lower_char (c : ascii) : ascii :=
  if in_range 65 90 c then ascii_of_N (N_of_ascii c + 32) else c.

Fixpoint lower (s : string) : string :=
  match s with
  | EmptyString => EmptyString
  | String c r => String (lower_char c) (lower r)
  end.

(** [s.replace(c, '')] for a one-character [c] *)
Fixpoint remove_char (c : ascii) (s : string) : string :=
  match s with
  | EmptyString => EmptyString
  | String d r => if Ascii.eqb d c then remove_char c r else String d (remove_char c r)
  end.

(** White space for [str.strip]: TAB..CR, FS..US, SPACE, NEL (U+0085)
    and the no-break space (U+00A0). *)
Definition is_space (c : ascii) : bool :=
  in_range 9 13 c || in_range 28 32 c || in_range 133 133 c || in_range 160 160 c.

(** White space for [float]: TAB..CR, SPACE, NEL and the no-break
    space. *)
Definition is_float_space (c : ascii) : bool :=
  in_range 9 13 c || in_range 32 32 c || in_range 133 133 c || in_range 160 160 c.

Fixpoint lstrip_by (space : ascii -> bool) (s : string) : string :=
  match s with
  | EmptyString => EmptyString
  | String c r => if space c then lstrip_by space r else s
  end.

Fixpoint rstrip_by (space : ascii -> bool) (s : string) : string :=
  match s with
  | EmptyString => EmptyString
  | String c r =>
      match rstrip_by space r with
      | EmptyString => if space c then EmptyString else String c EmptyString
      | r' => String c r'
      end
  end.

Definition strip_by (space : ascii -> bool) (s : string) : string :=
  rstrip_by space (lstrip_by space s).

(** [s.strip()] *)
Definition strip : string -> string := strip_by is_space.

(** ** Floats

    A Python float is a binary64 number: a finite one is modelled by the
    rational it denotes, kept in lowest terms, beside the infinities and
    NaN.  The sign of zero is not kept: no comparison tells [-0.0] from
    [0.0].  Comparisons follow IEEE 754: every comparison with NaN is
    false. *)

Inductive pyfloat : Type :=
| Finite (q : Q)
| Inf (negative : bool)
| NaN.

Definition zero : pyfloat := Finite 0%Q.

Definition py_lt (x y : pyfloat) : bool :=
  match x, y with
  | NaN, _ | _, NaN => false
  | Finite a, Finite b => negb (Qle_bool b a)
  | Finite _, Inf n => negb n
  | Inf n, Finite _ => n
  | Inf n1, Inf n2 => n1 && negb n2
  end.

Definition py_le (x y : pyfloat) : bool :=
  match x, y with
  | NaN, _ | _, NaN => false
  | Finite a, Finite b => Qle_bool a b
  | Finite _, Inf n => negb n
  | Inf n, Finite _ => n
  | Inf n1, Inf n2 => n1 || negb n2
  end.

Definition py_gt (x y : pyfloat) : bool := py_lt y x.
Definition py_ge (x y : pyfloat) : bool := py_le y x.

Definition py_eq (x y : pyfloat) : bool :=
  match x, y with
  | Finite a, Finite b => Qeq_bool a b
  | Inf n1, Inf n2 => Bool.eqb n1 n2
  | _, _ => false
  end.

Definition py_neg (x : pyfloat) : pyfloat :=
  match x with
  | Finite q => Finite (- q)%Q
  | Inf n => Inf (negb n)
  | NaN => NaN
  end.

(** [max(first :: rest, key=key)]: the running maximum is replaced only by
    a strictly greater key, so the first maximal element wins. *)
Fixpoint max_from {A} (key : A -> pyfloat) (best : A) (rest : list A) : A :=
  match rest with
  | [] => best
  | x :: r => if py_gt (key x) (key best) then max_from key x r else max_from key best r
  end.

(** [max(l, key=key)] *)
Definition py_max {A} (key : A -> pyfloat) (l : list A) : result A :=
  match l with
  | [] => Raise ValueError
  | x :: r => Ok (max_from key x r)
  end.

(** ** Rounding to binary64

    Round to nearest, ties to even, with gradual underflow; a number
    that rounds to [2^1024] or beyond overflows. *)

(** [n / d < 2^k] *)
Definition below_pow2 (n d : positive) (k : Z) : bool :=
  match k with
  | Z0 => (Zpos n <? Zpos d)%Z
  | Zpos j => (Zpos n <? Zpos d * 2 ^ Zpos j)%Z
  | Zneg j => (Zpos n * 2 ^ Zpos j <? Zpos d)%Z
  end.

(** [floor (log2 (n / d))] *)
Definition floor_log2 (n d : positive) : Z :=
  let k := (Z.log2 (Zpos n) - Z.log2 (Zpos d))%Z in
  if below_pow2 n d k then (k - 1)%Z else k.

(** Numerator and denominator of [(n / d) / 2^p] *)
Definition scaled (n d : positive) (p : Z) : Z * Z :=
  match p with
  | Z0 => (Zpos n, Zpos d)
  | Zpos j => (Zpos n, (Zpos d * 2 ^ Zpos j)%Z)
  | Zneg j => ((Zpos n * 2 ^ Zpos j)%Z, Zpos d)
  end.

(** The integer nearest to [num / den], the even one of two. *)
Definition round_half_even (num den : Z) : Z :=
  let m := (num / den)%Z in
  match (2 * (num mod den) ?= den)%Z with
  | Lt => m
  | Gt => (m + 1)%Z
  | Eq => if Z.even m then m else (m + 1)%Z
  end.

(** [m * 2^p] in lowest terms *)
Definition times_pow2 (m p : Z) : Q :=
  Qred (match p with
        | Z0 => (m # 1)%Q
        | Zpos j => ((m * 2 ^ Zpos j)%Z # 1)%Q
        | Zneg j => (m # Pos.pow 2 j)%Q
        end).

(** The binary64 number nearest to [n / d], or [None] when it
    overflows: 53 significant bits above [2^-1022], multiples of
    [2^-1074] below. *)
Definition nearest_binary64 (n d : positive) : option Q :=
  let e := floor_log2 n d in
  let p := (Z.max e (-1022) - 52)%Z in
  let (num, den) := scaled n d p in
  let m := round_half_even num den in
  if (1023 <? e)%Z || ((e =? 1023)%Z && (m =? 2 ^ 53)%Z)
  then None
  else Some (times_pow2 m p).

(** The float nearest to a rational: what a decimal literal denotes. *)
Definition binary64 (q : Q) : pyfloat :=
  match Qnum q with
  | Z0 => zero
  | Zpos n =>
      match nearest_binary64 n (Qden q) with
      | Some v => Finite v
      | None => Inf false
      end
  | Zneg n =>
      match nearest_binary64 n (Qden q) with
      | Some v => Finite (- v)%Q
      | None => Inf true
      end
  end.

(** The literal [0.9] *)
Definition nine_tenths : pyfloat := Eval vm_compute in binary64 (9 # 10)%Q.

(** ** [float(s)] on a string *)

Definition is_digit (c : ascii) : bool := in_range 48 57 c.

Definition digit_val (c : ascii) : N := (N_of_ascii c - 48)%N.

Fixpoint all_digits (s : string) : bool :=
  match s with
  | EmptyString => true
  | String c r => is_digit c && all_digits r
  end.

(** Longest prefix of digits, and what follows it. *)
Fixpoint span_digits (s : string) : string * string :=
  match s with
  | EmptyString => (EmptyString, EmptyString)
  | String c r =>
      if is_digit c
      then let (d, rest) := span_digits r in (String c d, rest)
      else (EmptyString, s)
  end.

Fixpoint digits_value (acc : N) (s : string) : N :=
  match s with
  | EmptyString => acc
  | String c r => digits_value (acc * 10 + digit_val c) r
  end.

Definition is_underscore (c : ascii) : bool := Ascii.eqb c "_".

(** Underscores are accepted between two digits only, and dropped;
    [prev] is the character before [s]. *)
Fixpoint drop_underscores (prev : option ascii) (s : string) : option string :=
  match s with
  | EmptyString =>
      match prev with
      | Some p => if is_underscore p then None else Some EmptyString
      | None => Some EmptyString
      end
  | String c r =>
      if is_underscore c
      then match prev with
           | Some p => if is_digit p then drop_underscores (Some c) r else None
           | None => None
           end
      else match prev with
           | Some p =>
               if is_underscore p && negb (is_digit c) then None
               else option_map (String c) (drop_underscores (Some c) r)
           | None => option_map (String c) (drop_underscores (Some c) r)
           end
  end.

(** An optional sign, and what follows it. *)
Definition split_sign (s : string) : bool * string :=
  match s with
  | EmptyString => (false, s)
  | String c r =>
      if Ascii.eqb c "-" then (true, r)
      else if Ascii.eqb c "+" then (false, r)
      else (false, s)
  end.

(** [m * 10^e] *)
Definition scale10 (m : N) (e : Z) : Q :=
  match e with
  | Z0 => (Z.of_N m # 1)%Q
  | Zpos p => (Z.of_N m * Z.pow_pos 10 p # 1)%Q
  | Zneg p => (Z.of_N m # Pos.pow 10 p)%Q
  end.

(** What follows the mantissa: nothing, or a complete exponent. *)
Definition parse_exponent (s : string) : option Z :=
  match s with
  | EmptyString => Some 0%Z
  | String c r =>
      if Ascii.eqb c "e" || Ascii.eqb c "E"
      then
        let (neg, r') := split_sign r in
        let (ds, rest) := span_digits r' in
        match ds, rest with
        | String _ _, EmptyString =>
            let n := Z.of_N (digits_value 0 ds) in Some (if neg then (- n)%Z else n)
        | _, _ => None
        end
      else None
  end.

(** The fraction after the integer part, and what follows it. *)
Definition split_fraction (s : string) : string * string :=
  match s with
  | EmptyString => (EmptyString, s)
  | String c r => if Ascii.eqb c "." then span_digits r else (EmptyString, s)
  end.

(** An unsigned decimal numeral with optional fraction and exponent. *)
Definition parse_decimal (s : string) : option Q :=
  let (ip, r1) := span_digits s in
  let (fp, r2) := split_fraction r1 in
  match (ip ++ fp)%string with
  | EmptyString => None
  | String _ _ as ds =>
      match parse_exponent r2 with
      | Some e => Some (scale10 (digits_value 0 ds) (e - Z.of_nat (String.length fp))%Z)
      | None => None
      end
  end.

Definition parse_inf_or_nan (s : string) : option pyfloat :=
  let l := lower s in
  if String.eqb l "inf" || String.eqb l "infinity" then Some (Inf false)
  else if String.eqb l "nan" then Some NaN
  else None.

(** [float(s)]: the underscores between digits are dropped, the white
    space around the numeral is skipped, the numeral is rounded to the
    nearest binary64 number, and [ValueError] is raised when what is left
    is not a numeral, an infinity or a NaN. *)
Definition float (s : string) : result pyfloat :=
  match drop_underscores None s with
  | None => Raise ValueError
  | Some s1 =>
      let (neg, body) := split_sign (strip_by is_float_space s1) in
      match parse_decimal body with
      | Some q => Ok (binary64 (if neg then (- q)%Q else q))
      | None =>
          match parse_inf_or_nan body with
          | Some v => Ok (if neg then py_neg v else v)
          | None => Raise ValueError
          end
      end
  end.

(** ** Ordered dictionaries *)

Section Dict.
Variables (K V : Type) (keq : K -> K -> bool).

Definition dict := list (K * V).

Fixpoint dict_get (d : dict) (k : K) : option V :=
  match d with
  | [] => None
  | (k', v) :: r => if keq k' k then Some v else dict_get r k
  end.

(** [d[k] = v]: an existing key keeps its place. *)
Fixpoint dict_set (d : dict) (k : K) (v : V) : dict :=
  match d with
  | [] => [(k, v)]
  | (k', v') :: r => if keq k' k then (k', v) :: r else (k', v') :: dict_set r k v
  end.

Definition dict_mem (d : dict) (k : K) : bool :=
  match dict_get d k with Some _ => true | None => false end.
End Dict.

(** ** JSON values, as [json.dump] writes and [json.load] reads them *)

#[warnings="-register-all"]
Inductive json : Type :=
| JNull
| JBool (b : bool)
| JNum (x : pyfloat)
| JStr (s : string)
| JArr (items : list json)
| JObj (fields : list (string * json)).

Definition JInt (n : nat) : json := JNum (Finite (Z.of_nat n # 1)%Q).

Definition keys (j : json) : list string :=
  match j with
  | JObj fields => map fst fields
  | _ => []
  end.

(** An optional value is true when it is present and not empty. *)
Definition truthy_id (o : option string) : bool :=
  match o with
  | Some (String _ _) => true
  | _ => false
  end.

Definition option_eqb {A} (eqb : A -> A -> bool) (x y : option A) : bool :=
  match x, y with
  | Some a, Some b => eqb a b
  | None, None => true
  | _, _ => false
  end.

(** [l[:-1], l[-1]] of a non-empty list *)
Fixpoint unsnoc {A} (l : list A) : option (list A * A) :=
  match l with
  | [] => None
  | x :: r =>
      match unsnoc r with
      | None => Some ([], x)
      | Some (init, z) => Some (x :: init, z)
      end
  end.

End Py.

Import Py.

(* ================================================================= *)
(** * parse_graybook_html.py *)

Module Html.

(** The dataclass [Position] *)
Record Position : Type := {
  title : string;
  tenure_code : string;
  empl_class : string;
  present_fte : pyfloat;
  proposed_fte : pyfloat;
  present_salary : pyfloat;
  proposed_salary : pyfloat
}.

(** The dataclass [FacultyMember]; [department] is the walker's
    [current_dept_id], which is [None] until a heading sets it. *)
Record FacultyMember : Type := {
  name : string;
  department : option string;
  positions : list Position
}.

(** [FacultyMember.primary_position] *)
Definition primary_position (self : FacultyMember) : option Position :=
  match positions self with
  | [] => None
  | first :: _ =>
      match filter (fun p => py_gt (present_salary p) zero) (positions self) with
      | [] => Some first
      | p :: nonzero => Some (max_from present_salary p nonzero)
      end
  end.

(** [FacultyMember.faculty_type], once the primary position is known *)
Definition faculty_type_of_title (raw : string) : string :=
  let title := upper raw in
  if existsb (fun kw => contains kw title)
       ["TCH "; "TEACHING"; "SR. LECTURER"; "SR LECTURER"; "LECTURER"]
  then "teaching"
  else if contains "RES " title
          && (contains "PROF" title || contains "ASSOC" title || contains "ASST" title)
  then "research"
  else if contains "CLIN" title || contains "CLINICAL" title
  then "clinical"
  else if contains "PROF" title
  then "tenure_track"
  else if contains "INSTR" title
  then "teaching"
  else "other".

(** [FacultyMember.faculty_type] *)
Definition faculty_type (self : FacultyMember) : string :=
  match primary_position self with
  | None => "unknown"
  | Some primary => faculty_type_of_title (title primary)
  end.

(** [FacultyMember.rank], once the primary position is known *)
Definition rank_of_title (raw : string) : string :=
  let title := upper raw in
  if contains "ASST PROF" title || contains "ASSISTANT PROF" title then "assistant"
  else if contains "ASSOC PROF" title || contains "ASSOCIATE PROF" title then "associate"
  else if contains "PROF" title then "full"
  else if contains "SR" title && contains "LECTURER" title then "senior_lecturer"
  else if contains "LECTURER" title then "lecturer"
  else if contains "INSTR" title then "instructor"
  else "other".

(** [FacultyMember.rank] *)
Definition rank (self : FacultyMember) : string :=
  match primary_position self with
  | None => "unknown"
  | Some primary => rank_of_title (title primary)
  end.

(** [parse_salary] *)
Definition parse_salary (salary_str : string) : result pyfloat :=
  let cleaned := strip (remove_char "," (remove_char "$" salary_str)) in
  try_except_ValueError (float cleaned) (Ok zero).

(** [parse_fte] *)
Definition parse_fte (fte_str : string) : result pyfloat :=
  try_except_ValueError (float (strip fte_str)) (Ok zero).

(** ** The table walker *)

(** A value of [departments]: [{"name": ..., "faculty": [...]}] *)
Record Dept : Type := {
  dept_name : option string;
  faculty : list FacultyMember
}.

Definition dept_eqb : option string -> option string -> bool := option_eqb String.eqb.

(** The fields [current_dept_name] and [college] are never read and stay
    [None]; they are left out. *)
Record GrayBookHTMLParser : Type := {
  departments : dict (option string) Dept;
  current_dept_id : option string;
  in_table : bool;
  in_thead : bool;
  in_row : bool;
  in_cell : bool;
  current_row : list string;
  current_cell_text : string
}.

(** [GrayBookHTMLParser.__init__] *)
Definition init : GrayBookHTMLParser := {|
  departments := [];
  current_dept_id := None;
  in_table := false;
  in_thead := false;
  in_row := false;
  in_cell := false;
  current_row := [];
  current_cell_text := ""
|}.

Definition set_departments (self : GrayBookHTMLParser) d :=
  {| departments := d; current_dept_id := current_dept_id self;
     in_table := in_table self; in_thead := in_thead self; in_row := in_row self;
     in_cell := in_cell self; current_row := current_row self;
     current_cell_text := current_cell_text self |}.

Definition set_current_dept_id (self : GrayBookHTMLParser) v :=
  {| departments := departments self; current_dept_id := v;
     in_table := in_table self; in_thead := in_thead self; in_row := in_row self;
     in_cell := in_cell self; current_row := current_row self;
     current_cell_text := current_cell_text self |}.

Definition set_in_table (self : GrayBookHTMLParser) b :=
  {| departments := departments self; current_dept_id := current_dept_id self;
     in_table := b; in_thead := in_thead self; in_row := in_row self;
     in_cell := in_cell self; current_row := current_row self;
     current_cell_text := current_cell_text self |}.

Definition set_in_thead (self : GrayBookHTMLParser) b :=
  {| departments := departments self; current_dept_id := current_dept_id self;
     in_table := in_table self; in_thead := b; in_row := in_row self;
     in_cell := in_cell self; current_row := current_row self;
     current_cell_text := current_cell_text self |}.

Definition set_row (self : GrayBookHTMLParser) b row :=
  {| departments := departments self; current_dept_id := current_dept_id self;
     in_table := in_table self; in_thead := in_thead self; in_row := b;
     in_cell := in_cell self; current_row := row;
     current_cell_text := current_cell_text self |}.

Definition set_cell (self : GrayBookHTMLParser) b text :=
  {| departments := departments self; current_dept_id := current_dept_id self;
     in_table := in_table self; in_thead := in_thead self; in_row := in_row self;
     in_cell := b; current_row := current_row self;
     current_cell_text := text |}.

(** What [HTMLParser.feed] hands to the callbacks.  An attribute written
    without a value carries [None]. *)
Inductive event : Type :=
| StartTag (tag : string) (attrs : list (string * option string))
| EndTag (tag : string)
| Data (data : string).

(** [dict(attrs)]: the last binding of a repeated attribute wins. *)
Definition attrs_dict (attrs : list (string * option string)) : dict string (option string) :=
  fold_left (fun d kv => dict_set String.eqb d (fst kv) (snd kv)) attrs [].

Definition is_cell_tag (tag : string) : bool := String.eqb tag "td" || String.eqb tag "th".

(** [GrayBookHTMLParser.handle_starttag]; the tests follow one another
    as in the source, each on the state left by the previous ones. *)
Definition handle_starttag (self : GrayBookHTMLParser) (tag : string)
    (attrs : list (string * option string)) : GrayBookHTMLParser :=
  let self :=
    if String.eqb tag "h3"
    then match dict_get String.eqb (attrs_dict attrs) "id" with
         | Some v => set_current_dept_id self v
         | None => self
         end
    else self in
  let self := if String.eqb tag "table" then set_in_table self true else self in
  let self := if String.eqb tag "thead" then set_in_thead self true else self in
  let self :=
    if String.eqb tag "tr" && in_table self && negb (in_thead self)
    then set_row self true []
    else self in
  if is_cell_tag tag && in_row self then set_cell self true "" else self.

(** [GrayBookHTMLParser.handle_data] *)
Definition handle_data (self : GrayBookHTMLParser) (data : string) : GrayBookHTMLParser :=
  if in_cell self then set_cell self true (current_cell_text self ++ data)%string else self.

(** [member.positions.append(p)] *)
Definition add_position (f : FacultyMember) (p : Position) : FacultyMember :=
  {| name := name f; department := department f; positions := positions f ++ [p] |}.

(** [GrayBookHTMLParser._process_row] *)
Definition _process_row (self : GrayBookHTMLParser) (row : list string)
  : result GrayBookHTMLParser :=
  match row with
  | name_ :: title_ :: tenure :: empl_class_ :: c4 :: c5 :: c6 :: c7 :: _ =>
      if contains "Employee Total" title_ then Ok self else
      bind (parse_fte c4) (fun present_fte_ =>
      bind (parse_fte c5) (fun proposed_fte_ =>
      bind (parse_salary c6) (fun present_salary_ =>
      bind (parse_salary c7) (fun proposed_salary_ =>
      let position :=
        {| title := title_; tenure_code := tenure; empl_class := empl_class_;
           present_fte := present_fte_; proposed_fte := proposed_fte_;
           present_salary := present_salary_; proposed_salary := proposed_salary_ |} in
      let id := current_dept_id self in
      let depts :=
        if dict_mem dept_eqb (departments self) id
        then departments self
        else dict_set dept_eqb (departments self) id {| dept_name := id; faculty := [] |} in
      match dict_get dept_eqb depts id with
      | None => Raise (KeyError "")
      | Some dept =>
          let faculty' :=
            match unsnoc (faculty dept) with
            | Some (earlier, last_member) =>
                if (String.eqb name_ "" || String.eqb name_ (name last_member))
                then earlier ++ [add_position last_member position]
                else faculty dept
                     ++ [{| name := name_; department := id; positions := [position] |}]
            | None => [{| name := name_; department := id; positions := [position] |}]
            end in
          Ok (set_departments self
                (dict_set dept_eqb depts id
                   {| dept_name := dept_name dept; faculty := faculty' |}))
      end))))
  | _ => Ok self
  end.

(** [GrayBookHTMLParser.handle_endtag] *)
Definition handle_endtag (self : GrayBookHTMLParser) (tag : string)
  : result GrayBookHTMLParser :=
  let self := if String.eqb tag "thead" then set_in_thead self false else self in
  let self := if String.eqb tag "table" then set_in_table self false else self in
  let self :=
    if is_cell_tag tag && in_cell self
    then set_row (set_cell self false (current_cell_text self))
                 (in_row self) (current_row self ++ [strip (current_cell_text self)])
    else self in
  if String.eqb tag "tr" && in_row self
  then
    let self := set_row self false (current_row self) in
    match current_row self with
    | _ :: _ => if truthy_id (current_dept_id self) then _process_row self (current_row self) else Ok self
    | [] => Ok self
    end
  else Ok self.

(** One callback. *)
Definition handle (self : GrayBookHTMLParser) (e : event) : result GrayBookHTMLParser :=
  match e with
  | StartTag tag attrs => Ok (handle_starttag self tag attrs)
  | EndTag tag => handle_endtag self tag
  | Data data => Ok (handle_data self data)
  end.

(** [parser.feed(html_content)], on the events of the document *)
Definition feed (self : GrayBookHTMLParser) (events : list event) : result GrayBookHTMLParser :=
  foldM handle self events.

(** [parse_graybook_html], on the events of the document *)
Definition parse_graybook_html (events : list event) : result (dict (option string) Dept) :=
  bind (feed init events) (fun parser => Ok (departments parser)).

(** [extract_department_names]: the dictionary built from the matches
    [(id, name)] of the heading pattern, in document order. *)
Definition extract_department_names (h3_matches : list (string * string)) : dict string string :=
  fold_left (fun d m => dict_set String.eqb d (fst m) (snd m)) h3_matches [].

(** [dataclasses.asdict(p)] *)
Definition asdict (p : Position) : json :=
  JObj [("title", JStr (title p)); ("tenure_code", JStr (tenure_code p));
        ("empl_class", JStr (empl_class p)); ("present_fte", JNum (present_fte p));
        ("proposed_fte", JNum (proposed_fte p)); ("present_salary", JNum (present_salary p));
        ("proposed_salary", JNum (proposed_salary p))].

(** How a run of [main] ends when no exception escapes. *)
Inductive main_result : Type :=
| NotFound                      (* "Could not find Siebel School department!" *)
| NotParsed (dept_id : string)  (* "Department ... not found in parsed data" *)
| Saved (output : json) (faculty_only : list FacultyMember).

Section Totals.
(** The built-in [sum] over floats; its rounding is left open. *)
Variable fsum : list pyfloat -> pyfloat.

(** The properties [total_present_salary], [total_proposed_salary],
    [total_present_fte], [is_joint_appointment] and [is_full_time_here] *)
Definition total_present_salary (self : FacultyMember) : pyfloat :=
  fsum (map present_salary (positions self)).

Definition total_proposed_salary (self : FacultyMember) : pyfloat :=
  fsum (map proposed_salary (positions self)).

Definition total_present_fte (self : FacultyMember) : pyfloat :=
  fsum (map present_fte (positions self)).

Definition is_joint_appointment (self : FacultyMember) : bool :=
  py_lt (total_present_fte self) nine_tenths || py_eq (total_present_salary self) zero.

Definition is_full_time_here (self : FacultyMember) : bool :=
  py_ge (total_present_fte self) nine_tenths.

(** One element of [output["faculty"]] *)
Definition faculty_record (f : FacultyMember) : json :=
  JObj [("name", JStr (name f));
        ("faculty_type", JStr (faculty_type f));
        ("rank", JStr (rank f));
        ("is_full_time_here", JBool (is_full_time_here f));
        ("is_joint_appointment", JBool (is_joint_appointment f));
        ("total_present_salary", JNum (total_present_salary f));
        ("total_proposed_salary", JNum (total_proposed_salary f));
        ("total_present_fte", JNum (total_present_fte f));
        ("positions", JArr (map asdict (positions f)))].

(** [f.faculty_type == t] *)
Definition is_type (t : string) (f : FacultyMember) : bool := String.eqb (faculty_type f) t.

(** [main], on the matches of the heading pattern and the events of the
    document; the result carries what is written to
    [cs_faculty_salaries.json]. *)
Definition main (h3_matches : list (string * string)) (events : list event)
  : result main_result :=
  let dept_names := extract_department_names h3_matches in
  let cs_dept_id :=
    option_map fst
      (find (fun kv => contains "Siebel School" (snd kv) || contains "434 -" (snd kv))
            dept_names) in
  match cs_dept_id with
  | None | Some EmptyString => Ok NotFound
  | Some cs_dept_id =>
      bind (parse_graybook_html events) (fun departments =>
      match dict_get dept_eqb departments (Some cs_dept_id) with
      | None => Ok (NotParsed cs_dept_id)
      | Some cs_dept =>
          let faculty_only :=
            filter (fun f => match primary_position f with
                             | Some p => existsb (String.eqb (empl_class p)) ["AA"; "AB"; "AL"; "AM"]
                             | None => false
                             end)
                   (faculty cs_dept) in
          let teaching := filter (is_type "teaching") faculty_only in
          let tenure_track := filter (is_type "tenure_track") faculty_only in
          let research := filter (is_type "research") faculty_only in
          let clinical := filter (is_type "clinical") faculty_only in
          let teaching_ft := filter is_full_time_here teaching in
          let tenure_ft := filter is_full_time_here tenure_track in
          let output :=
            JObj [("department",
                   JStr (match dict_get String.eqb dept_names cs_dept_id with
                         | Some n => n
                         | None => cs_dept_id
                         end));
                  ("summary",
                   JObj [("total_faculty", JInt (List.length faculty_only));
                         ("teaching_track", JInt (List.length teaching));
                         ("teaching_track_fulltime", JInt (List.length teaching_ft));
                         ("tenure_track", JInt (List.length tenure_track));
                         ("tenure_track_fulltime", JInt (List.length tenure_ft));
                         ("research", JInt (List.length research));
                         ("clinical", JInt (List.length clinical))]);
                  ("faculty", JArr (map faculty_record faculty_only))] in
          Ok (Saved output faculty_only)
      end)
  end.
End Totals.

End Html.

(* ================================================================= *)
(** * parse_graybook.py *)

Module Docx.

(** The dataclass [Position] *)
Record Position : Type := {
  title : string;
  tenure_code : string;
  empl_class : string;
  present_fte : pyfloat;
  proposed_fte : pyfloat;
  present_salary : pyfloat;
  proposed_salary : pyfloat
}.

(** The dataclass [FacultyMember], with the totals that [__post_init__]
    stores. *)
Record FacultyMember : Type := {
  name : string;
  positions : list Position;
  total_present_fte : pyfloat;
  total_proposed_fte : pyfloat;
  total_present_salary : pyfloat;
  total_proposed_salary : pyfloat
}.

(** [FacultyMember.primary_position] *)
Definition primary_position (self : FacultyMember) : option Position :=
  match positions self with
  | [] => None
  | p :: rest => Some (max_from present_salary p rest)
  end.

(** [FacultyMember.faculty_type], once the primary position is known *)
Definition faculty_type_of_title (raw : string) : string :=
  let title := upper raw in
  if existsb (fun kw => contains kw title) ["TCH "; "TEACHING"; "LECTURER"; "INSTR "]
  then "teaching"
  else if contains "RES " title && contains "PROF" title
  then "research_only"
  else if contains "CLIN" title || contains "CLINICAL" title
  then "clinical"
  else if contains "PROF" title
  then "tenure_track"
  else "other".

(** [FacultyMember.faculty_type] *)
Definition faculty_type (self : FacultyMember) : string :=
  match primary_position self with
  | None => "unknown"
  | Some primary => faculty_type_of_title (title primary)
  end.

(** [FacultyMember.rank], once the primary position is known *)
Definition rank_of_title (raw : string) : string :=
  let title := upper raw in
  if contains "ASST PROF" title || contains "ASSISTANT" title then "assistant"
  else if contains "ASSOC PROF" title || contains "ASSOCIATE" title then "associate"
  else if contains "PROF" title then "full"
  else if contains "LECTURER" title
       then (if contains "SR" title then "senior_lecturer" else "lecturer")
  else if contains "INSTR" title then "instructor"
  else "other".

(** [FacultyMember.rank] *)
Definition rank (self : FacultyMember) : string :=
  match primary_position self with
  | None => "unknown"
  | Some primary => rank_of_title (title primary)
  end.

(** [FacultyMember.is_full_time] *)
Definition is_full_time (self : FacultyMember) : bool :=
  py_ge (total_present_fte self) nine_tenths.

(** [parse_salary] *)
Definition parse_salary (salary_str : string) : result pyfloat :=
  let cleaned := remove_char "," (remove_char "$" salary_str) in
  try_except_ValueError (float cleaned) (Ok zero).

(** ** Department section *)

(** Start offsets of the successive, non-overlapping occurrences of a
    literal pattern: [re.finditer(re.escape(pattern), s)]. *)
Fixpoint find_all (pattern : string) (skip pos : nat) (s : string) : list nat :=
  match s with
  | EmptyString => []
  | String _ rest =>
      match skip with
      | S k => find_all pattern k (S pos) rest
      | O =>
          if prefix pattern s
          then pos :: find_all pattern (String.length pattern - 1) (S pos) rest
          else find_all pattern 0 (S pos) rest
      end
  end.

(** [August \d+, 2025 Board of Trustees] matched at the head of [s] *)
Definition page_break_here (s : string) : bool :=
  prefix "August " s &&
  (let (ds, rest) := span_digits (substring 7 (String.length s - 7) s) in
   match ds with
   | EmptyString => false
   | String _ _ => prefix ", 2025 Board of Trustees" rest
   end).

(** [re.search(...).start()] *)
Fixpoint search_page_break (pos : nat) (s : string) : option nat :=
  if page_break_here s then Some pos
  else match s with
       | EmptyString => None
       | String _ rest => search_page_break (S pos) rest
       end.

(** [s[start:stop]] *)
Definition slice (s : string) (start stop : nat) : string :=
  substring start (stop - start) s.

(** [extract_department_section] *)
#[warnings="-abstract-large-number"]
Definition extract_department_section (full_text dept_code dept_name : string)
  : result string :=
  let pattern := (dept_code ++ " - " ++ dept_name)%string in
  let matches := find_all pattern 0 0 full_text in
  match matches with
  | [] => Raise ValueError
  | _ :: _ =>
      let section (start : nat) :=
        let remaining :=
          slice full_text (start + String.length pattern) (String.length full_text) in
        let stop :=
          match search_page_break 0 remaining with
          | Some k => start + String.length pattern + k
          | None => start + 10000
          end in
        slice full_text start stop in
      Ok (String.concat " " (map section matches))
  end.

(** ** Assembling the entries *)

(** The seven groups of one match of [entry_pattern]. *)
Record entry_match : Type := {
  group1 : string;
  group2 : string;
  group3 : string;
  group4 : string;
  group5 : string;
  group6 : string;
  group7 : string
}.

(** [dataclasses.asdict(p)] *)
Definition asdict (p : Position) : json :=
  JObj [("title", JStr (title p)); ("tenure_code", JStr (tenure_code p));
        ("empl_class", JStr (empl_class p)); ("present_fte", JNum (present_fte p));
        ("proposed_fte", JNum (proposed_fte p)); ("present_salary", JNum (present_salary p));
        ("proposed_salary", JNum (proposed_salary p))].

(** The loop variables of [parse_faculty_simple]. *)
Record assembler : Type := {
  faculty : list FacultyMember;
  current_name : option string;
  current_positions : list Position
}.

Section Assembly.
(** The built-in [sum] over floats; its rounding is left open. *)
Variable fsum : list pyfloat -> pyfloat.
(** [entry_pattern.finditer(text)]: the matches of the entry pattern. *)
Variable finditer : string -> list entry_match.

(** [FacultyMember(name=..., positions=...)], with [__post_init__] *)
Definition new_FacultyMember (name_ : string) (positions_ : list Position) : FacultyMember :=
  {| name := name_;
     positions := positions_;
     total_present_fte := fsum (map present_fte positions_);
     total_proposed_fte := fsum (map proposed_fte positions_);
     total_present_salary := fsum (map present_salary positions_);
     total_proposed_salary := fsum (map proposed_salary positions_) |}.

(** Appends the person collected so far, if there is one. *)
Definition flush (st : assembler) (who : string) : list FacultyMember :=
  match current_positions st with
  | [] => faculty st
  | _ :: _ => faculty st ++ [new_FacultyMember who (current_positions st)]
  end.

(** The body of the loop over the matches. *)
Definition assemble (st : assembler) (m : entry_match) : result assembler :=
  let name_ := strip (group1 m) in
  let title_ := strip (group2 m) in
  let tenure := group3 m in
  bind (float (group4 m)) (fun present_fte_ =>
  bind (float (group5 m)) (fun proposed_fte_ =>
  bind (parse_salary (group6 m)) (fun present_salary_ =>
  bind (parse_salary (group7 m)) (fun proposed_salary_ =>
  if contains "Siebel School" name_ || contains "Engineering" name_
     || contains "Board of Trustees" name_
  then Ok st
  else
    let st :=
      match current_name st with
      | Some (String _ _ as current) =>
          if negb (String.eqb name_ current)
          then {| faculty := flush st current; current_name := current_name st;
                  current_positions := [] |}
          else st
      | _ => st
      end in
    Ok {| faculty := faculty st;
          current_name := Some name_;
          current_positions :=
            current_positions st
            ++ [{| title := title_; tenure_code := tenure; empl_class := "";
                   present_fte := present_fte_; proposed_fte := proposed_fte_;
                   present_salary := present_salary_;
                   proposed_salary := proposed_salary_ |}] |})))).

(** [parse_faculty_simple] *)
Definition parse_faculty_simple (text : string) : result (list FacultyMember) :=
  bind (foldM assemble {| faculty := []; current_name := None; current_positions := [] |}
              (finditer text))
       (fun st =>
          match current_name st with
          | Some (String _ _ as current) => Ok (flush st current)
          | _ => Ok (faculty st)
          end).

(** One element of [output["faculty"]] *)
Definition faculty_record (f : FacultyMember) : json :=
  JObj [("name", JStr (name f));
        ("faculty_type", JStr (faculty_type f));
        ("rank", JStr (rank f));
        ("is_full_time", JBool (is_full_time f));
        ("total_present_salary", JNum (total_present_salary f));
        ("total_proposed_salary", JNum (total_proposed_salary f));
        ("total_present_fte", JNum (total_present_fte f));
        ("positions", JArr (map asdict (positions f)))].

(** [main], from the text that [extract_text_from_docx] returns; the
    result is the content written to [cs_faculty_salaries.json]. *)
Definition main (full_text : string) : result json :=
  bind (extract_department_section full_text "434" "Siebel School Comp & Data Sci")
       (fun cs_text =>
  bind (parse_faculty_simple cs_text) (fun faculty_ =>
  Ok (JObj [("department", JStr "Siebel School of Computing & Data Science");
            ("faculty", JArr (map faculty_record faculty_))]))).
End Assembly.

End Docx.

(* ================================================================= *)
(** * analyze_parity.py *)

Module Analyze.

(** [v[key]] for a string key *)
Definition subscript (v : json) (key : string) : result json :=
  match v with
  | JObj fields =>
      match dict_get String.eqb fields key with
      | Some x => Ok x
      | None => Raise (KeyError key)
      end
  | _ => Raise TypeError
  end.

(** [for p in v]: a list yields its items, a dictionary its keys, a
    string its characters; nothing else can be iterated. *)
Definition iterate (v : json) : result (list json) :=
  match v with
  | JArr items => Ok items
  | JObj fields => Ok (map (fun kv => JStr (fst kv)) fields)
  | JStr s => Ok (map (fun c => JStr (String c EmptyString)) (list_ascii_of_string s))
  | _ => Raise TypeError
  end.

(** [not v] is [negb (truthy v)] *)
Definition truthy (v : json) : bool :=
  match v with
  | JNull => false
  | JBool b => b
  | JNum (Finite q) => negb (Qeq_bool q 0)
  | JNum _ => true
  | JStr s => negb (String.eqb s "")
  | JArr items => match items with [] => false | _ => true end
  | JObj fields => match fields with [] => false | _ => true end
  end.

(** The operand of a numeric comparison. *)
Definition as_number (v : json) : result pyfloat :=
  match v with
  | JNum x => Ok x
  | JBool b => Ok (Finite (if b then 1 else 0)%Q)
  | _ => Raise TypeError
  end.

(** [v in ('AA', 'AB', 'AL', 'AM')] *)
Definition is_faculty_class (v : json) : bool :=
  match v with
  | JStr s => existsb (String.eqb s) ["AA"; "AB"; "AL"; "AM"]
  | _ => false
  end.

(** [v.upper()] *)
Definition upper_of (v : json) : result string :=
  match v with
  | JStr s => Ok (upper s)
  | _ => Raise AttributeError
  end.

(** [[x for x in l if keep(x)]] *)
Fixpoint filterM {A} (keep : A -> result bool) (l : list A) : result (list A) :=
  match l with
  | [] => Ok []
  | x :: r =>
      bind (keep x) (fun b =>
      bind (filterM keep r) (fun r' => Ok (if b then x :: r' else r')))
  end.

(** [get_primary_faculty_salary] *)
Definition get_primary_faculty_salary (faculty_entry : json) : result pyfloat :=
  bind (subscript faculty_entry "positions") (fun ps =>
  bind (iterate ps) (fun ps =>
  bind (filterM (fun p =>
          bind (subscript p "empl_class") (fun c =>
          if is_faculty_class c
          then bind (subscript p "present_salary") (fun v =>
               bind (as_number v) (fun x => Ok (py_gt x zero)))
          else Ok false)) ps) (fun faculty_positions =>
  match faculty_positions with
  | [] => Ok zero
  | _ :: _ =>
      bind (mapM (fun p => bind (subscript p "present_salary") as_number) faculty_positions)
           (py_max (fun x => x))
  end))).

(** The three tests of [is_clean_appointment] on an upper-cased title *)
Definition teaching_title (t : string) : bool :=
  contains "TCH" t || contains "TEACHING" t || contains "LECTURER" t.

Definition research_title (t : string) : bool := contains "RES " t.

Definition tenure_track_title (t : string) : bool :=
  contains "PROF" t && negb (contains "TCH" t) && negb (contains "RES" t)
  && negb (contains "TEACHING" t).

(** [sum([...])] over booleans *)
Definition count_true (l : list bool) : nat := List.length (filter (fun b => b) l).

(** [is_clean_appointment] *)
Definition is_clean_appointment (faculty_entry : json) : result bool :=
  bind (subscript faculty_entry "positions") (fun ps =>
  bind (iterate ps) (fun ps =>
  bind (filterM (fun p => bind (subscript p "empl_class") (fun c => Ok (is_faculty_class c))) ps)
       (fun faculty_positions =>
  match faculty_positions with
  | [] => Ok false
  | _ :: _ =>
      bind (mapM (fun p => bind (subscript p "title") upper_of) faculty_positions) (fun titles =>
      let has_teaching := existsb teaching_title titles in
      let has_research := existsb research_title titles in
      let has_tenure_track := existsb tenure_track_title titles in
      let tracks := count_true [has_teaching; has_research; has_tenure_track] in
      Ok (tracks <=? 1)%nat)
  end))).

(** [v == s] for a string [s] *)
Definition is_str (v : json) (s : string) : bool :=
  match v with
  | JStr s' => String.eqb s' s
  | _ => false
  end.

(** [normalize_rank] *)
Definition normalize_rank (rank faculty_type : json) : json :=
  if is_str rank "senior_lecturer" then JStr "lecturer"
  else if is_str rank "instructor" then JStr "assistant"
  else rank.

(** Dictionary keys must be hashable. *)
Definition hashable (v : json) : result unit :=
  match v with
  | JArr _ | JObj _ => Raise TypeError
  | _ => Ok tt
  end.

(** One element of a bucket. *)
Record member : Type := {
  member_name : json;
  salary : pyfloat;
  total_salary : json
}.

(** The state of the loop of [main] over [data['faculty']]: what was
    printed, and the two [defaultdict(list)] as the sequence of their
    [(rank, member)] insertions. *)
Record buckets : Type := {
  excluded : list json;   (* "Excluding split appointment: <name>" *)
  teaching_by_rank : list (json * member);
  tenure_by_rank : list (json * member)
}.

Definition empty : buckets :=
  {| excluded := []; teaching_by_rank := []; tenure_by_rank := [] |}.

(** The body of the loop. *)
Definition consider (st : buckets) (f : json) : result buckets :=
  bind (subscript f "is_full_time_here") (fun full_time =>
  if negb (truthy full_time) then Ok st else
  bind (is_clean_appointment f) (fun clean =>
  if negb clean
  then bind (subscript f "name") (fun n =>
       Ok {| excluded := excluded st ++ [n];
             teaching_by_rank := teaching_by_rank st;
             tenure_by_rank := tenure_by_rank st |})
  else
  bind (subscript f "faculty_type") (fun faculty_type =>
  bind (subscript f "rank") (fun r =>
  let rank := normalize_rank r faculty_type in
  bind (get_primary_faculty_salary f) (fun primary_salary =>
  if py_eq primary_salary zero then Ok st else
  let entry :=
    bind (hashable rank) (fun _ =>
    bind (subscript f "name") (fun n =>
    bind (subscript f "total_present_salary") (fun total =>
    Ok (rank, {| member_name := n; salary := primary_salary; total_salary := total |})))) in
  if is_str faculty_type "teaching"
  then bind entry (fun e =>
       Ok {| excluded := excluded st;
             teaching_by_rank := teaching_by_rank st ++ [e];
             tenure_by_rank := tenure_by_rank st |})
  else if is_str faculty_type "tenure_track"
  then bind entry (fun e =>
       Ok {| excluded := excluded st;
             teaching_by_rank := teaching_by_rank st;
             tenure_by_rank := tenure_by_rank st ++ [e] |})
  else Ok st))))).

(** The loop of [main] over the faculty of the loaded artifact. *)
Definition aggregate (data : json) : result buckets :=
  bind (subscript data "faculty") (fun fs =>
  bind (iterate fs) (foldM consider empty)).

End Analyze.

(* ================================================================= *)
(** * The specification's notions *)

Module Spec.

(** ** Primary position *)

(** [p] is the earliest position of greatest present salary among the
    positions of [l] whose salary is positive. *)
Definition first_greatest_positive {A} (key : A -> pyfloat) (l : list A) (p : A) : Prop :=
  exists before after,
    l = before ++ p :: after
    /\ py_gt (key p) zero = true
    /\ (forall q, In q before -> py_gt (key q) zero = true -> py_lt (key q) (key p) = true)
    /\ (forall q, In q after -> py_gt (key q) zero = true -> py_le (key q) (key p) = true).

(** What [primary_position] is to return on the positions [l]. *)
Definition primary_of {A} (key : A -> pyfloat) (l : list A) (r : option A) : Prop :=
  match l with
  | [] => r = None
  | first :: _ =>
      if existsb (fun p => py_gt (key p) zero) l
      then exists p, r = Some p /\ first_greatest_positive key l p
      else r = Some first
  end.

Definition non_negative (x : pyfloat) : Prop := py_ge x zero = true.

(** ** Currency strings *)

Definition flatten (l : list string) : string := fold_right String.append EmptyString l.

(** ["$" head ("," group)* "." cents] *)
Definition currency_text (head : string) (groups : list string) (cents : string) : string :=
  ("$" ++ head ++ flatten (map (String ",") groups) ++ "." ++ cents)%string.

(** One to three digits, groups of three digits, two decimals. *)
Definition currency_form (head : string) (groups : list string) (cents : string) : bool :=
  all_digits head && (1 <=? String.length head)%nat && (String.length head <=? 3)%nat
  && forallb (fun g => all_digits g && (String.length g =? 3)%nat) groups
  && all_digits cents && (String.length cents =? 2)%nat.

(** The amount written, in hundredths, read off the digits. *)
Definition currency_amount (head : string) (groups : list string) (cents : string) : Q :=
  (Z.of_N (digits_value 0 (head ++ flatten groups ++ cents)%string) # 100)%Q.

(** Every character of the string passes the test. *)
Fixpoint every (P : ascii -> bool) (s : string) : bool :=
  match s with
  | EmptyString => true
  | String c r => P c && every P r
  end.

(** The character occurs in the string. *)
Fixpoint occurs (c : ascii) (s : string) : bool :=
  match s with
  | EmptyString => false
  | String d r => Ascii.eqb c d || occurs c r
  end.

(** The characters of which the texts of numbers are made: digits,
    the point, the signs, the underscore, the white space that [float]
    skips, and, in either case, the letter of the exponent and the
    letters of "infinity" and "nan". *)
Definition numeral_char (c : ascii) : bool :=
  is_digit c || is_float_space c || occurs (lower_char c) ".+-_einftya".

(** The characters of which the texts of amounts are made: those of
    numbers, the dollar sign, the separator, and the white space that
    [str.strip] removes. *)
Definition amount_char (c : ascii) : bool :=
  numeral_char c || is_space c || Ascii.eqb c "$" || Ascii.eqb c ",".

(** The string holds a character that no amount holds. *)
Definition foreign (s : string) : bool := negb (every amount_char s).

(** The string holds neither a digit nor the letter n, which every
    spelling of an infinity or of NaN holds. *)
Definition numberless (s : string) : bool :=
  every (fun c => negb (is_digit c) && negb (Ascii.eqb (lower_char c) "n")) s.

Definition money_char (c : ascii) : bool :=
  is_digit c || Ascii.eqb c "," || Ascii.eqb c "." || Ascii.eqb c "$".

(** Digits, thousands separators, decimal points and dollar signs only. *)
Fixpoint money_text (s : string) : bool :=
  match s with
  | EmptyString => true
  | String c r => money_char c && money_text r
  end.

(** ** Rank rules *)

(** An ordered rule table: the first rule that matches decides. *)
Fixpoint first_match (rules : list ((string -> bool) * string)) (default title : string)
  : string :=
  match rules with
  | [] => default
  | (matches, category) :: rest =>
      if matches title then category else first_match rest default title
  end.

Definition any_of (keywords : list string) (title : string) : bool :=
  existsb (fun kw => contains kw title) keywords.

(** The priority scan of the rank derivation, for given keywords of the
    assistant and associate ranks. *)
Definition rank_rules (assistant associate : list string) : list ((string -> bool) * string) :=
  [ (any_of assistant, "assistant");
    (any_of associate, "associate");
    (contains "PROF", "full");
    (fun t => contains "LECTURER" t && contains "SR" t, "senior_lecturer");
    (contains "LECTURER", "lecturer");
    (contains "INSTR", "instructor") ].

Definition rank_by_rules (assistant associate : list string) (title : string) : string :=
  first_match (rank_rules assistant associate) "other" (upper title).

(** ** Runs *)

(** The exit status of the interpreter: 1 when an exception escapes. *)
Definition exit_status {A} (run : result A) : nat :=
  match run with
  | Ok _ => 0
  | Raise _ => 1
  end.

(** ** Department headings *)

(** An [h3] start tag that carries an [id] attribute. *)
Definition is_heading (e : Html.event) : bool :=
  match e with
  | Html.StartTag tag attrs =>
      String.eqb tag "h3" && existsb (fun kv => String.eqb (fst kv) "id") attrs
  | _ => false
  end.

(** A department has an identifier that is present and not empty, and
    its members carry that identifier. *)
Definition attributed_department (kv : option string * Html.Dept) : Prop :=
  truthy_id (fst kv) = true
  /\ Forall (fun f => Html.department f = fst kv) (Html.faculty (snd kv)).

Definition attributed (self : Html.GrayBookHTMLParser) : Prop :=
  Forall attributed_department (Html.departments self).

(** ** Rows of the table walker *)

(** A row that [_process_row] turns into a position. *)
Definition processed (row : list string) : bool :=
  (8 <=? List.length row)%nat && negb (contains "Employee Total" (nth 1 row "")).

(** The position read from a row. *)
Definition position_of_row (row : list string) (p : Html.Position) : Prop :=
  Html.title p = nth 1 row ""
  /\ Html.tenure_code p = nth 2 row ""
  /\ Html.empl_class p = nth 3 row ""
  /\ Html.parse_fte (nth 4 row "") = Ok (Html.present_fte p)
  /\ Html.parse_fte (nth 5 row "") = Ok (Html.proposed_fte p)
  /\ Html.parse_salary (nth 6 row "") = Ok (Html.present_salary p)
  /\ Html.parse_salary (nth 7 row "") = Ok (Html.proposed_salary p).

(** The members assembled so far in a department. *)
Definition faculty_of (self : Html.GrayBookHTMLParser) (id : option string)
  : list Html.FacultyMember :=
  match dict_get Html.dept_eqb (Html.departments self) id with
  | Some dept => Html.faculty dept
  | None => []
  end.

(** A row named [name] continues the member [m]. *)
Definition continues (name : string) (m : Html.FacultyMember) : bool :=
  String.eqb name "" || String.eqb name (Html.name m).

Definition new_member (id : option string) (name : string) (p : Html.Position)
  : Html.FacultyMember :=
  {| Html.name := name; Html.department := id; Html.positions := [p] |}.

(** Where the position of a row goes: to the last member when the row
    continues it, to a new member otherwise. *)
Definition place (faculty : list Html.FacultyMember) (id : option string)
    (name : string) (p : Html.Position) : list Html.FacultyMember :=
  match unsnoc faculty with
  | Some (earlier, m) =>
      if continues name m then earlier ++ [Html.add_position m p]
      else faculty ++ [new_member id name p]
  | None => [new_member id name p]
  end.

(** A property of departments that holds of a new department and is
    kept when the position of a row is placed. *)
Definition kept_by_rows (P : option string * Html.Dept -> Prop) (id : option string)
    (row : list string) : Prop :=
  forall pos,
    position_of_row row pos ->
    P (id, {| Html.dept_name := id; Html.faculty := [] |})
    /\ forall dept,
        P (id, dept) ->
        P (id, {| Html.dept_name := Html.dept_name dept;
                  Html.faculty := place (Html.faculty dept) id (nth 0 row "") pos |}).

(** The salaries of a position are not negative. *)
Definition salaries_non_negative (p : Html.Position) : Prop :=
  non_negative (Html.present_salary p) /\ non_negative (Html.proposed_salary p).

(** A match of the entry pattern: both FTE groups are numerals and both
    salary groups are money texts. *)
Definition readable (s : string) : bool :=
  match float s with
  | Ok _ => true
  | Raise _ => false
  end.

Definition entry_well_formed (m : Docx.entry_match) : bool :=
  readable (Docx.group4 m) && readable (Docx.group5 m)
  && money_text (Docx.group6 m) && money_text (Docx.group7 m).

Definition docx_salaries_non_negative (p : Docx.Position) : Prop :=
  non_negative (Docx.present_salary p) /\ non_negative (Docx.proposed_salary p).

(** ** Auxiliary notions *)

(** All 256 characters. *)
Definition all_ascii : list ascii := Eval vm_compute in map ascii_of_nat (seq 0 256).

(** Digits and the decimal point. *)
Definition plain_char (c : ascii) : bool := is_digit c || Ascii.eqb c ".".

Fixpoint plain (s : string) : bool :=
  match s with
  | EmptyString => true
  | String c r => plain_char c && plain r
  end.

(** A float compares with itself exactly when it is not NaN. *)
Definition ordered (x : pyfloat) : Prop := py_le x x = true.

Definition positive {A} (key : A -> pyfloat) (p : A) : bool := py_gt (key p) zero.

(** The loop invariant of the DOCX assembler. *)
Definition docx_invariant (st : Docx.assembler) : Prop :=
  Forall (fun f => Forall docx_salaries_non_negative (Docx.positions f)) (Docx.faculty st)
  /\ Forall docx_salaries_non_negative (Docx.current_positions st).

(** A position of an artifact record with the given title and a faculty
    employment class. *)
Definition faculty_position (p : json) (title : string) : Prop :=
  Analyze.subscript p "title" = Ok (JStr title)
  /\ exists c, Analyze.subscript p "empl_class" = Ok c /\ Analyze.is_faculty_class c = true.

(** ** The intermediate artifact *)

(** The fields of a record of the artifact. *)
Definition artifact_fields : list string :=
  ["name"; "faculty_type"; "rank"; "is_full_time_here"; "is_joint_appointment";
   "total_present_salary"; "total_proposed_salary"; "total_present_fte"; "positions"].

(** The fields that the DOCX entry point writes. *)
Definition docx_fields : list string :=
  ["name"; "faculty_type"; "rank"; "is_full_time";
   "total_present_salary"; "total_proposed_salary"; "total_present_fte"; "positions"].

(** ** Tracks *)

Inductive track : Type := Teaching | Research | TenureTrack.

(** The track in which the classifier places a title: the faculty type
    that [faculty_type] derives from it, when that is one of the three
    tracks. *)
Definition track_of_title (title : string) : option track :=
  let t := Html.faculty_type_of_title title in
  if String.eqb t "teaching" then Some Teaching
  else if String.eqb t "research" then Some Research
  else if String.eqb t "tenure_track" then Some TenureTrack
  else None.

(** The titles span more than one track. *)
Definition spans_tracks (titles : list string) : Prop :=
  exists t1 t2 k1 k2,
    In t1 titles /\ In t2 titles
    /\ track_of_title t1 = Some k1 /\ track_of_title t2 = Some k2 /\ k1 <> k2.

(** The keywords of the teaching rule of the classifier. *)
Definition teaching_keywords : list string :=
  ["TCH "; "TEACHING"; "SR. LECTURER"; "SR LECTURER"; "LECTURER"].

(** A title whose track the scan of the aggregator recognises: when it
    is a teaching title it carries a keyword of the teaching rule (it is
    not teaching through "INSTR" alone), and when it is a tenure-track
    title it contains neither "TCH" nor "RES". *)
Definition recognised (title : string) : Prop :=
  (track_of_title title = Some Teaching -> any_of teaching_keywords (upper title) = true)
  /\ (track_of_title title = Some TenureTrack ->
      contains "TCH" (upper title) = false /\ contains "RES" (upper title) = false).

(** Two of the titles are placed in different tracks, and the scan of
    the aggregator recognises both. *)
Definition spans_recognised_tracks (titles : list string) : Prop :=
  exists t1 t2 k1 k2,
    In t1 titles /\ In t2 titles
    /\ track_of_title t1 = Some k1 /\ track_of_title t2 = Some k2 /\ k1 <> k2
    /\ recognised t1 /\ recognised t2.

(** The test of the aggregator for a track, on an upper-cased title. *)
Definition scan (k : track) : string -> bool :=
  match k with
  | Teaching => Analyze.teaching_title
  | Research => Analyze.research_title
  | TenureTrack => Analyze.tenure_track_title
  end.

End Spec.

Import Spec.

(* ================================================================= *)
(** * Sample records *)

Module Example.

Definition html_position (title class : string) (salary : pyfloat) : Html.Position :=
  {| Html.title := title; Html.tenure_code := ""; Html.empl_class := class;
     Html.present_fte := Finite 1%Q; Html.proposed_fte := Finite 1%Q;
     Html.present_salary := salary; Html.proposed_salary := salary |}.

Definition html_member (positions : list Html.Position) : Html.FacultyMember :=
  {| Html.name := "Smith, Jane"; Html.department := Some "c42-d6";
     Html.positions := positions |}.

Definition docx_position (title : string) (salary : pyfloat) : Docx.Position :=
  {| Docx.title := title; Docx.tenure_code := ""; Docx.empl_class := "";
     Docx.present_fte := Finite 1%Q; Docx.proposed_fte := Finite 1%Q;
     Docx.present_salary := salary; Docx.proposed_salary := salary |}.

(** The built-in [sum] without rounding, on finite summands. *)
Definition exact_sum (l : list pyfloat) : pyfloat :=
  fold_left (fun acc x =>
               match acc, x with
               | Finite a, Finite b => Finite (Qred (a + b))
               | _, _ => NaN
               end) l zero.

Definition docx_member (positions : list Docx.Position) : Docx.FacultyMember :=
  Docx.new_FacultyMember exact_sum "Smith, Jane" positions.

(** A stipend, a professorship, and a second appointment of the same salary. *)
Definition three_html : Html.FacultyMember :=
  html_member [html_position "ADMIN STIPEND" "BA" (Finite 5000%Q);
               html_position "PROF" "AA" (Finite 150000%Q);
               html_position "DEPT HEAD" "AA" (Finite 150000%Q)].

Definition three_docx : Docx.FacultyMember :=
  docx_member [docx_position "ADMIN STIPEND" (Finite 5000%Q);
               docx_position "PROF" (Finite 150000%Q);
               docx_position "DEPT HEAD" (Finite 150000%Q)].

(** A member whose first salary is negative and whose second is zero. *)
Definition negative_first : Docx.FacultyMember :=
  docx_member [docx_position "ADJUSTMENT" (Finite (-1)%Q); docx_position "PROF" zero].

(** The events of one table row. *)
Definition row_events (cells : list string) : list Html.event :=
  Html.StartTag "tr" []
  :: flat_map (fun c => [Html.StartTag "td" []; Html.Data c; Html.EndTag "td"]) cells
  ++ [Html.EndTag "tr"].

Definition heading : list Html.event :=
  [Html.StartTag "h3" [("id", Some "c42-d6")];
   Html.Data "434 - Siebel School Comp & Data Sci";
   Html.EndTag "h3"].

Definition smith_row : list string :=
  ["Smith, Jane"; "PROF"; "A"; "AA"; "1.00"; "1.00"; "$150,000.00"; "$155,000.00"].

Definition stipend_row : list string :=
  [""; "ADMIN STIPEND"; ""; "BA"; "0.00"; "0.00"; "$5,000.00"; "$5,000.00"].

Definition refund_row : list string :=
  ["Doe, John"; "LECTURER"; ""; "AA"; "1.00"; "1.00"; "-5.00"; "$0.00"].

Definition table (rows : list (list string)) : list Html.event :=
  Html.StartTag "table" [] :: flat_map row_events rows ++ [Html.EndTag "table"].

(** The walker once the heading of the department has been seen. *)
Definition in_department : Html.GrayBookHTMLParser :=
  Html.set_current_dept_id Html.init (Some "c42-d6").

Definition smith_match : Docx.entry_match :=
  {| Docx.group1 := "Smith, Jane"; Docx.group2 := "PROF"; Docx.group3 := "A";
     Docx.group4 := "1"; Docx.group5 := "1";
     Docx.group6 := "150,000.00"; Docx.group7 := "155,000.00" |}.

(** A lecturer who is also a research assistant professor. *)
Definition split_entry (full_time : bool) : json :=
  JObj [("name", JStr "Doe, John");
        ("is_full_time_here", JBool full_time);
        ("positions",
         JArr [JObj [("title", JStr "LECTURER"); ("empl_class", JStr "AA")];
               JObj [("title", JStr "RES ASST PROF"); ("empl_class", JStr "AA")]])].

(** A full-time entry with two positions of a faculty class. *)
Definition titled_entry (title1 title2 : string) : json :=
  JObj [("name", JStr "Doe, John");
        ("is_full_time_here", JBool true);
        ("positions",
         JArr [JObj [("title", JStr title1); ("empl_class", JStr "AA")];
               JObj [("title", JStr title2); ("empl_class", JStr "AA")]])].

(** A document of another department. *)
Definition physics_text : string := "101 - Physics Doe, John PROF A 1 1 $1.00 $1.00".

Definition physics_headings : list (string * string) := [("c1-d1", "101 - Physics")].

Definition physics_events : list Html.event :=
  [Html.StartTag "h3" [("id", Some "c1-d1")]; Html.Data "101 - Physics"; Html.EndTag "h3"]
  ++ table [smith_row].

Definition siebel_text : string :=
  "434 - Siebel School Comp & Data Sci Smith, Jane PROF A 1 1 $150,000.00 $155,000.00".

End Example.

Unset Implicit Arguments.

(* ================================================================= *)
(** * Shapes of the data that the pipelines build *)

Module Shape.

(** The events of one cell of a table row. *)
Definition cell_events (c : string) : list Html.event :=
  [Html.StartTag "td" []; Html.Data c; Html.EndTag "td"].

(** The event opens, or closes, an element of the given name. *)
Definition is_start (name : string) (e : Html.event) : bool :=
  match e with
  | Html.StartTag tag _ => String.eqb tag name
  | _ => false
  end.

Definition is_end (name : string) (e : Html.event) : bool :=
  match e with
  | Html.EndTag tag => String.eqb tag name
  | _ => false
  end.

(** No row is open, and the walker is outside a table or inside a header. *)
Definition between_rows (self : Html.GrayBookHTMLParser) : Prop :=
  Html.in_row self = false
  /\ (Html.in_table self = false \/ Html.in_thead self = true).

(** The positions of a department, in the order of its members. *)
Definition all_positions_of (fs : list Html.FacultyMember) : list Html.Position :=
  flat_map Html.positions fs.

(** No two adjacent names are the same. *)
Fixpoint distinct_neighbours (names : list string) : Prop :=
  match names with
  | a :: (b :: _) as rest => a <> b /\ distinct_neighbours rest
  | _ => True
  end.

(** Adjacent names differ, and only the first name may be empty. *)
Definition well_named (names : list string) : Prop :=
  distinct_neighbours names /\ Forall (fun n => n <> "") (tl names).

(** Each member holds a position, and the names are [well_named]. *)
Definition department_well_formed (kv : option string * Html.Dept) : Prop :=
  Forall (fun f => Html.positions f <> []) (Html.faculty (snd kv))
  /\ well_named (map Html.name (Html.faculty (snd kv))).

(** The count that the summary of the artifact holds under [key]. *)
Definition summary_of (out : json) (key : string) : result json :=
  bind (Analyze.subscript out "summary") (fun s => Analyze.subscript s key).

(** The heading that [extract_department_section] looks for. *)
Definition heading_of (dept_code dept_name : string) : string :=
  (dept_code ++ " - " ++ dept_name)%string.

(** The width of a section that no page break ends. *)
#[warnings="-abstract-large-number"]
Definition section_limit : nat := 10000.

(** The entry is skipped as a department header. *)
Definition is_header (m : Docx.entry_match) : bool :=
  let name := strip (Docx.group1 m) in
  contains "Siebel School" name || contains "Engineering" name
  || contains "Board of Trustees" name.

(** The position that the loop body builds from the groups of a match. *)
Definition position_of_match (m : Docx.entry_match) : result Docx.Position :=
  bind (float (Docx.group4 m)) (fun present_fte =>
  bind (float (Docx.group5 m)) (fun proposed_fte =>
  bind (Docx.parse_salary (Docx.group6 m)) (fun present_salary =>
  bind (Docx.parse_salary (Docx.group7 m)) (fun proposed_salary =>
  Ok {| Docx.title := strip (Docx.group2 m); Docx.tenure_code := Docx.group3 m;
        Docx.empl_class := ""; Docx.present_fte := present_fte;
        Docx.proposed_fte := proposed_fte; Docx.present_salary := present_salary;
        Docx.proposed_salary := proposed_salary |})))).

(** What the entry pattern ensures of a match: [float] reads both FTE
    groups, and the name is not blank. *)
Definition entry_named (m : Docx.entry_match) : bool :=
  readable (Docx.group4 m) && readable (Docx.group5 m)
  && (is_header m || negb (String.eqb (strip (Docx.group1 m)) "")).

(** A member of the DOCX pipeline holds a position, has a name, and its
    stored totals are the sums over its positions. *)
Definition docx_member_well_formed (fsum : list pyfloat -> pyfloat) (f : Docx.FacultyMember)
  : Prop :=
  Docx.positions f <> [] /\ Docx.name f <> ""
  /\ Docx.total_present_salary f = fsum (map Docx.present_salary (Docx.positions f))
  /\ Docx.total_proposed_salary f = fsum (map Docx.proposed_salary (Docx.positions f))
  /\ Docx.total_present_fte f = fsum (map Docx.present_fte (Docx.positions f)).

(** The state of the loop after the positions [done] have been read. *)
Definition docx_progress (st : Docx.assembler) (done : list Docx.Position) : Prop :=
  match Docx.current_name st with
  | None => Docx.faculty st = [] /\ Docx.current_positions st = [] /\ done = []
  | Some current =>
      current <> "" /\ Docx.current_positions st <> []
      /\ flat_map Docx.positions (Docx.faculty st) ++ Docx.current_positions st = done
      /\ distinct_neighbours (map Docx.name (Docx.faculty st) ++ [current])
  end.

(** [p.empl_class in (AA, AB, AL, AM)] *)
Definition faculty_class (p : Html.Position) : bool :=
  existsb (String.eqb (Html.empl_class p)) ["AA"; "AB"; "AL"; "AM"].

Definition faculty_positions (h : Html.FacultyMember) : list Html.Position :=
  filter faculty_class (Html.positions h).

(** The answer of the clean-appointment test, read off the positions. *)
Definition clean_positions (h : Html.FacultyMember) : bool :=
  match faculty_positions h with
  | [] => false
  | _ :: _ =>
      let titles := map (fun p => upper (Html.title p)) (faculty_positions h) in
      (Analyze.count_true [existsb Analyze.teaching_title titles;
                           existsb Analyze.research_title titles;
                           existsb Analyze.tenure_track_title titles] <=? 1)%nat
  end.

(** The salary that the analysis compares: the greatest positive present
    salary among the positions of a faculty employment class. *)
Definition compared_salary (h : Html.FacultyMember) : pyfloat :=
  match filter (positive Html.present_salary) (faculty_positions h) with
  | [] => zero
  | p :: rest => Html.present_salary (max_from Html.present_salary p rest)
  end.

(** The bucket members have positive salaries. *)
Definition salaries_positive (st : Analyze.buckets) : Prop :=
  Forall (fun rm => py_gt (Analyze.salary (snd rm)) zero = true)
         (Analyze.teaching_by_rank st ++ Analyze.tenure_by_rank st).

(** How many members the analysis has kept or excluded. *)
Definition bucket_size (st : Analyze.buckets) : nat :=
  List.length (Analyze.teaching_by_rank st) + List.length (Analyze.tenure_by_rank st)
  + List.length (Analyze.excluded st).

(** A document with one department: a professor with an administrative stipend. *)
Definition sample_matches : list (string * string) :=
  [("c42-d6", "434 - Siebel School Comp & Data Sci")].

Definition sample_events : list Html.event :=
  Example.heading ++ Example.table [Example.smith_row; Example.stipend_row].

End Shape.
Import Shape.

(* ================================================================= *)
(** * Characters and strings *)

Lemma ascii_forall (P : ascii -> bool) :
  forallb P all_ascii = true -> forall c, P c = true.
Proof.
  intros H c. rewrite forallb_forall in H. apply H.
  change all_ascii with (map ascii_of_nat (seq 0 256)).
  rewrite <- (ascii_nat_embedding c). apply in_map, in_seq.
  pose proof (nat_ascii_bounded c). lia.
Qed.

(** Decides a property of all characters by enumeration. *)
Ltac by_enumeration c :=
  revert c;
  match goal with
  | |- forall c, @?P c = true => apply (ascii_forall P); vm_compute; reflexivity
  end.

Lemma plain_char_facts c :
  implb (plain_char c)
        (negb (is_space c || is_float_space c) && negb (is_underscore c)
         && negb (Ascii.eqb c "-")
         && negb (Ascii.eqb c "+") && negb (Ascii.eqb (lower_char c) "i")
         && negb (Ascii.eqb (lower_char c) "n")) = true.
Proof. by_enumeration c. Qed.

Lemma digit_is_plain c : implb (is_digit c) (plain_char c && negb (Ascii.eqb c ".")) = true.
Proof. by_enumeration c. Qed.

Lemma digit_not_money_sep c :
  implb (is_digit c) (negb (Ascii.eqb c "$") && negb (Ascii.eqb c ",")) = true.
Proof. by_enumeration c. Qed.

Lemma money_char_cases c :
  implb (money_char c)
        (Ascii.eqb c "$" || Ascii.eqb c ","
         || (plain_char c && negb (Ascii.eqb c "$") && negb (Ascii.eqb c ","))) = true.
Proof. by_enumeration c. Qed.

Lemma append_assoc (a b c : string) : ((a ++ b) ++ c = a ++ (b ++ c))%string.
Proof. induction a; simpl; congruence. Qed.

Lemma remove_char_app c (a b : string) :
  remove_char c (a ++ b) = (remove_char c a ++ remove_char c b)%string.
Proof.
  induction a as [|d a IH]; simpl; [reflexivity|].
  destruct (Ascii.eqb d c); simpl; congruence.
Qed.

Lemma all_digits_app (a b : string) :
  all_digits (a ++ b) = all_digits a && all_digits b.
Proof. induction a as [|d a IH]; simpl; [reflexivity|]. rewrite IH, andb_assoc. reflexivity. Qed.

Lemma all_digits_plain s : all_digits s = true -> plain s = true.
Proof.
  induction s as [|c s IH]; simpl; [reflexivity|].
  intros H. apply andb_true_iff in H as [Hc Hs].
  pose proof (digit_is_plain c) as F. rewrite Hc in F. simpl in F.
  apply andb_true_iff in F as [F _]. rewrite F. simpl. auto.
Qed.

Lemma plain_app (a b : string) : plain (a ++ b) = plain a && plain b.
Proof. induction a as [|d a IH]; simpl; [reflexivity|]. rewrite IH, andb_assoc. reflexivity. Qed.

Lemma remove_money_sep_digits s :
  all_digits s = true ->
  remove_char "," (remove_char "$" s) = s.
Proof.
  induction s as [|c s IH]; simpl; [reflexivity|].
  intros H. apply andb_true_iff in H as [Hc Hs].
  pose proof (digit_not_money_sep c) as F. rewrite Hc in F. simpl in F.
  apply andb_true_iff in F as [F1 F2]. apply negb_true_iff in F1, F2.
  rewrite F1. simpl. rewrite F2. rewrite (IH Hs). reflexivity.
Qed.

(** What is left of a money text once the dollar signs and separators
    are removed is plain. *)
Lemma remove_money_sep_plain s :
  money_text s = true -> plain (remove_char "," (remove_char "$" s)) = true.
Proof.
  induction s as [|c s IH]; simpl; [reflexivity|].
  intros H. apply andb_true_iff in H as [Hc Hs].
  pose proof (money_char_cases c) as F. rewrite Hc in F. simpl in F.
  destruct (Ascii.eqb c "$") eqn:E1; [auto|].
  simpl. destruct (Ascii.eqb c ",") eqn:E2; [auto|].
  simpl in F. rewrite !andb_true_r in F. simpl. rewrite F. simpl. auto.
Qed.

Lemma plain_char_elim c :
  plain_char c = true ->
  is_space c || is_float_space c = false /\ is_underscore c = false
  /\ Ascii.eqb c "-" = false
  /\ Ascii.eqb c "+" = false /\ Ascii.eqb (lower_char c) "i" = false
  /\ Ascii.eqb (lower_char c) "n" = false.
Proof.
  intros H. pose proof (plain_char_facts c) as F. rewrite H in F. simpl in F.
  repeat (apply andb_true_iff in F as [F ?]).
  repeat split; apply negb_true_iff; assumption.
Qed.

(* ================================================================= *)
(** * [float] on plain numerals *)

Lemma drop_underscores_plain s :
  forall prev,
    plain s = true ->
    match prev with Some p => is_underscore p = false | None => True end ->
    drop_underscores prev s = Some s.
Proof.
  induction s as [|c s IH]; intros prev Hs Hprev; simpl.
  - destruct prev as [p|]; [rewrite Hprev|]; reflexivity.
  - simpl in Hs. apply andb_true_iff in Hs as [Hc Hs].
    destruct (plain_char_elim c Hc) as (_ & Hu & _).
    rewrite Hu. rewrite (IH (Some c) Hs Hu).
    destruct prev as [p|]; [rewrite Hprev|]; reflexivity.
Qed.

Lemma plain_char_no_space c :
  plain_char c = true -> is_space c = false /\ is_float_space c = false.
Proof.
  intros H. destruct (plain_char_elim c H) as (Hsp & _).
  apply orb_false_iff in Hsp. exact Hsp.
Qed.

Lemma strip_by_plain (space : ascii -> bool) s :
  (forall c, plain_char c = true -> space c = false) ->
  plain s = true -> strip_by space s = s.
Proof.
  intros Hspace H. unfold strip_by.
  assert (L : lstrip_by space s = s).
  { destruct s as [|c s]; simpl; [reflexivity|].
    simpl in H. apply andb_true_iff in H as [Hc _].
    rewrite (Hspace c Hc). reflexivity. }
  rewrite L. clear L.
  induction s as [|c s IH]; simpl; [reflexivity|].
  simpl in H. apply andb_true_iff in H as [Hc Hs].
  rewrite (IH Hs). destruct s; [rewrite (Hspace c Hc)|]; reflexivity.
Qed.

Lemma strip_plain s : plain s = true -> strip s = s.
Proof. apply strip_by_plain. intros c Hc. apply (plain_char_no_space c Hc). Qed.

Lemma c_strip_plain s : plain s = true -> strip_by is_float_space s = s.
Proof. apply strip_by_plain. intros c Hc. apply (plain_char_no_space c Hc). Qed.

Lemma split_sign_plain s : plain s = true -> split_sign s = (false, s).
Proof.
  destruct s as [|c s]; simpl; [reflexivity|].
  intros H. apply andb_true_iff in H as [Hc _].
  destruct (plain_char_elim c Hc) as (_ & _ & Hm & Hp & _).
  rewrite Hm, Hp. reflexivity.
Qed.

Lemma parse_inf_or_nan_plain s : plain s = true -> parse_inf_or_nan s = None.
Proof.
  destruct s as [|c s]; [reflexivity|].
  simpl. intros H. apply andb_true_iff in H as [Hc _].
  destruct (plain_char_elim c Hc) as (_ & _ & _ & _ & Hi & Hn).
  unfold parse_inf_or_nan. simpl. rewrite Hi, Hn. reflexivity.
Qed.

(** On a plain string, [float] is the decimal reading rounded, or
    fails. *)
Lemma float_plain s :
  plain s = true ->
  float s = match parse_decimal s with
            | Some q => Ok (binary64 q)
            | None => Raise ValueError
            end.
Proof.
  intros H. unfold float.
  rewrite (drop_underscores_plain s None H I).
  rewrite (c_strip_plain s H), (split_sign_plain s H).
  destruct (parse_decimal s); [reflexivity|].
  rewrite (parse_inf_or_nan_plain s H). reflexivity.
Qed.

(** [float] raises nothing but [ValueError]. *)
Lemma float_only_ValueError s e : float s = Raise e -> e = ValueError.
Proof.
  unfold float.
  destruct (drop_underscores None s); [|congruence].
  destruct (split_sign (strip_by is_float_space s0)) as [neg body].
  destruct (parse_decimal body); [discriminate|].
  destruct (parse_inf_or_nan body); [discriminate|congruence].
Qed.

Lemma try_float_total s : exists v, try_except_ValueError (float s) (Ok zero) = Ok v.
Proof.
  destruct (float s) as [v|e] eqn:E; simpl; [eauto|].
  apply float_only_ValueError in E. subst. simpl. eauto.
Qed.

Lemma try_float_failed s :
  (forall v, float s <> Ok v) -> try_except_ValueError (float s) (Ok zero) = Ok zero.
Proof.
  intros H. destruct (float s) as [v|e] eqn:E; [elim (H v); reflexivity|].
  apply float_only_ValueError in E. subst. reflexivity.
Qed.

Lemma scale10_nonneg m e : (0 <= scale10 m e)%Q.
Proof.
  unfold scale10, Qle; destruct e; simpl; try lia.
  all: try (assert (0 < Z.pow_pos 10 p)%Z by (apply Z.pow_pos_nonneg; lia); nia).
Qed.

Lemma parse_decimal_nonneg s q : parse_decimal s = Some q -> (0 <= q)%Q.
Proof.
  unfold parse_decimal.
  destruct (span_digits s) as [ip r1]. destruct (split_fraction r1) as [fp r2].
  destruct (ip ++ fp)%string; [discriminate|].
  destruct (parse_exponent r2); [|discriminate].
  intros H. injection H as <-. apply scale10_nonneg.
Qed.

Lemma non_negative_Finite q : (0 <= q)%Q -> non_negative (Finite q).
Proof. intros H. unfold non_negative, py_ge, py_le, zero. apply Qle_bool_iff, H. Qed.

(* ================================================================= *)
(** * Rounding keeps the sign *)

Lemma round_half_even_nonneg num den :
  (0 <= num)%Z -> (0 < den)%Z -> (0 <= round_half_even num den)%Z.
Proof.
  intros Hn Hd. unfold round_half_even.
  pose proof (Z.div_pos num den Hn Hd).
  destruct (2 * (num mod den) ?= den)%Z; [destruct (Z.even _)|..]; lia.
Qed.

Lemma times_pow2_nonneg m p : (0 <= m)%Z -> (0 <= times_pow2 m p)%Q.
Proof.
  intros H. unfold times_pow2. rewrite Qred_correct.
  unfold Qle. destruct p; simpl; try lia.
  all: assert (0 < Z.pow_pos 2 p)%Z by (apply Z.pow_pos_nonneg; lia); nia.
Qed.

Lemma scaled_positive n d p num den :
  scaled n d p = (num, den) -> (0 <= num)%Z /\ (0 < den)%Z.
Proof.
  unfold scaled. destruct p as [|j|j]; intros H; injection H as <- <-; split; try lia.
  all: assert (0 < 2 ^ Zpos j)%Z by (apply Z.pow_pos_nonneg; lia);
    simpl in *; destruct (Z.pow_pos 2 j); lia.
Qed.

Lemma nearest_binary64_nonneg n d v : nearest_binary64 n d = Some v -> (0 <= v)%Q.
Proof.
  unfold nearest_binary64. cbv zeta.
  destruct (scaled n d _) as [num den] eqn:E.
  destruct (_ || _); [discriminate|]. intros H. injection H as <-.
  destruct (scaled_positive _ _ _ _ _ E) as [Hn Hd].
  apply times_pow2_nonneg, round_half_even_nonneg; assumption.
Qed.

(** The float nearest to a non-negative number is not negative. *)
Lemma binary64_non_negative q : (0 <= q)%Q -> non_negative (binary64 q).
Proof.
  destruct q as [n d]. unfold binary64, Qle. simpl. intros H.
  destruct n as [|n|n]; [apply non_negative_Finite, Qle_refl| |lia].
  destruct (nearest_binary64 n d) as [v|] eqn:E; [|reflexivity].
  apply non_negative_Finite, (nearest_binary64_nonneg n d v E).
Qed.

(** A plain string is read as a non-negative number, unreadable ones as
    zero. *)
Lemma try_float_plain_non_negative s :
  plain s = true ->
  exists v, try_except_ValueError (float s) (Ok zero) = Ok v /\ non_negative v.
Proof.
  intros H. rewrite (float_plain s H).
  destruct (parse_decimal s) as [q|] eqn:E; simpl.
  - exists (binary64 q). split.
    + destruct (binary64 q); reflexivity.
    + apply binary64_non_negative, (parse_decimal_nonneg s q E).
  - exists zero. split; [reflexivity|]. apply non_negative_Finite. apply Qle_refl.
Qed.

Lemma span_digits_all s : all_digits s = true -> span_digits s = (s, EmptyString).
Proof.
  induction s as [|c s IH]; simpl; [reflexivity|].
  intros H. apply andb_true_iff in H as [Hc Hs]. rewrite Hc, (IH Hs). reflexivity.
Qed.

Lemma span_digits_point (d rest : string) :
  all_digits d = true ->
  span_digits (d ++ String "." rest) = (d, String "." rest).
Proof.
  induction d as [|c d IH]; simpl; [reflexivity|].
  intros H. apply andb_true_iff in H as [Hc Hd]. rewrite Hc, (IH Hd). reflexivity.
Qed.

(** The reading of [digits "." fraction]. *)
Lemma parse_decimal_fixed (d f : string) :
  all_digits d = true -> all_digits f = true -> d <> EmptyString ->
  parse_decimal (d ++ String "." f)
  = Some (scale10 (digits_value 0 (d ++ f)) (- Z.of_nat (String.length f))).
Proof.
  intros Hd Hf Hne. unfold parse_decimal.
  rewrite span_digits_point by assumption. simpl. rewrite span_digits_all by assumption.
  destruct d as [|c d]; [congruence|]. reflexivity.
Qed.

(* ================================================================= *)
(** * The characters of the texts that [float] reads *)

Lemma every_app P (a b : string) : every P (a ++ b) = every P a && every P b.
Proof. induction a as [|c a IH]; simpl; [reflexivity|]. rewrite IH, andb_assoc. reflexivity. Qed.

Lemma every_impl (P Q : ascii -> bool) s :
  (forall c, P c = true -> Q c = true) -> every P s = true -> every Q s = true.
Proof.
  intros HPQ. induction s as [|c s IH]; simpl; [reflexivity|].
  intros H. apply andb_true_iff in H as [Hc Hs]. rewrite (HPQ c Hc), (IH Hs). reflexivity.
Qed.

Lemma digit_is_numeral c : implb (is_digit c) (numeral_char c) = true.
Proof. by_enumeration c. Qed.

Lemma float_space_is_numeral c : implb (is_float_space c) (numeral_char c) = true.
Proof. by_enumeration c. Qed.

Lemma spelling_is_numeral c :
  implb (occurs (lower_char c) "infinity" || occurs (lower_char c) "nan"
         || Ascii.eqb c "e" || Ascii.eqb c "E" || Ascii.eqb c "." || is_underscore c)
        (numeral_char c) = true.
Proof. by_enumeration c. Qed.

Lemma numeral_is_amount c :
  implb (numeral_char c || is_space c || Ascii.eqb c "," || Ascii.eqb c "$")
        (amount_char c) = true.
Proof. by_enumeration c. Qed.

Lemma all_digits_numeral s : all_digits s = true -> every numeral_char s = true.
Proof.
  induction s as [|c s IH]; simpl; [reflexivity|].
  intros H. apply andb_true_iff in H as [Hc Hs].
  pose proof (digit_is_numeral c) as F. rewrite Hc in F. simpl in F.
  rewrite F, (IH Hs). reflexivity.
Qed.

Lemma span_digits_split s :
  forall d r, span_digits s = (d, r) -> s = (d ++ r)%string /\ all_digits d = true.
Proof.
  induction s as [|c s IH]; simpl; intros d r H.
  - injection H as <- <-. auto.
  - destruct (is_digit c) eqn:E.
    + destruct (span_digits s) as [d' r'] eqn:S. injection H as <- <-.
      destruct (IH d' r' eq_refl) as [-> Hd]. simpl. rewrite E, Hd. auto.
    + injection H as <- <-. auto.
Qed.

Lemma split_sign_chars P s neg body :
  split_sign s = (neg, body) -> P "+"%char = true -> P "-"%char = true ->
  every P body = true -> every P s = true.
Proof.
  destruct s as [|c s]; simpl; intros H Hp Hm Hb.
  - injection H as _ <-. reflexivity.
  - destruct (Ascii.eqb c "-") eqn:E1.
    + apply Ascii.eqb_eq in E1. subst c. injection H as _ <-. rewrite Hm, Hb. reflexivity.
    + destruct (Ascii.eqb c "+") eqn:E2.
      * apply Ascii.eqb_eq in E2. subst c. injection H as _ <-. rewrite Hp, Hb. reflexivity.
      * injection H as _ <-. exact Hb.
Qed.

Lemma parse_exponent_chars s e : parse_exponent s = Some e -> every numeral_char s = true.
Proof.
  destruct s as [|c s]; [reflexivity|]. simpl.
  destruct (Ascii.eqb c "e" || Ascii.eqb c "E") eqn:E; [|discriminate].
  destruct (split_sign s) as [neg r'] eqn:Sg.
  destruct (span_digits r') as [ds rest] eqn:Sp.
  destruct ds as [|d ds]; [discriminate|]. destruct rest; [|discriminate]. intros _.
  pose proof (spelling_is_numeral c) as F.
  replace (_ || is_underscore c) with true in F
    by (symmetry; rewrite !orb_true_iff; apply orb_true_iff in E; tauto).
  simpl in F. rewrite F. simpl.
  apply (split_sign_chars numeral_char s neg r' Sg); try reflexivity.
  destruct (span_digits_split r' _ _ Sp) as [-> Hd].
  rewrite every_app, (all_digits_numeral _ Hd). reflexivity.
Qed.

Lemma split_fraction_chars s fp r :
  split_fraction s = (fp, r) -> every numeral_char r = true -> every numeral_char s = true.
Proof.
  destruct s as [|c s]; simpl; intros H Hr.
  - reflexivity.
  - destruct (Ascii.eqb c ".") eqn:E.
    + apply Ascii.eqb_eq in E. subst c.
      destruct (span_digits_split s _ _ H) as [-> Hd].
      rewrite every_app, (all_digits_numeral _ Hd), Hr. reflexivity.
    + injection H as _ <-. exact Hr.
Qed.

Lemma parse_decimal_chars s q : parse_decimal s = Some q -> every numeral_char s = true.
Proof.
  unfold parse_decimal.
  destruct (span_digits s) as [ip r1] eqn:S1.
  destruct (split_fraction r1) as [fp r2] eqn:S2.
  destruct (ip ++ fp)%string; [discriminate|].
  destruct (parse_exponent r2) as [e|] eqn:S3; [|discriminate]. intros _.
  destruct (span_digits_split s _ _ S1) as [-> Hd].
  rewrite every_app, (all_digits_numeral _ Hd). simpl.
  apply (split_fraction_chars r1 fp r2 S2), (parse_exponent_chars r2 e S3).
Qed.

Lemma lower_chars s : forall w, lower s = w -> every (fun c => occurs (lower_char c) w) s = true.
Proof.
  induction s as [|c s IH]; intros w H; [reflexivity|].
  simpl in H. subst w. simpl. rewrite Ascii.eqb_refl. simpl.
  apply (every_impl (fun x => occurs (lower_char x) (lower s))); [|apply IH; reflexivity].
  intros x Hx. rewrite Hx. apply orb_true_r.
Qed.

Lemma parse_inf_or_nan_chars s v : parse_inf_or_nan s = Some v -> every numeral_char s = true.
Proof.
  unfold parse_inf_or_nan. intros H.
  assert (W : exists w, lower s = w /\ (w = "inf" \/ w = "infinity" \/ w = "nan")).
  { destruct (String.eqb (lower s) "inf") eqn:E1;
      [apply String.eqb_eq in E1; eauto|].
    destruct (String.eqb (lower s) "infinity") eqn:E2;
      [apply String.eqb_eq in E2; eauto 6|].
    destruct (String.eqb (lower s) "nan") eqn:E3;
      [apply String.eqb_eq in E3; eauto 6|].
    simpl in H. discriminate H. }
  destruct W as (w & Hw & Hcase).
  apply (every_impl (fun c => occurs (lower_char c) w)); [|apply lower_chars, Hw].
  intros c Hc. pose proof (spelling_is_numeral c) as F.
  assert (G : occurs (lower_char c) "infinity" || occurs (lower_char c) "nan" = true).
  { destruct Hcase as [->|[->| ->]]; simpl in Hc |- *;
      repeat match goal with
             | |- context [Ascii.eqb ?a ?b] => destruct (Ascii.eqb a b); try discriminate
             end; reflexivity. }
  rewrite G in F. exact F.
Qed.

Lemma lstrip_chars P space s :
  (forall c, space c = true -> P c = true) ->
  every P (lstrip_by space s) = true -> every P s = true.
Proof.
  intros Hsp. induction s as [|c s IH]; simpl; [reflexivity|].
  destruct (space c) eqn:E; [|trivial].
  intros H. rewrite (Hsp c E), (IH H). reflexivity.
Qed.

Lemma rstrip_chars P space s :
  (forall c, space c = true -> P c = true) ->
  every P (rstrip_by space s) = true -> every P s = true.
Proof.
  intros Hsp. induction s as [|c s IH]; simpl; [reflexivity|].
  destruct (rstrip_by space s) as [|d r] eqn:R.
  - destruct (space c) eqn:E; intros H.
    + rewrite (Hsp c E), IH; reflexivity.
    + simpl in H. rewrite andb_true_r in H. rewrite H, IH; reflexivity.
  - intros H. simpl in H. apply andb_true_iff in H as [Hc Hr].
    rewrite Hc, IH; [reflexivity|]. exact Hr.
Qed.

Lemma strip_by_chars P space s :
  (forall c, space c = true -> P c = true) ->
  every P (strip_by space s) = true -> every P s = true.
Proof.
  intros Hsp H. apply (lstrip_chars P space s Hsp), (rstrip_chars P space _ Hsp), H.
Qed.

Lemma drop_underscores_chars P s :
  P "_"%char = true ->
  forall prev s1, drop_underscores prev s = Some s1 -> every P s1 = true -> every P s = true.
Proof.
  intros Hu. induction s as [|c s IH]; intros prev s1 H H1; [reflexivity|].
  simpl in H. simpl.
  destruct (is_underscore c) eqn:U.
  - apply Ascii.eqb_eq in U. subst c. rewrite Hu. simpl.
    destruct prev as [p|]; [|discriminate].
    destruct (is_digit p); [|discriminate]. apply (IH _ _ H H1).
  - assert (G : option_map (String c) (drop_underscores (Some c) s) = Some s1).
    { destruct prev as [p|]; [|exact H].
      destruct (is_underscore p && negb (is_digit c)); [discriminate|exact H]. }
    destruct (drop_underscores (Some c) s) as [s2|] eqn:D; [|discriminate].
    simpl in G. injection G as <-. simpl in H1.
    apply andb_true_iff in H1 as [Hc H2]. rewrite Hc. simpl. apply (IH _ _ D H2).
Qed.

(** A text that [float] reads is made of the characters of numbers. *)
Lemma float_chars s v : float s = Ok v -> every numeral_char s = true.
Proof.
  unfold float.
  destruct (drop_underscores None s) as [s1|] eqn:D; [|discriminate].
  destruct (split_sign (strip_by is_float_space s1)) as [neg body] eqn:Sg.
  intros H.
  assert (Hb : every numeral_char body = true).
  { destruct (parse_decimal body) as [q|] eqn:E; [apply (parse_decimal_chars body q E)|].
    destruct (parse_inf_or_nan body) as [w|] eqn:F; [|discriminate].
    apply (parse_inf_or_nan_chars body w F). }
  apply (drop_underscores_chars numeral_char s eq_refl None s1 D).
  apply (strip_by_chars numeral_char is_float_space).
  - intros c Hc. pose proof (float_space_is_numeral c) as F. rewrite Hc in F. exact F.
  - apply (split_sign_chars numeral_char _ neg body Sg); [reflexivity|reflexivity|exact Hb].
Qed.

Lemma remove_char_chars P c s :
  every P (remove_char c s) = true -> every (fun x => P x || Ascii.eqb x c) s = true.
Proof.
  induction s as [|d s IH]; simpl; [reflexivity|].
  destruct (Ascii.eqb d c) eqn:E; intros H.
  - rewrite orb_true_r. simpl. apply IH, H.
  - simpl in H. apply andb_true_iff in H as [Hd Hs]. rewrite Hd. simpl. apply IH, Hs.
Qed.

(** What remains of a text that holds a foreign character, once dollar
    signs, separators and the surrounding white space are removed, is
    not read by [float]. *)
Lemma float_foreign (space : ascii -> bool) s :
  (forall c, space c = true -> is_space c = true) ->
  foreign s = true ->
  float (strip_by space (remove_char "," (remove_char "$" s))) = Raise ValueError.
Proof.
  intros Hsp Hf.
  destruct (float _) as [v|e] eqn:E; [|apply float_only_ValueError in E; congruence].
  exfalso. apply float_chars in E.
  assert (E1 : every (fun c => numeral_char c || is_space c)
                 (strip_by space (remove_char "," (remove_char "$" s))) = true).
  { apply (every_impl numeral_char); [|exact E].
    intros c Hc. rewrite Hc. reflexivity. }
  apply (strip_by_chars _ space) in E1;
    [|intros c Hc; rewrite (Hsp c Hc); apply orb_true_r].
  apply remove_char_chars, remove_char_chars in E1.
  assert (E2 : every amount_char s = true).
  { revert E1. apply every_impl. intros c Hc.
    pose proof (numeral_is_amount c) as F. rewrite Hc in F. exact F. }
  unfold foreign in Hf. rewrite E2 in Hf. discriminate Hf.
Qed.

(* ================================================================= *)
(** * Texts without a number *)

Lemma lstrip_sub P space s : every P s = true -> every P (lstrip_by space s) = true.
Proof.
  induction s as [|c s IH]; simpl; [reflexivity|].
  intros H. destruct (space c); [|exact H].
  apply andb_true_iff in H as [_ Hs]. apply IH, Hs.
Qed.

Lemma rstrip_sub P space s : every P s = true -> every P (rstrip_by space s) = true.
Proof.
  induction s as [|c s IH]; simpl; [reflexivity|].
  intros H. apply andb_true_iff in H as [Hc Hs]. specialize (IH Hs).
  destruct (rstrip_by space s) as [|d r].
  - destruct (space c); simpl; [reflexivity|]. rewrite Hc. reflexivity.
  - simpl in *. rewrite Hc. exact IH.
Qed.

Lemma strip_by_sub P space s : every P s = true -> every P (strip_by space s) = true.
Proof. intros H. apply rstrip_sub, lstrip_sub, H. Qed.

Lemma remove_char_sub P c s : every P s = true -> every P (remove_char c s) = true.
Proof.
  induction s as [|d s IH]; simpl; [reflexivity|].
  intros H. apply andb_true_iff in H as [Hd Hs].
  destruct (Ascii.eqb d c); simpl; [|rewrite Hd]; apply IH, Hs.
Qed.

Lemma split_sign_sub P s : every P s = true -> every P (snd (split_sign s)) = true.
Proof.
  destruct s as [|c s]; simpl; [reflexivity|]. intros H.
  destruct (Ascii.eqb c "-"); [apply andb_true_iff in H; apply H|].
  destruct (Ascii.eqb c "+"); [apply andb_true_iff in H; apply H|exact H].
Qed.

Lemma drop_underscores_sub P s :
  forall prev s1, drop_underscores prev s = Some s1 -> every P s = true -> every P s1 = true.
Proof.
  induction s as [|c s IH]; intros prev s1 H Hs.
  - simpl in H. destruct prev as [p|]; [destruct (is_underscore p)|];
      try discriminate; injection H as <-; reflexivity.
  - simpl in H, Hs. apply andb_true_iff in Hs as [Hc Hs].
    destruct (is_underscore c).
    + destruct prev as [p|]; [|discriminate].
      destruct (is_digit p); [|discriminate]. apply (IH _ _ H Hs).
    + assert (G : option_map (String c) (drop_underscores (Some c) s) = Some s1).
      { destruct prev as [p|]; [|exact H].
        destruct (is_underscore p && negb (is_digit c)); [discriminate|exact H]. }
      destruct (drop_underscores (Some c) s) as [s2|] eqn:D; [|discriminate].
      simpl in G. injection G as <-. simpl. rewrite Hc. apply (IH _ _ D Hs).
Qed.

Lemma numberless_no_digit s : numberless s = true -> span_digits s = (EmptyString, s).
Proof.
  destruct s as [|c s]; simpl; [reflexivity|]. intros H.
  apply andb_true_iff in H as [Hc _]. apply andb_true_iff in Hc as [Hc _].
  apply negb_true_iff in Hc. rewrite Hc. reflexivity.
Qed.

Lemma parse_decimal_numberless s : numberless s = true -> parse_decimal s = None.
Proof.
  intros H. unfold parse_decimal. rewrite (numberless_no_digit s H).
  destruct s as [|c s]; [reflexivity|]. simpl.
  destruct (Ascii.eqb c "."); [|reflexivity].
  simpl in H. apply andb_true_iff in H as [_ Hs].
  rewrite (numberless_no_digit s Hs). reflexivity.
Qed.

Lemma lower_numberless s : numberless s = true -> occurs "n" (lower s) = false.
Proof.
  induction s as [|c s IH]; [reflexivity|]. intros H.
  unfold numberless in *. cbn [every] in H.
  apply andb_true_iff in H as [Hc Hs]. apply andb_true_iff in Hc as [_ Hn].
  apply negb_true_iff in Hn. cbn [lower occurs].
  rewrite (IH Hs), orb_false_r, Ascii.eqb_sym. exact Hn.
Qed.

Lemma parse_inf_or_nan_numberless s : numberless s = true -> parse_inf_or_nan s = None.
Proof.
  intros H. apply lower_numberless in H. unfold parse_inf_or_nan.
  destruct (String.eqb (lower s) "inf") eqn:E1;
    [apply String.eqb_eq in E1; rewrite E1 in H; discriminate H|].
  destruct (String.eqb (lower s) "infinity") eqn:E2;
    [apply String.eqb_eq in E2; rewrite E2 in H; discriminate H|].
  destruct (String.eqb (lower s) "nan") eqn:E3;
    [apply String.eqb_eq in E3; rewrite E3 in H; discriminate H|].
  reflexivity.
Qed.

(** A text with neither a digit nor the letter n is not read by
    [float]. *)
Lemma float_numberless s : numberless s = true -> float s = Raise ValueError.
Proof.
  intros H. unfold float.
  destruct (drop_underscores None s) as [s1|] eqn:D; [|reflexivity].
  destruct (split_sign (strip_by is_float_space s1)) as [neg body] eqn:Sg.
  assert (Hb : numberless body = true).
  { change body with (snd (neg, body)). rewrite <- Sg.
    apply split_sign_sub, strip_by_sub.
    apply (drop_underscores_sub _ _ None s1 D), H. }
  rewrite (parse_decimal_numberless body Hb), (parse_inf_or_nan_numberless body Hb).
  reflexivity.
Qed.

Lemma float_numberless_amount (space : ascii -> bool) s :
  numberless s = true ->
  float (strip_by space (remove_char "," (remove_char "$" s))) = Raise ValueError.
Proof.
  intros H. apply float_numberless, strip_by_sub, remove_char_sub, remove_char_sub, H.
Qed.

(** Stripping nothing. *)
Lemma strip_by_nothing s : strip_by (fun _ => false) s = s.
Proof.
  unfold strip_by. replace (lstrip_by (fun _ => false) s) with s by (destruct s; reflexivity).
  induction s as [|c s IH]; simpl; [reflexivity|]. rewrite IH. destruct s; reflexivity.
Qed.

(* ================================================================= *)
(** * Currency strings *)

Lemma unformat_groups (groups : list string) :
  forallb (fun g => all_digits g && (String.length g =? 3)%nat) groups = true ->
  remove_char "," (remove_char "$" (flatten (map (String ",") groups)))
  = flatten groups
  /\ all_digits (flatten groups) = true.
Proof.
  unfold flatten.
  induction groups as [|g gs IH]; simpl; [auto|].
  intros H. apply andb_true_iff in H as [Hg Hgs]. apply andb_true_iff in Hg as [Hg _].
  destruct (IH Hgs) as [IH1 IH2].
  rewrite !remove_char_app, IH1, all_digits_app, Hg, IH2.
  rewrite remove_money_sep_digits by assumption. auto.
Qed.

(** Removing the dollar sign and the separators of a currency string
    leaves its digits around the decimal point. *)
Lemma unformat_currency (head : string) (groups : list string) (cents : string) :
  currency_form head groups cents = true ->
  remove_char "," (remove_char "$" (currency_text head groups cents))
  = ((head ++ flatten groups) ++ String "." cents)%string
  /\ all_digits (head ++ flatten groups) = true
  /\ (head ++ flatten groups)%string <> EmptyString
  /\ all_digits cents = true
  /\ String.length cents = 2.
Proof.
  unfold currency_form, currency_text. intros H.
  repeat (apply andb_true_iff in H as [H ?]).
  destruct (unformat_groups groups) as [G1 G2]; [assumption|].
  repeat split.
  - simpl. rewrite !remove_char_app, G1.
    rewrite remove_money_sep_digits by assumption.
    simpl. rewrite remove_money_sep_digits by assumption.
    rewrite append_assoc. reflexivity.
  - rewrite all_digits_app, H, G2. reflexivity.
  - destruct head; [discriminate|]. simpl. discriminate.
  - assumption.
  - apply Nat.eqb_eq. assumption.
Qed.

Lemma float_currency_digits (d cents : string) :
  all_digits d = true -> d <> EmptyString ->
  all_digits cents = true -> String.length cents = 2 ->
  float (d ++ String "." cents)
  = Ok (binary64 (Z.of_N (digits_value 0 (d ++ cents)) # 100)%Q)
  /\ plain (d ++ String "." cents) = true.
Proof.
  intros Hd Hne Hc Hlen.
  assert (Hp : plain (d ++ String "." cents) = true).
  { rewrite plain_app. simpl.
    rewrite (all_digits_plain d Hd), (all_digits_plain cents Hc). reflexivity. }
  split; [|exact Hp].
  rewrite float_plain by exact Hp.
  rewrite parse_decimal_fixed by assumption.
  rewrite Hlen. reflexivity.
Qed.

Lemma html_parse_salary_clean s :
  Html.parse_salary s
  = try_except_ValueError
      (float (strip_by is_space (remove_char "," (remove_char "$" s)))) (Ok zero).
Proof. reflexivity. Qed.

Lemma docx_parse_salary_clean s :
  Docx.parse_salary s
  = try_except_ValueError
      (float (strip_by (fun _ => false) (remove_char "," (remove_char "$" s)))) (Ok zero).
Proof. unfold Docx.parse_salary. rewrite strip_by_nothing. reflexivity. Qed.

(** C3 (amended): [parse_salary] maps every currency string of the form
    ["$1,234.56"] (dollar sign, groups of thousands, two decimals) to the
    float nearest to the amount written, which is what the literal
    [1234.56] denotes; it never raises, whatever the string; and it maps
    to [0.0] every string that holds a character foreign to amounts, and
    every string that holds neither a digit nor the letter n; in both
    pipelines. *)
Theorem parse_salary_currency
    (head : string) (groups : list string) (cents : string) (s : string)
    (Hform : currency_form head groups cents = true) :
  Html.parse_salary (currency_text head groups cents)
    = Ok (binary64 (currency_amount head groups cents))
  /\ Docx.parse_salary (currency_text head groups cents)
    = Ok (binary64 (currency_amount head groups cents))
  /\ (exists v, Html.parse_salary s = Ok v)
  /\ (exists v, Docx.parse_salary s = Ok v)
  /\ (foreign s = true ->
      Html.parse_salary s = Ok zero /\ Docx.parse_salary s = Ok zero)
  /\ (numberless s = true ->
      Html.parse_salary s = Ok zero /\ Docx.parse_salary s = Ok zero).
Proof.
  destruct (unformat_currency head groups cents Hform) as (Hclean & Hd & Hne & Hc & Hlen).
  destruct (float_currency_digits _ _ Hd Hne Hc Hlen) as [Hfloat Hplain].
  split; [|split; [|split; [|split; [|split]]]].
  - unfold Html.parse_salary, currency_amount.
    rewrite Hclean, (strip_plain _ Hplain), Hfloat, <- append_assoc.
    destruct (binary64 _); reflexivity.
  - unfold Docx.parse_salary, currency_amount.
    rewrite Hclean, Hfloat, <- append_assoc.
    destruct (binary64 _); reflexivity.
  - apply try_float_total.
  - apply try_float_total.
  - intros Hf. rewrite html_parse_salary_clean, docx_parse_salary_clean.
    rewrite (float_foreign is_space s (fun c Hc => Hc) Hf).
    rewrite (float_foreign (fun _ => false) s (fun c Hc => False_ind _ (diff_false_true Hc)) Hf).
    split; reflexivity.
  - intros Hn. rewrite html_parse_salary_clean, docx_parse_salary_clean.
    rewrite !(float_numberless_amount _ s Hn). split; reflexivity.
Qed.

Lemma parse_salary_currency_witness :
  Html.parse_salary "$1,234.56" = Ok (binary64 1234.56%Q)
  /\ Docx.parse_salary "$1,234.56" = Ok (binary64 1234.56%Q)
  /\ Html.parse_salary "12abc" = Ok zero
  /\ Docx.parse_salary "N/A" = Ok zero
  /\ Html.parse_salary "--" = Ok zero.
Proof.
  destruct (parse_salary_currency "1" ["234"] "56" "12abc" eq_refl)
    as (H1 & H2 & _ & _ & H3 & _).
  destruct (parse_salary_currency "1" ["234"] "56" "N/A" eq_refl)
    as (_ & _ & _ & _ & H4 & _).
  destruct (parse_salary_currency "1" ["234"] "56" "--" eq_refl)
    as (_ & _ & _ & _ & _ & H5).
  split; [exact H1|]. split; [exact H2|]. split; [exact (proj1 (H3 eq_refl))|].
  split; [exact (proj2 (H4 eq_refl))|exact (proj1 (H5 eq_refl))].
Defined.

(** C3 as stated fails on the spellings that [float] accepts: "nan" has
    no numeric body, yet [parse_salary] returns NaN, which is not [0.0];
    likewise "inf" is read as infinity. *)
Lemma parse_salary_nan_counterexample :
  every (fun c => negb (is_digit c)) "nan" = true
  /\ Html.parse_salary "nan" = Ok NaN
  /\ Docx.parse_salary "nan" = Ok NaN
  /\ py_eq NaN zero = false
  /\ Html.parse_salary "$inf" = Ok (Inf false).
Proof. repeat split; reflexivity. Qed.

(** Rounding at work: a tie goes to the even neighbour, the largest
    float and the threshold of overflow, the smallest float and the
    threshold of underflow. *)
Lemma float_rounding_examples :
  float "9007199254740993" = Ok (Finite 9007199254740992%Q)
  /\ float "9007199254740995" = Ok (Finite 9007199254740996%Q)
  /\ float "1e23" = Ok (Finite 99999999999999991611392%Q)
  /\ float "1.7976931348623157e308" = Ok (Finite ((2 ^ 1024 - 2 ^ 971)%Z # 1)%Q)
  /\ float "1.797693134862315807e308" = Ok (Finite ((2 ^ 1024 - 2 ^ 971)%Z # 1)%Q)
  /\ float "1.797693134862315808e308" = Ok (Inf false)
  /\ float "5e-324" = Ok (Finite (1 # 2 ^ 1074)%Q)
  /\ float "2.4703282292062328e-324" = Ok (Finite (1 # 2 ^ 1074)%Q)
  /\ float "2.4703282292062327e-324" = Ok zero
  /\ float "-1e-400" = Ok zero.
Proof. repeat split; vm_compute; reflexivity. Qed.

(** The amounts beyond [2^53] are rounded, as every float is. *)
Lemma parse_salary_rounds_example :
  Html.parse_salary "$9,007,199,254,740,993.00" = Ok (Finite 9007199254740992%Q)
  /\ Html.parse_salary "$1,234.56" = Ok (Finite (2714826150374277 # 2199023255552)%Q)
  /\ float "1e400" = Ok (Inf false)
  /\ float "1e-400" = Ok zero
  /\ float "0.1" = Ok (Finite (3602879701896397 # 36028797018963968)%Q).
Proof. repeat split; vm_compute; reflexivity. Qed.

(* ================================================================= *)
(** * The order on floats *)

Lemma Qltb_iff a b : negb (Qle_bool b a) = true <-> (a < b)%Q.
Proof.
  rewrite negb_true_iff. split; intros H.
  - apply Qnot_le_lt. intros L. apply Qle_bool_iff in L. congruence.
  - destruct (Qle_bool b a) eqn:E; [|reflexivity].
    apply Qle_bool_iff in E. elim (Qlt_not_le _ _ H E).
Qed.

Ltac float_cases :=
  unfold ordered, py_gt, py_ge, py_lt, py_le;
  repeat match goal with
         | x : pyfloat |- _ => destruct x as [?q|[]|]
         end;
  simpl; intros; try discriminate; try reflexivity;
  repeat match goal with
         | H : negb (Qle_bool _ _) = true |- _ => apply Qltb_iff in H
         | H : Qle_bool _ _ = true |- _ => apply Qle_bool_iff in H
         | H : negb (Qle_bool _ _) = false |- _ => apply negb_false_iff in H
         | H : Qle_bool _ _ = false |- _ => apply negb_true_iff, Qltb_iff in H
         end;
  try apply Qltb_iff; try apply Qle_bool_iff.

Lemma py_lt_le x y : py_lt x y = true -> py_le x y = true.
Proof. float_cases; apply Qlt_le_weak; assumption. Qed.

Lemma py_lt_le_trans x y z : py_lt x y = true -> py_le y z = true -> py_lt x z = true.
Proof. float_cases; eapply Qlt_le_trans; eassumption. Qed.

Lemma py_le_lt_trans x y z : py_le x y = true -> py_lt y z = true -> py_lt x z = true.
Proof. float_cases; eapply Qle_lt_trans; eassumption. Qed.

Lemma py_gt_false_le x y :
  ordered x -> ordered y -> py_gt x y = false -> py_le x y = true.
Proof. float_cases; assumption. Qed.

Lemma py_lt_ordered_r x y : py_lt x y = true -> ordered y.
Proof. float_cases; apply Qle_refl. Qed.

Lemma non_negative_ordered x : non_negative x -> ordered x.
Proof.
  unfold non_negative, py_ge, ordered, py_le, zero.
  destruct x as [q|[]|]; intros H; try discriminate H; try reflexivity.
  apply Qle_bool_iff, Qle_refl.
Qed.

(* ================================================================= *)
(** * The first maximum *)

Section FirstMaximum.
Context {A : Type} (key : A -> pyfloat).

Lemma max_from_spec :
  forall rest before best mid,
    ordered (key best) ->
    Forall (fun q => ordered (key q)) rest ->
    (forall q, In q before -> py_lt (key q) (key best) = true) ->
    (forall q, In q mid -> py_le (key q) (key best) = true) ->
    exists l1 l2,
      before ++ best :: mid ++ rest = l1 ++ max_from key best rest :: l2
      /\ (forall q, In q l1 -> py_lt (key q) (key (max_from key best rest)) = true)
      /\ (forall q, In q l2 -> py_le (key q) (key (max_from key best rest)) = true).
Proof.
  induction rest as [|x rest IH]; intros before best mid Hbest Hrest Hbefore Hmid.
  - exists before, mid. rewrite app_nil_r. auto.
  - inversion Hrest as [|? ? Hx Hrest']; subst. simpl.
    destruct (py_gt (key x) (key best)) eqn:E.
    + destruct (IH (before ++ best :: mid) x [] Hx Hrest') as (l1 & l2 & Heq & H1 & H2).
      * intros q Hq. apply in_app_or in Hq as [Hq|[<-|Hq]].
        -- eapply py_lt_le_trans; [apply Hbefore, Hq|]. apply py_lt_le, E.
        -- exact E.
        -- eapply py_le_lt_trans; [apply Hmid, Hq|exact E].
      * intros q [].
      * exists l1, l2. split; [|auto].
        rewrite <- Heq, <- app_assoc. reflexivity.
    + destruct (IH before best (mid ++ [x]) Hbest Hrest') as (l1 & l2 & Heq & H1 & H2).
      * exact Hbefore.
      * intros q Hq. apply in_app_or in Hq as [Hq|[<-|[]]]; [apply Hmid, Hq|].
        apply py_gt_false_le; assumption.
      * exists l1, l2. split; [|auto].
        rewrite <- Heq, <- app_assoc. reflexivity.
Qed.

Lemma max_from_no_greater :
  forall rest best,
    (forall q, In q rest -> py_gt (key q) (key best) = false) ->
    max_from key best rest = best.
Proof.
  induction rest as [|x rest IH]; intros best H; simpl; [reflexivity|].
  rewrite (H x (or_introl eq_refl)). apply IH. intros q Hq. apply H. right. exact Hq.
Qed.

Lemma filter_split (f : A -> bool) :
  forall l a m b,
    filter f l = a ++ m :: b ->
    exists l1 l2, l = l1 ++ m :: l2 /\ filter f l1 = a /\ filter f l2 = b.
Proof.
  induction l as [|x l IH]; intros a m b H; simpl in H.
  - destruct a; discriminate.
  - destruct (f x) eqn:E.
    + destruct a as [|y a]; simpl in H; injection H as Hx H; subst.
      * exists [], l. auto.
      * destruct (IH _ _ _ H) as (l1 & l2 & -> & F1 & F2).
        exists (y :: l1), l2. simpl. rewrite E, F1. auto.
    + destruct (IH _ _ _ H) as (l1 & l2 & -> & F1 & F2).
      exists (x :: l1), l2. simpl. rewrite E. auto.
Qed.

Lemma existsb_filter (f : A -> bool) l :
  existsb f l = match filter f l with [] => false | _ => true end.
Proof.
  induction l as [|x l IH]; simpl; [reflexivity|].
  destruct (f x); simpl; [reflexivity|exact IH].
Qed.

(** The first maximum of the positive positions is the earliest
    position of greatest positive salary. *)
Lemma max_of_positive l p nonzero :
  filter (positive key) l = p :: nonzero ->
  first_greatest_positive key l (max_from key p nonzero).
Proof.
  intros Hf.
  assert (Hall : Forall (fun q => positive key q = true) (p :: nonzero)).
  { rewrite <- Hf. apply Forall_forall. intros q Hq. apply filter_In in Hq. tauto. }
  inversion Hall as [|? ? Hp Hnz]; subst.
  destruct (max_from_spec nonzero [] p []) as (a & b & Heq & Ha & Hb).
  - eapply py_lt_ordered_r, Hp.
  - eapply Forall_impl; [|exact Hnz]. intros q Hq. eapply py_lt_ordered_r, Hq.
  - intros q [].
  - intros q [].
  - simpl in Heq. rewrite Heq in Hf.
    destruct (filter_split (positive key) l _ _ _ Hf) as (l1 & l2 & -> & F1 & F2).
    exists l1, l2. split; [reflexivity|]. split.
    + assert (In (max_from key p nonzero) (p :: nonzero)) as Hin
          by (rewrite Heq; apply in_elt).
      rewrite Forall_forall in Hall. apply (Hall _ Hin).
    + split; intros q Hq Hpos.
      * apply Ha. rewrite <- F1. apply filter_In. auto.
      * apply Hb. rewrite <- F2. apply filter_In. auto.
Qed.

(** Without negative or NaN salaries, the first maximum of all the
    positions is, when some salary is positive, the first maximum of
    the positive ones, and the first position otherwise. *)
Lemma max_of_non_negative p rest :
  Forall (fun q => non_negative (key q)) (p :: rest) ->
  primary_of key (p :: rest) (Some (max_from key p rest)).
Proof.
  intros Hall. unfold primary_of.
  assert (Hord : Forall (fun q => ordered (key q)) (p :: rest)).
  { eapply Forall_impl; [|exact Hall]. intros q Hq. apply non_negative_ordered, Hq. }
  destruct (existsb (fun q => py_gt (key q) zero) (p :: rest)) eqn:Ex.
  - exists (max_from key p rest). split; [reflexivity|].
    inversion Hord as [|? ? Hp Hrest]; subst.
    destruct (max_from_spec rest [] p [] Hp Hrest) as (a & b & Heq & Ha & Hb);
      try (intros q []).
    simpl in Heq. exists a, b. split; [exact Heq|].
    split; [|split; intros q Hq _; auto].
    apply existsb_exists in Ex as (q & Hq & Hpos).
    rewrite Heq in Hq. apply in_app_or in Hq as [Hq|[<-|Hq]].
    + eapply py_lt_le_trans; [exact Hpos|]. apply py_lt_le, Ha, Hq.
    + exact Hpos.
    + eapply py_lt_le_trans; [exact Hpos|]. apply Hb, Hq.
  - f_equal. apply max_from_no_greater. intros q Hq.
    destruct (py_gt (key q) (key p)) eqn:E; [|reflexivity].
    assert (existsb (fun q => py_gt (key q) zero) (p :: rest) = true) as Hex.
    { apply existsb_exists. exists q. split; [right; exact Hq|].
      inversion Hall as [|? ? Hp _]; subst.
      eapply py_le_lt_trans; [exact Hp|exact E]. }
    congruence.
Qed.
End FirstMaximum.

(* ================================================================= *)
(** * Primary position *)

Lemma html_primary_position_spec (h : Html.FacultyMember) :
  primary_of Html.present_salary (Html.positions h) (Html.primary_position h).
Proof.
  unfold Html.primary_position, primary_of.
  destruct (Html.positions h) as [|first rest] eqn:E; [reflexivity|].
  rewrite existsb_filter.
  change (fun p => py_gt (Html.present_salary p) zero) with (positive Html.present_salary).
  destruct (filter (positive Html.present_salary) (first :: rest)) as [|p nonzero] eqn:F;
    [reflexivity|].
  exists (max_from Html.present_salary p nonzero). split; [reflexivity|].
  apply max_of_positive, F.
Qed.

(* ================================================================= *)
(** * Classification *)

(** C2 (amended): a member whose primary title, in upper case, contains
    ["TCH "] -- the keyword with its trailing space -- is classified as
    teaching, hence not as tenure_track, in both pipelines. *)
Theorem tch_keyword_is_teaching
    (h : Html.FacultyMember) (d : Docx.FacultyMember)
    (p : Html.Position) (q : Docx.Position)
    (Hp : Html.primary_position h = Some p)
    (Hq : Docx.primary_position d = Some q)
    (Htp : contains "TCH " (upper (Html.title p)) = true)
    (Htq : contains "TCH " (upper (Docx.title q)) = true) :
  Html.faculty_type h = "teaching" /\ Docx.faculty_type d = "teaching"
  /\ Html.faculty_type h <> "tenure_track" /\ Docx.faculty_type d <> "tenure_track".
Proof.
  assert (H1 : Html.faculty_type h = "teaching").
  { unfold Html.faculty_type. rewrite Hp. unfold Html.faculty_type_of_title.
    cbn [existsb]. rewrite Htp. reflexivity. }
  assert (H2 : Docx.faculty_type d = "teaching").
  { unfold Docx.faculty_type. rewrite Hq. unfold Docx.faculty_type_of_title.
    cbn [existsb]. rewrite Htq. reflexivity. }
  rewrite H1, H2. repeat split; discriminate.
Qed.

Lemma tch_keyword_is_teaching_witness :
  Html.faculty_type (Example.html_member [Example.html_position "Tch Asst Prof" "AA" zero])
  = "teaching"
  /\ Docx.faculty_type (Example.docx_member [Example.docx_position "TCH PROF" zero])
     = "teaching".
Proof.
  destruct (tch_keyword_is_teaching
              (Example.html_member [Example.html_position "Tch Asst Prof" "AA" zero])
              (Example.docx_member [Example.docx_position "TCH PROF" zero])
              _ _ eq_refl eq_refl eq_refl eq_refl) as (H1 & H2 & _).
  split; [exact H1|exact H2].
Defined.

(** C2 as stated fails: the title "PROF (TCH)" contains both "TCH" and
    "PROF" and is classified as tenure_track by both pipelines. *)
Lemma tch_without_space_counterexample :
  contains "TCH" (upper "PROF (TCH)") = true
  /\ contains "PROF" (upper "PROF (TCH)") = true
  /\ Html.faculty_type (Example.html_member [Example.html_position "PROF (TCH)" "AA" zero])
     = "tenure_track"
  /\ Docx.faculty_type (Example.docx_member [Example.docx_position "PROF (TCH)" zero])
     = "tenure_track".
Proof. repeat split; reflexivity. Qed.

(** C6 (amended): the rank is the first match of the priority scan, with
    the keywords "ASST PROF"/"ASSISTANT" and "ASSOC PROF"/"ASSOCIATE" in
    the DOCX pipeline and the keywords "ASST PROF"/"ASSISTANT PROF" and
    "ASSOC PROF"/"ASSOCIATE PROF" in the HTML pipeline. *)
Theorem rank_priority_scan (h : Html.FacultyMember) (d : Docx.FacultyMember) :
  Html.rank h
  = match Html.primary_position h with
    | None => "unknown"
    | Some p => rank_by_rules ["ASST PROF"; "ASSISTANT PROF"] ["ASSOC PROF"; "ASSOCIATE PROF"]
                  (Html.title p)
    end
  /\ Docx.rank d
     = match Docx.primary_position d with
       | None => "unknown"
       | Some q => rank_by_rules ["ASST PROF"; "ASSISTANT"] ["ASSOC PROF"; "ASSOCIATE"]
                     (Docx.title q)
       end.
Proof.
  unfold Html.rank, Docx.rank. split.
  - destruct (Html.primary_position h) as [p|]; [|reflexivity].
    unfold Html.rank_of_title, rank_by_rules, rank_rules, first_match, any_of.
    cbn [existsb]. rewrite !orb_false_r.
    repeat match goal with
           | |- context [contains ?k ?t] => destruct (contains k t)
           end; reflexivity.
  - destruct (Docx.primary_position d) as [q|]; [|reflexivity].
    unfold Docx.rank_of_title, rank_by_rules, rank_rules, first_match, any_of.
    cbn [existsb]. rewrite !orb_false_r.
    repeat match goal with
           | |- context [contains ?k ?t] => destruct (contains k t)
           end; reflexivity.
Qed.

(** C6 as stated fails in the HTML pipeline: "ASSISTANT DEAN" contains
    "ASSISTANT", and its rank is other, not assistant. *)
Lemma rank_assistant_counterexample :
  contains "ASSISTANT" (upper "ASSISTANT DEAN") = true
  /\ rank_by_rules ["ASST PROF"; "ASSISTANT"] ["ASSOC PROF"; "ASSOCIATE"] "ASSISTANT DEAN"
     = "assistant"
  /\ Html.rank (Example.html_member [Example.html_position "ASSISTANT DEAN" "AA" zero])
     = "other".
Proof. repeat split; reflexivity. Qed.

(* ================================================================= *)
(** * Dictionaries *)

Section DictFacts.
Context {K V : Type} (keq : K -> K -> bool).
Hypothesis keq_eq : forall a b, keq a b = true <-> a = b.

Lemma dict_get_set_same (d : dict K V) k v : dict_get keq (dict_set keq d k v) k = Some v.
Proof.
  induction d as [|[k' v'] d IH]; simpl.
  - rewrite (proj2 (keq_eq k k) eq_refl). reflexivity.
  - destruct (keq k' k) eqn:E; simpl; rewrite E; [reflexivity|exact IH].
Qed.

Lemma dict_get_In (d : dict K V) k v : dict_get keq d k = Some v -> In (k, v) d.
Proof.
  induction d as [|[k' v'] d IH]; simpl; [discriminate|].
  destruct (keq k' k) eqn:E.
  - intros H. injection H as ->. apply keq_eq in E. subst. left. reflexivity.
  - intros H. right. exact (IH H).
Qed.

Lemma dict_set_Forall (P : K * V -> Prop) (d : dict K V) k v :
  Forall P d -> P (k, v) -> Forall P (dict_set keq d k v).
Proof.
  intros Hd Hv. induction d as [|[k' v'] d IH]; simpl.
  - constructor; [exact Hv|constructor].
  - inversion Hd as [|? ? Hk Hd']; subst.
    destruct (keq k' k) eqn:E.
    + apply keq_eq in E. subst. constructor; assumption.
    + constructor; [assumption|apply IH, Hd'].
Qed.

Lemma dict_get_set_other (d : dict K V) k k' v :
  k <> k' -> dict_get keq (dict_set keq d k v) k' = dict_get keq d k'.
Proof.
  intros Hne. induction d as [|[k0 v0] d IH]; simpl.
  - destruct (keq k k') eqn:E; [apply keq_eq in E; contradiction|reflexivity].
  - destruct (keq k0 k) eqn:E; simpl.
    + apply keq_eq in E. subst.
      destruct (keq k k') eqn:E'; [apply keq_eq in E'; contradiction|reflexivity].
    + destruct (keq k0 k'); [reflexivity|exact IH].
Qed.
End DictFacts.

Lemma dept_eqb_eq a b : Html.dept_eqb a b = true <-> a = b.
Proof.
  unfold Html.dept_eqb, option_eqb. destruct a, b; try (split; congruence).
  rewrite String.eqb_eq. split; congruence.
Qed.

Lemma unsnoc_snoc {A} (l : list A) (z : A) : unsnoc (l ++ [z]) = Some (l, z).
Proof. induction l as [|x l IH]; simpl; [reflexivity|]. rewrite IH. reflexivity. Qed.

Lemma unsnoc_inv {A} (l : list A) :
  match unsnoc l with
  | Some (earlier, z) => l = earlier ++ [z]
  | None => l = []
  end.
Proof.
  induction l as [|x l IH]; simpl; [reflexivity|].
  destruct (unsnoc l) as [[earlier z]|]; subst; reflexivity.
Qed.

Lemma foldM_app {S A} (f : S -> A -> result S) (a b : list A) (s : S) :
  foldM f s (a ++ b) = bind (foldM f s a) (fun m => foldM f m b).
Proof.
  revert s. induction a as [|x a IH]; intros s; simpl; [reflexivity|].
  destruct (f s x); simpl; [apply IH|reflexivity].
Qed.

(* ================================================================= *)
(** * The table walker *)

Lemma parse_fte_total s : exists v, Html.parse_fte s = Ok v.
Proof. apply try_float_total. Qed.

Lemma html_parse_salary_total s : exists v, Html.parse_salary s = Ok v.
Proof. apply try_float_total. Qed.

Lemma process_row_skipped self row :
  processed row = false -> Html._process_row self row = Ok self.
Proof.
  unfold processed. intros H.
  do 8 (destruct row as [|? row]; [reflexivity|]).
  simpl in H. apply negb_false_iff in H. simpl. rewrite H. reflexivity.
Qed.

Lemma process_row_processed self row :
  processed row = true ->
  exists pos depts dept,
    position_of_row row pos
    /\ ((depts = Html.departments self
         /\ dict_get Html.dept_eqb (Html.departments self) (Html.current_dept_id self) = Some dept)
        \/ (depts = dict_set Html.dept_eqb (Html.departments self) (Html.current_dept_id self) dept
            /\ dict_get Html.dept_eqb (Html.departments self) (Html.current_dept_id self) = None
            /\ dept = {| Html.dept_name := Html.current_dept_id self; Html.faculty := [] |}))
    /\ Html._process_row self row
       = Ok (Html.set_departments self
               (dict_set Html.dept_eqb depts (Html.current_dept_id self)
                  {| Html.dept_name := Html.dept_name dept;
                     Html.faculty :=
                       place (Html.faculty dept) (Html.current_dept_id self) (nth 0 row "") pos |})).
Proof.
  unfold processed. intros H.
  do 8 (destruct row as [|? row]; [discriminate H|]).
  simpl in H. apply negb_true_iff in H.
  destruct (parse_fte_total s3) as [f1 F1]. destruct (parse_fte_total s4) as [f2 F2].
  destruct (html_parse_salary_total s5) as [v1 V1].
  destruct (html_parse_salary_total s6) as [v2 V2].
  exists {| Html.title := s0; Html.tenure_code := s1; Html.empl_class := s2;
            Html.present_fte := f1; Html.proposed_fte := f2;
            Html.present_salary := v1; Html.proposed_salary := v2 |}.
  unfold Html._process_row. rewrite H, F1, F2, V1, V2. simpl bind.
  unfold dict_mem.
  destruct (dict_get Html.dept_eqb (Html.departments self) (Html.current_dept_id self))
    as [dept|] eqn:G.
  - exists (Html.departments self), dept. rewrite G.
    split; [repeat split; assumption|]. split; [left; auto|]. reflexivity.
  - eexists _, _. split; [repeat split; assumption|].
    split; [right; split; [reflexivity|split; reflexivity]|].
    rewrite (dict_get_set_same _ dept_eqb_eq). reflexivity.
Qed.

Lemma place_Forall (Q : Html.FacultyMember -> Prop) fs id name pos :
  Forall Q fs ->
  Q (new_member id name pos) ->
  (forall m, Q m -> Q (Html.add_position m pos)) ->
  Forall Q (place fs id name pos).
Proof.
  intros Hfs Hnew Hadd. unfold place.
  pose proof (unsnoc_inv fs) as U.
  destruct (unsnoc fs) as [[earlier m]|].
  - subst fs. apply Forall_app in Hfs as [He Hm].
    destruct (continues name m).
    + apply Forall_app. split; [exact He|].
      inversion Hm; subst. constructor; [apply Hadd; assumption|constructor].
    + apply Forall_app. split; [apply Forall_app; split; assumption|].
      constructor; [exact Hnew|constructor].
  - constructor; [exact Hnew|constructor].
Qed.

(** What [_process_row] does to the departments, for a property [P] of
    one department that holds of a new department and is kept by placing
    a position. *)
Lemma process_row_departments (P : option string * Html.Dept -> Prop) self row :
  Forall P (Html.departments self) ->
  kept_by_rows P (Html.current_dept_id self) row ->
  exists self',
    Html._process_row self row = Ok self'
    /\ Forall P (Html.departments self')
    /\ Html.current_dept_id self' = Html.current_dept_id self.
Proof.
  intros Hall Hstep.
  destruct (processed row) eqn:E.
  - destruct (process_row_processed self row E)
      as (pos & depts & dept & Hpos & Hdepts & ->).
    destruct (Hstep pos Hpos) as [Hfresh Hplace].
    eexists. split; [reflexivity|]. split; [|reflexivity]. simpl.
    destruct Hdepts as [[-> G]|(-> & G & ->)].
    + apply (dict_set_Forall _ dept_eqb_eq); [exact Hall|].
      apply Hplace. rewrite Forall_forall in Hall.
      apply Hall, (dict_get_In _ dept_eqb_eq), G.
    + apply (dict_set_Forall _ dept_eqb_eq).
      * apply (dict_set_Forall _ dept_eqb_eq); assumption.
      * apply (Hplace _ Hfresh).
  - rewrite (process_row_skipped self row E). eauto.
Qed.

(** [_process_row] never raises. *)
Lemma process_row_total self row : exists self', Html._process_row self row = Ok self'.
Proof.
  destruct (process_row_departments (fun _ => True) self row) as (self' & H & _).
  - apply Forall_forall. auto.
  - intros pos _. auto.
  - eauto.
Qed.

Ltac break_ifs :=
  repeat match goal with
         | |- context [if ?b then _ else _] => destruct b eqn:?
         | |- context [match ?x with Some _ => _ | None => _ end] => destruct x eqn:?
         end.

Lemma handle_starttag_departments self tag attrs :
  Html.departments (Html.handle_starttag self tag attrs) = Html.departments self.
Proof. unfold Html.handle_starttag. break_ifs; reflexivity. Qed.

Lemma handle_data_frame self data :
  Html.departments (Html.handle_data self data) = Html.departments self
  /\ Html.current_dept_id (Html.handle_data self data) = Html.current_dept_id self.
Proof. unfold Html.handle_data. break_ifs; split; reflexivity. Qed.

Lemma attrs_dict_no_id attrs :
  existsb (fun kv => String.eqb (fst kv) "id") attrs = false ->
  dict_get String.eqb (Html.attrs_dict attrs) "id" = None.
Proof.
  unfold Html.attrs_dict.
  assert (G : forall acc : dict string (option string),
             dict_get String.eqb acc "id" = None ->
             existsb (fun kv => String.eqb (fst kv) "id") attrs = false ->
             dict_get String.eqb
               (fold_left (fun d kv => dict_set String.eqb d (fst kv) (snd kv)) attrs acc) "id"
             = None).
  { induction attrs as [|[k v] attrs IH]; intros acc Hacc Hex; simpl; [exact Hacc|].
    simpl in Hex. apply orb_false_iff in Hex as [Hk Hex].
    apply IH; [|exact Hex].
    rewrite (dict_get_set_other _ String.eqb_eq); [exact Hacc|].
    apply String.eqb_neq, Hk. }
  apply G. reflexivity.
Qed.

Lemma handle_starttag_dept_id self tag attrs :
  is_heading (Html.StartTag tag attrs) = false ->
  Html.current_dept_id (Html.handle_starttag self tag attrs) = Html.current_dept_id self.
Proof.
  unfold is_heading, Html.handle_starttag. intros H.
  destruct (String.eqb tag "h3") eqn:E.
  - simpl in H. rewrite (attrs_dict_no_id attrs H). break_ifs; reflexivity.
  - break_ifs; reflexivity.
Qed.

(** An end tag leaves the departments alone, or processes a row in the
    current department, which then has a proper identifier. *)
Lemma handle_endtag_cases self tag :
  (exists self',
      Html.handle_endtag self tag = Ok self'
      /\ Html.departments self' = Html.departments self
      /\ Html.current_dept_id self' = Html.current_dept_id self)
  \/ (truthy_id (Html.current_dept_id self) = true
      /\ exists self1 row,
          Html.handle_endtag self tag = Html._process_row self1 row
          /\ Html.departments self1 = Html.departments self
          /\ Html.current_dept_id self1 = Html.current_dept_id self).
Proof.
  unfold Html.handle_endtag. cbv zeta.
  set (s1 := if String.eqb tag "thead" then Html.set_in_thead self false else self).
  assert (H1 : Html.departments s1 = Html.departments self
               /\ Html.current_dept_id s1 = Html.current_dept_id self)
    by (subst s1; destruct (String.eqb tag "thead"); split; reflexivity).
  clearbody s1. destruct H1 as [<- <-].
  set (s2 := if String.eqb tag "table" then Html.set_in_table s1 false else s1).
  assert (H2 : Html.departments s2 = Html.departments s1
               /\ Html.current_dept_id s2 = Html.current_dept_id s1)
    by (subst s2; destruct (String.eqb tag "table"); split; reflexivity).
  clearbody s2. destruct H2 as [<- <-].
  set (s3 := if Html.is_cell_tag tag && Html.in_cell s2 then _ else s2).
  assert (H3 : Html.departments s3 = Html.departments s2
               /\ Html.current_dept_id s3 = Html.current_dept_id s2)
    by (subst s3; destruct (Html.is_cell_tag tag && Html.in_cell s2); split; reflexivity).
  clearbody s3. destruct H3 as [<- <-].
  destruct (String.eqb tag "tr" && Html.in_row s3);
    [|left; exists s3; auto].
  set (s4 := Html.set_row s3 false (Html.current_row s3)).
  change (Html.departments s3) with (Html.departments s4).
  change (Html.current_dept_id s3) with (Html.current_dept_id s4).
  clearbody s4.
  destruct (Html.current_row s4) as [|c row]; [left; exists s4; auto|].
  destruct (truthy_id (Html.current_dept_id s4)) eqn:T; [|left; exists s4; auto].
  right. split; [reflexivity|]. exists s4, (c :: row). auto.
Qed.

Lemma handle_total_frame (P : option string * Html.Dept -> Prop) self e :
  Forall P (Html.departments self) ->
  (forall id row, truthy_id id = true -> kept_by_rows P id row) ->
  exists self', Html.handle self e = Ok self' /\ Forall P (Html.departments self').
Proof.
  intros Hall Hstep. destruct e as [tag attrs|tag|data]; simpl.
  - eexists. split; [reflexivity|]. rewrite handle_starttag_departments. exact Hall.
  - destruct (handle_endtag_cases self tag)
      as [(self' & -> & Hd & _)|(T & self1 & row & -> & Hd & Hid)].
    + exists self'. rewrite Hd. auto.
    + destruct (process_row_departments P self1 row) as (self' & Hrun & HP & _).
      * rewrite Hd. exact Hall.
      * apply Hstep. rewrite Hid. exact T.
      * exists self'. auto.
  - eexists. split; [reflexivity|].
    rewrite (proj1 (handle_data_frame self data)). exact Hall.
Qed.

Lemma feed_invariant (P : option string * Html.Dept -> Prop) evs :
  (forall id row, truthy_id id = true -> kept_by_rows P id row) ->
  forall self,
    Forall P (Html.departments self) ->
    exists self', Html.feed self evs = Ok self' /\ Forall P (Html.departments self').
Proof.
  intros Hstep. unfold Html.feed.
  induction evs as [|e evs IH]; intros self Hall; simpl; [eauto|].
  destruct (handle_total_frame P self e Hall Hstep) as (self1 & -> & H1). simpl.
  apply IH, H1.
Qed.

Lemma feed_no_heading evs :
  forallb (fun e => negb (is_heading e)) evs = true ->
  forall self,
    Html.current_dept_id self = None ->
    exists self',
      Html.feed self evs = Ok self'
      /\ Html.departments self' = Html.departments self
      /\ Html.current_dept_id self' = None.
Proof.
  unfold Html.feed.
  induction evs as [|e evs IH]; intros Hno self Hid; simpl; [eauto|].
  simpl in Hno. apply andb_true_iff in Hno as [He Hno]. apply negb_true_iff in He.
  assert (exists self1, Html.handle self e = Ok self1
                        /\ Html.departments self1 = Html.departments self
                        /\ Html.current_dept_id self1 = None) as (self1 & -> & Hd & Hi).
  { destruct e as [tag attrs|tag|data]; simpl.
    - eexists. split; [reflexivity|]. split; [apply handle_starttag_departments|].
      rewrite (handle_starttag_dept_id self tag attrs He). exact Hid.
    - destruct (handle_endtag_cases self tag)
        as [(self' & -> & Hd & Hi)|(T & _)].
      + exists self'. rewrite Hi. auto.
      + rewrite Hid in T. discriminate T.
    - eexists. split; [reflexivity|].
      destruct (handle_data_frame self data) as [-> ->]. auto. }
  simpl. destruct (IH Hno self1 Hi) as (self' & -> & Hd' & Hi').
  exists self'. rewrite Hd', Hd. auto.
Qed.

Lemma attributed_kept id row :
  truthy_id id = true -> kept_by_rows attributed_department id row.
Proof.
  intros T pos _. unfold attributed_department. simpl.
  split; [split; [exact T|constructor]|].
  intros dept [_ Hf]. split; [exact T|].
  apply place_Forall; [exact Hf|reflexivity|]. intros m Hm. exact Hm.
Qed.

(** C10: from the initial state of the table walker, the events that
    precede the first department heading (an [h3] start tag with an [id]
    attribute) leave the departments empty, whatever rows they contain;
    and in every run each department has a non-empty identifier that
    all its members carry. *)
Theorem rows_before_heading_discarded (before rest : list Html.event)
    (Hno : forallb (fun e => negb (is_heading e)) before = true) :
  exists mid final,
    Html.feed Html.init before = Ok mid
    /\ Html.departments mid = []
    /\ Html.feed Html.init (before ++ rest) = Ok final
    /\ attributed final.
Proof.
  destruct (feed_no_heading before Hno Html.init eq_refl) as (mid & Hmid & Hd & _).
  destruct (feed_invariant _ rest attributed_kept mid) as (final & Hfinal & Hatt).
  { rewrite Hd. constructor. }
  exists mid, final. split; [exact Hmid|]. split; [exact Hd|]. split; [|exact Hatt].
  unfold Html.feed in *. rewrite foldM_app, Hmid. exact Hfinal.
Qed.

Lemma rows_before_heading_discarded_witness :
  forallb (fun e => negb (is_heading e)) (Example.table [Example.smith_row]) = true
  /\ exists mid final,
      Html.feed Html.init (Example.table [Example.smith_row]) = Ok mid
      /\ Html.departments mid = []
      /\ Html.feed Html.init
           (Example.table [Example.smith_row]
            ++ Example.heading ++ Example.table [Example.smith_row; Example.stipend_row])
         = Ok final
      /\ attributed final.
Proof.
  split; [reflexivity|].
  exact (rows_before_heading_discarded
           (Example.table [Example.smith_row])
           (Example.heading ++ Example.table [Example.smith_row; Example.stipend_row])
           eq_refl).
Defined.

(* ================================================================= *)
(** * Continuation rows *)

Lemma process_row_faculty self row :
  processed row = true ->
  exists pos self',
    position_of_row row pos
    /\ Html._process_row self row = Ok self'
    /\ Html.current_dept_id self' = Html.current_dept_id self
    /\ faculty_of self' (Html.current_dept_id self)
       = place (faculty_of self (Html.current_dept_id self)) (Html.current_dept_id self)
           (nth 0 row "") pos.
Proof.
  intros H.
  destruct (process_row_processed self row H) as (pos & depts & dept & Hpos & Hdepts & Hrun).
  exists pos. eexists. split; [exact Hpos|]. split; [exact Hrun|]. split; [reflexivity|].
  unfold faculty_of. simpl.
  rewrite (dict_get_set_same _ dept_eqb_eq). simpl.
  destruct Hdepts as [[_ ->]|(_ & -> & ->)]; reflexivity.
Qed.

Lemma place_last fs id name pos :
  exists earlier m ps,
    place fs id name pos = earlier ++ [m] /\ Html.positions m = ps ++ [pos].
Proof.
  unfold place. destruct (unsnoc fs) as [[earlier m]|].
  - destruct (continues name m).
    + exists earlier, (Html.add_position m pos), (Html.positions m). auto.
    + exists fs, (new_member id name pos), []. auto.
  - exists [], (new_member id name pos), []. auto.
Qed.

Lemma place_snoc earlier m id name pos :
  place (earlier ++ [m]) id name pos
  = if continues name m
    then earlier ++ [Html.add_position m pos]
    else earlier ++ [m; new_member id name pos].
Proof.
  unfold place. rewrite unsnoc_snoc.
  destruct (continues name m); [reflexivity|].
  rewrite <- app_assoc. reflexivity.
Qed.

(** C5: in the table walker, of two consecutive processed rows of one
    department, the first leaves a most recently assembled member [m]
    whose last position is its own; when the name cell of the second is
    blank or equal to the name of [m], the member [m] is replaced by the
    same member with the position of the second row appended after its
    positions, and otherwise [m] is kept and a new member, holding that
    position alone, is started after it. *)
Theorem continuation_rows
    (self : Html.GrayBookHTMLParser) (row1 row2 : list string)
    (H1 : processed row1 = true) (H2 : processed row2 = true) :
  exists mid final earlier m positions1 pos1 pos2,
    Html._process_row self row1 = Ok mid
    /\ Html._process_row mid row2 = Ok final
    /\ position_of_row row1 pos1
    /\ position_of_row row2 pos2
    /\ faculty_of mid (Html.current_dept_id self) = earlier ++ [m]
    /\ Html.positions m = positions1 ++ [pos1]
    /\ faculty_of final (Html.current_dept_id self)
       = if continues (nth 0 row2 "") m
         then earlier ++ [{| Html.name := Html.name m;
                             Html.department := Html.department m;
                             Html.positions := positions1 ++ [pos1; pos2] |}]
         else earlier ++ [m; {| Html.name := nth 0 row2 "";
                                Html.department := Html.current_dept_id self;
                                Html.positions := [pos2] |}].
Proof.
  destruct (process_row_faculty self row1 H1) as (pos1 & mid & Hp1 & Hrun1 & Hid & Hf1).
  destruct (process_row_faculty mid row2 H2) as (pos2 & final & Hp2 & Hrun2 & _ & Hf2).
  rewrite Hid in Hf2.
  destruct (place_last (faculty_of self (Html.current_dept_id self))
              (Html.current_dept_id self) (nth 0 row1 "") pos1)
    as (earlier & m & ps & Hplace & Hm).
  rewrite Hplace in Hf1. rewrite Hf1, place_snoc in Hf2.
  exists mid, final, earlier, m, ps, pos1, pos2.
  repeat (split; [assumption|]).
  rewrite Hf2. unfold Html.add_position, new_member.
  rewrite Hm, <- app_assoc. reflexivity.
Qed.

Lemma continuation_rows_witness :
  processed Example.smith_row = true
  /\ processed Example.stipend_row = true
  /\ exists mid final earlier m positions1 pos1 pos2,
      Html._process_row Example.in_department Example.smith_row = Ok mid
      /\ Html._process_row mid Example.stipend_row = Ok final
      /\ position_of_row Example.smith_row pos1
      /\ position_of_row Example.stipend_row pos2
      /\ faculty_of mid (Some "c42-d6") = earlier ++ [m]
      /\ Html.positions m = positions1 ++ [pos1]
      /\ faculty_of final (Some "c42-d6")
         = earlier ++ [{| Html.name := Html.name m;
                          Html.department := Html.department m;
                          Html.positions := positions1 ++ [pos1; pos2] |}].
Proof.
  split; [reflexivity|]. split; [reflexivity|].
  exact (continuation_rows Example.in_department Example.smith_row Example.stipend_row
           eq_refl eq_refl).
Defined.

(** The rows ["Smith, Jane"; "PROF"; ...] and [""; "ADMIN STIPEND"; ...]
    yield one member with two positions. *)
Lemma continuation_merge_example :
  exists self m p1 p2,
    Html.feed Html.init
      (Example.heading ++ Example.table [Example.smith_row; Example.stipend_row]) = Ok self
    /\ faculty_of self (Some "c42-d6") = [m]
    /\ Html.name m = "Smith, Jane"
    /\ Html.positions m = [p1; p2]
    /\ Html.title p1 = "PROF" /\ Html.title p2 = "ADMIN STIPEND".
Proof.
  eexists _, _, _, _. split; [vm_compute; reflexivity|].
  split; [vm_compute; reflexivity|]. repeat split; reflexivity.
Qed.

(* ================================================================= *)
(** * Salaries are not negative *)

Lemma html_parse_salary_money s :
  money_text s = true -> exists v, Html.parse_salary s = Ok v /\ non_negative v.
Proof.
  intros H. unfold Html.parse_salary.
  rewrite strip_plain by (apply remove_money_sep_plain, H).
  apply try_float_plain_non_negative, remove_money_sep_plain, H.
Qed.

Lemma docx_parse_salary_money s :
  money_text s = true -> exists v, Docx.parse_salary s = Ok v /\ non_negative v.
Proof.
  intros H. unfold Docx.parse_salary.
  apply try_float_plain_non_negative, remove_money_sep_plain, H.
Qed.

Lemma flush_non_negative fsum st who :
  docx_invariant st ->
  Forall (fun f => Forall docx_salaries_non_negative (Docx.positions f))
         (Docx.flush fsum st who).
Proof.
  intros [Hf Hc]. unfold Docx.flush.
  destruct (Docx.current_positions st) eqn:E; [exact Hf|].
  apply Forall_app. split; [exact Hf|]. constructor; [exact Hc|constructor].
Qed.

Lemma assemble_non_negative fsum st m :
  entry_well_formed m = true ->
  docx_invariant st ->
  exists st', Docx.assemble fsum st m = Ok st' /\ docx_invariant st'.
Proof.
  unfold entry_well_formed, readable. intros H Hinv.
  repeat (apply andb_true_iff in H as [H ?]).
  unfold Docx.assemble.
  destruct (float (Docx.group4 m)) as [f1|]; [|discriminate].
  destruct (float (Docx.group5 m)) as [f2|]; [|discriminate].
  destruct (docx_parse_salary_money (Docx.group6 m)) as (v6 & -> & N6); [assumption|].
  destruct (docx_parse_salary_money (Docx.group7 m)) as (v7 & -> & N7); [assumption|].
  simpl bind.
  destruct (_ || _); [eauto|].
  eexists. split; [reflexivity|].
  assert (docx_salaries_non_negative
            {| Docx.title := strip (Docx.group2 m); Docx.tenure_code := Docx.group3 m;
               Docx.empl_class := ""; Docx.present_fte := f1; Docx.proposed_fte := f2;
               Docx.present_salary := v6; Docx.proposed_salary := v7 |}) as Hpos
      by (split; assumption).
  destruct (Docx.current_name st) as [[|c current]|]; simpl;
    try (destruct Hinv as [Hf Hc]; split;
         [exact Hf|apply Forall_app; split; [exact Hc|constructor; [exact Hpos|constructor]]]).
  destruct (negb _); simpl.
  - split; [apply flush_non_negative, Hinv|]. constructor; [exact Hpos|constructor].
  - destruct Hinv as [Hf Hc]. split; [exact Hf|].
    apply Forall_app. split; [exact Hc|constructor; [exact Hpos|constructor]].
Qed.

Lemma assemble_all_non_negative fsum ms :
  forallb entry_well_formed ms = true ->
  forall st,
    docx_invariant st ->
    exists st', foldM (Docx.assemble fsum) st ms = Ok st' /\ docx_invariant st'.
Proof.
  induction ms as [|m ms IH]; intros H st Hinv; simpl; [eauto|].
  simpl in H. apply andb_true_iff in H as [Hm Hms].
  destruct (assemble_non_negative fsum st m Hm Hinv) as (st1 & -> & H1).
  simpl. apply IH; assumption.
Qed.

Lemma place_positions fs id name pos :
  all_positions_of (place fs id name pos) = all_positions_of fs ++ [pos].
Proof.
  unfold place, all_positions_of. pose proof (unsnoc_inv fs) as U.
  destruct (unsnoc fs) as [[earlier m]|].
  - subst fs. destruct (continues name m).
    + rewrite !flat_map_app. simpl. rewrite !app_nil_r, app_assoc. reflexivity.
    + rewrite !flat_map_app. simpl. reflexivity.
  - subst fs. reflexivity.
Qed.

(** A processed row adds its own position at the end of the positions
    of the current department. *)
Lemma process_row_appended self row :
  processed row = true ->
  exists pos self',
    position_of_row row pos
    /\ Html._process_row self row = Ok self'
    /\ all_positions_of (faculty_of self' (Html.current_dept_id self))
       = all_positions_of (faculty_of self (Html.current_dept_id self)) ++ [pos].
Proof.
  intros Hrow.
  destruct (process_row_faculty self row Hrow) as (pos & self' & Hpos & Hrun & _ & Hf).
  exists pos, self'. split; [exact Hpos|]. split; [exact Hrun|].
  rewrite Hf. apply place_positions.
Qed.

Lemma money_position_non_negative row pos :
  money_text (nth 6 row "") = true ->
  money_text (nth 7 row "") = true ->
  position_of_row row pos -> salaries_non_negative pos.
Proof.
  intros M6 M7 (_ & _ & _ & _ & _ & P6 & P7).
  destruct (html_parse_salary_money _ M6) as (v6 & E6 & N6).
  destruct (html_parse_salary_money _ M7) as (v7 & E7 & N7).
  rewrite E6 in P6. rewrite E7 in P7. injection P6 as ->. injection P7 as ->.
  split; assumption.
Qed.

(** The members that the DOCX assembler returns on matches of the entry
    pattern have no negative salary. *)
Lemma docx_members_non_negative fsum (finditer : string -> list Docx.entry_match) text :
  forallb entry_well_formed (finditer text) = true ->
  exists faculty,
    Docx.parse_faculty_simple fsum finditer text = Ok faculty
    /\ Forall (fun f => Forall docx_salaries_non_negative (Docx.positions f)) faculty.
Proof.
  intros Hmatches. unfold Docx.parse_faculty_simple.
  destruct (assemble_all_non_negative fsum (finditer text) Hmatches
              {| Docx.faculty := []; Docx.current_name := None;
                 Docx.current_positions := [] |}) as (st & -> & Hinv).
  { split; constructor. }
  simpl. destruct (Docx.current_name st) as [[|c current]|];
    eexists; (split; [reflexivity|]);
    try apply flush_non_negative; try apply Hinv; exact Hinv.
Qed.

(** C9 (amended): a position assembled from salary fields that consist
    of digits, thousands separators, decimal points and dollar signs only
    has non-negative present and proposed salaries: the position that the
    table walker reads from such a row and adds to the current
    department, whatever the rows before it, and every position of the
    members that the DOCX assembler returns, whose entry pattern matches
    only such fields. *)
Theorem unsigned_salaries_non_negative
    (self : Html.GrayBookHTMLParser) (row : list string)
    (fsum : list pyfloat -> pyfloat) (finditer : string -> list Docx.entry_match)
    (text : string)
    (Hrow : processed row = true)
    (Hpresent : money_text (nth 6 row "") = true)
    (Hproposed : money_text (nth 7 row "") = true)
    (Hmatches : forallb entry_well_formed (finditer text) = true) :
  (exists pos self',
      position_of_row row pos
      /\ Html._process_row self row = Ok self'
      /\ all_positions_of (faculty_of self' (Html.current_dept_id self))
         = all_positions_of (faculty_of self (Html.current_dept_id self)) ++ [pos]
      /\ non_negative (Html.present_salary pos)
      /\ non_negative (Html.proposed_salary pos))
  /\ (exists faculty,
         Docx.parse_faculty_simple fsum finditer text = Ok faculty
         /\ Forall (fun f => Forall docx_salaries_non_negative (Docx.positions f)) faculty).
Proof.
  split; [|apply docx_members_non_negative, Hmatches].
  destruct (process_row_appended self row Hrow) as (pos & self' & Hpos & Hrun & Hall).
  destruct (money_position_non_negative row pos Hpresent Hproposed Hpos) as [N6 N7].
  exists pos, self'. auto.
Qed.

Lemma unsigned_salaries_non_negative_witness :
  exists self,
    Html._process_row Example.in_department Example.refund_row = Ok self
    /\ exists pos self',
        position_of_row Example.smith_row pos
        /\ Html._process_row self Example.smith_row = Ok self'
        /\ all_positions_of (faculty_of self' (Some "c42-d6"))
           = all_positions_of (faculty_of self (Some "c42-d6")) ++ [pos]
        /\ non_negative (Html.present_salary pos)
        /\ non_negative (Html.proposed_salary pos).
Proof.
  destruct (Html._process_row Example.in_department Example.refund_row)
    as [self|] eqn:Hrun; [|vm_compute in Hrun; discriminate Hrun].
  exists self. split; [reflexivity|].
  assert (Hid : Html.current_dept_id self = Some "c42-d6")
    by (vm_compute in Hrun; injection Hrun as <-; reflexivity).
  rewrite <- Hid.
  exact (proj1 (unsigned_salaries_non_negative self Example.smith_row
                  Example.exact_sum (fun _ => [Example.smith_match]) Example.siebel_text
                  eq_refl eq_refl eq_refl eq_refl)).
Defined.

(** C9 as stated fails in the table walker: a salary cell "-5.00" yields
    a position whose present salary is negative. *)
Lemma negative_salary_counterexample :
  exists self m p,
    Html.feed Html.init (Example.heading ++ Example.table [Example.refund_row]) = Ok self
    /\ faculty_of self (Some "c42-d6") = [m]
    /\ Html.positions m = [p]
    /\ Html.present_salary p = Finite (-5)%Q
    /\ py_lt (Html.present_salary p) zero = true
    /\ ~ non_negative (Html.present_salary p).
Proof.
  eexists _, _, _. split; [vm_compute; reflexivity|].
  split; [vm_compute; reflexivity|]. split; [reflexivity|].
  split; [reflexivity|]. split; [reflexivity|]. discriminate.
Qed.

(* ================================================================= *)
(** * Primary position of the members *)

(** C1: [primary_position] returns the earliest position of greatest
    present salary among those of positive salary, and the first position
    when none is positive: in the HTML pipeline for every member; in the
    DOCX pipeline for every member whose present salaries are amounts,
    that is, not negative and not NaN, and so for every member that its
    assembler returns. *)
Theorem primary_position_first_greatest
    (h : Html.FacultyMember) (d : Docx.FacultyMember)
    (fsum : list pyfloat -> pyfloat) (finditer : string -> list Docx.entry_match)
    (text : string)
    (Hd : Forall (fun q => non_negative (Docx.present_salary q)) (Docx.positions d))
    (Hmatches : forallb entry_well_formed (finditer text) = true) :
  primary_of Html.present_salary (Html.positions h) (Html.primary_position h)
  /\ primary_of Docx.present_salary (Docx.positions d) (Docx.primary_position d)
  /\ exists faculty,
      Docx.parse_faculty_simple fsum finditer text = Ok faculty
      /\ Forall (fun f => primary_of Docx.present_salary (Docx.positions f)
                                      (Docx.primary_position f)) faculty.
Proof.
  assert (G : forall f : Docx.FacultyMember,
             Forall (fun q => non_negative (Docx.present_salary q)) (Docx.positions f) ->
             primary_of Docx.present_salary (Docx.positions f) (Docx.primary_position f)).
  { intros f Hf. unfold Docx.primary_position.
    destruct (Docx.positions f) as [|p rest]; [reflexivity|].
    apply max_of_non_negative, Hf. }
  split; [apply html_primary_position_spec|]. split; [apply G, Hd|].
  destruct (docx_members_non_negative fsum finditer text Hmatches) as (faculty & Hrun & Hall).
  exists faculty. split; [exact Hrun|].
  eapply Forall_impl; [|exact Hall]. intros f Hf. apply G.
  eapply Forall_impl; [|exact Hf]. intros q [Hq _]. exact Hq.
Qed.

Lemma primary_position_first_greatest_witness :
  primary_of Html.present_salary (Html.positions Example.three_html)
    (Html.primary_position Example.three_html)
  /\ primary_of Docx.present_salary (Docx.positions Example.three_docx)
       (Docx.primary_position Example.three_docx)
  /\ exists faculty,
      Docx.parse_faculty_simple Example.exact_sum (fun _ => [Example.smith_match])
        Example.siebel_text = Ok faculty
      /\ Forall (fun f => primary_of Docx.present_salary (Docx.positions f)
                                      (Docx.primary_position f)) faculty.
Proof.
  apply (primary_position_first_greatest Example.three_html Example.three_docx
           Example.exact_sum (fun _ => [Example.smith_match]) Example.siebel_text).
  - repeat constructor.
  - reflexivity.
Defined.

(** The condition on the salaries of a DOCX member cannot be dropped
    when [primary_position] is taken alone: with present salaries -1 and
    0, which no entry of the document gives, no salary is positive and
    the second position is returned. *)
Lemma primary_position_needs_amounts :
  existsb (fun p => py_gt (Docx.present_salary p) zero)
    (Docx.positions Example.negative_first) = false
  /\ Docx.primary_position Example.negative_first
     = Some (Example.docx_position "PROF" zero).
Proof. split; reflexivity. Qed.

(* ================================================================= *)
(** * Keywords within keywords *)

Lemma prefix_app_l (a b s : string) : prefix (a ++ b) s = true -> prefix a s = true.
Proof.
  revert s. induction a as [|c a IH]; intros s H; [destruct s; reflexivity|].
  destruct s as [|d s]; simpl in *; [discriminate|].
  destruct (ascii_dec c d); [apply IH, H|discriminate].
Qed.

Lemma contains_unfold (needle hay : string) :
  contains needle hay
  = prefix needle hay
    || match hay with
       | EmptyString => false
       | String _ rest => contains needle rest
       end.
Proof. destruct hay; reflexivity. Qed.

Lemma prefix_contains (b s : string) : prefix b s = true -> contains b s = true.
Proof. intros H. rewrite contains_unfold, H. reflexivity. Qed.

Lemma prefix_app_r (a b s : string) : prefix (a ++ b) s = true -> contains b s = true.
Proof.
  revert s. induction a as [|c a IH]; intros s H; [apply prefix_contains, H|].
  destruct s as [|d s]; simpl in H; [discriminate|].
  destruct (ascii_dec c d); [|discriminate].
  change (contains b (String d s)) with (prefix b (String d s) || contains b s).
  rewrite (IH s H). apply orb_true_r.
Qed.

Lemma contains_app_l (a b t : string) : contains (a ++ b) t = true -> contains a t = true.
Proof.
  induction t as [|c t IH]; intros H.
  - rewrite contains_unfold, orb_false_r in H. apply prefix_contains, (prefix_app_l a b), H.
  - change (contains (a ++ b) (String c t))
      with (prefix (a ++ b) (String c t) || contains (a ++ b) t) in H.
    apply orb_true_iff in H as [H|H].
    + apply prefix_contains, (prefix_app_l a b), H.
    + change (contains a (String c t)) with (prefix a (String c t) || contains a t).
      rewrite (IH H). apply orb_true_r.
Qed.

Lemma contains_app_r (a b t : string) : contains (a ++ b) t = true -> contains b t = true.
Proof.
  induction t as [|c t IH]; intros H.
  - rewrite contains_unfold, orb_false_r in H. apply (prefix_app_r a b), H.
  - change (contains (a ++ b) (String c t))
      with (prefix (a ++ b) (String c t) || contains (a ++ b) t) in H.
    apply orb_true_iff in H as [H|H].
    + apply (prefix_app_r a b), H.
    + change (contains b (String c t)) with (prefix b (String c t) || contains b t).
      rewrite (IH H). apply orb_true_r.
Qed.

Lemma without_keyword_l (a b t : string) : contains a t = false -> contains (a ++ b) t = false.
Proof.
  intros H. destruct (contains (a ++ b) t) eqn:E; [|reflexivity].
  rewrite (contains_app_l a b t E) in H. discriminate.
Qed.

Lemma without_keyword_r (a b t : string) : contains b t = false -> contains (a ++ b) t = false.
Proof.
  intros H. destruct (contains (a ++ b) t) eqn:E; [|reflexivity].
  rewrite (contains_app_r a b t E) in H. discriminate.
Qed.

(* ================================================================= *)
(** * The clean-appointment filter *)

Lemma filterM_all {A} (keep : A -> result bool) l :
  Forall (fun x => keep x = Ok true) l -> Analyze.filterM keep l = Ok l.
Proof.
  induction 1 as [|x l Hx _ IH]; simpl; [reflexivity|].
  rewrite Hx, IH. reflexivity.
Qed.

Lemma mapM_Forall2 {A B} (f : A -> result B) l ys :
  Forall2 (fun x y => f x = Ok y) l ys -> mapM f l = Ok ys.
Proof.
  induction 1 as [|x y l ys Hx _ IH]; simpl; [reflexivity|].
  rewrite Hx, IH. reflexivity.
Qed.

Lemma existsb_upper (P : string -> bool) titles t :
  In t titles -> P (upper t) = true -> existsb P (map upper titles) = true.
Proof.
  intros Hin Hs. apply existsb_exists. exists (upper t). split; [|exact Hs].
  apply in_map, Hin.
Qed.

Lemma is_clean_appointment_titles f ps titles :
  Analyze.subscript f "positions" = Ok (JArr ps) ->
  Forall2 faculty_position ps titles ->
  titles <> [] ->
  Analyze.is_clean_appointment f
  = Ok (Analyze.count_true
          [existsb (scan Teaching) (map upper titles);
           existsb (scan Research) (map upper titles);
           existsb (scan TenureTrack) (map upper titles)] <=? 1)%nat.
Proof.
  intros Hps Hall Hne. unfold Analyze.is_clean_appointment.
  rewrite Hps. simpl bind.
  rewrite filterM_all.
  - simpl bind. destruct ps as [|p ps]; [inversion Hall; subst; congruence|].
    rewrite (mapM_Forall2 _ (p :: ps) (map upper titles)); [reflexivity|].
    clear Hne Hps. induction Hall as [|x t l ts [Ht _] _ IH]; simpl; constructor.
    + rewrite Ht. reflexivity.
    + exact IH.
  - clear Hne Hps. induction Hall as [|x t l ts [_ (c & Hc & Hf)] _ IH]; constructor.
    + rewrite Hc. simpl. rewrite Hf. reflexivity.
    + exact IH.
Qed.

(** What the classifier has found in a title that it places in a
    track. *)
Lemma track_of_title_cases title k :
  track_of_title title = Some k ->
  match k with
  | Teaching =>
      any_of teaching_keywords (upper title) = true
      \/ contains "INSTR" (upper title) = true
  | Research => contains "RES " (upper title) = true
  | TenureTrack =>
      any_of teaching_keywords (upper title) = false
      /\ contains "PROF" (upper title) = true
  end.
Proof.
  unfold track_of_title, Html.faculty_type_of_title. cbv zeta.
  fold teaching_keywords. fold (any_of teaching_keywords (upper title)).
  destruct (any_of teaching_keywords (upper title)).
  { simpl. intros H. injection H as <-. auto. }
  destruct (contains "RES " (upper title)); simpl.
  - destruct (_ || _); simpl.
    + intros H. injection H as <-. reflexivity.
    + destruct (_ || _); simpl; [discriminate|].
      destruct (contains "PROF" (upper title)); simpl.
      * intros H. injection H as <-. auto.
      * destruct (contains "INSTR" (upper title)); simpl; [|discriminate].
        intros H. injection H as <-. auto.
  - destruct (_ || _); simpl; [discriminate|].
    destruct (contains "PROF" (upper title)); simpl.
    + intros H. injection H as <-. auto.
    + destruct (contains "INSTR" (upper title)); simpl; [|discriminate].
      intros H. injection H as <-. auto.
Qed.

Lemma teaching_keyword_scanned u :
  any_of teaching_keywords u = true -> Analyze.teaching_title u = true.
Proof.
  unfold any_of, teaching_keywords, Analyze.teaching_title. cbn [existsb].
  rewrite orb_false_r. intros H.
  repeat (apply orb_true_iff in H as [H|H]).
  - rewrite (contains_app_l "TCH" " " u H). reflexivity.
  - rewrite H. apply orb_true_iff. left. apply orb_true_r.
  - rewrite (contains_app_r "SR. " "LECTURER" u H). apply orb_true_r.
  - rewrite (contains_app_r "SR " "LECTURER" u H). apply orb_true_r.
  - rewrite H. apply orb_true_r.
Qed.

Lemma no_teaching_keyword u :
  any_of teaching_keywords u = false -> contains "TEACHING" u = false.
Proof.
  unfold any_of, teaching_keywords. cbn [existsb]. intros H.
  destruct (contains "TEACHING" u); [|reflexivity].
  rewrite orb_true_r in H. discriminate H.
Qed.

(** The scan of the aggregator finds the track of a recognised title. *)
Lemma recognised_scanned title k :
  track_of_title title = Some k -> recognised title -> scan k (upper title) = true.
Proof.
  intros Hk [Ht Hp]. pose proof (track_of_title_cases title k Hk) as C.
  destruct k; simpl in *.
  - apply teaching_keyword_scanned, Ht, Hk.
  - exact C.
  - destruct C as [C1 C2]. destruct (Hp Hk) as [H1 H2].
    unfold Analyze.tenure_track_title.
    rewrite C2, H1, H2, (no_teaching_keyword _ C1). reflexivity.
Qed.

(** C4 (amended): for an entry whose positions all carry a faculty
    employment class and two of whose titles are placed in different
    tracks by the classifier and are recognised by the scan of the
    aggregator, [is_clean_appointment] returns [False], and the
    aggregator leaves the entry out of both buckets without raising; the
    notice is logged when the entry is full-time here, and an entry that
    is not full-time is skipped before the check, without a notice. *)
Theorem split_appointment_excluded
    (st : Analyze.buckets) (f : json) (ps : list json) (titles : list string)
    (full_time name : json)
    (Hps : Analyze.subscript f "positions" = Ok (JArr ps))
    (Hall : Forall2 faculty_position ps titles)
    (Hspan : spans_recognised_tracks titles)
    (Hft : Analyze.subscript f "is_full_time_here" = Ok full_time)
    (Hname : Analyze.subscript f "name" = Ok name) :
  Analyze.is_clean_appointment f = Ok false
  /\ Analyze.consider st f
     = Ok {| Analyze.excluded :=
               if Analyze.truthy full_time
               then Analyze.excluded st ++ [name]
               else Analyze.excluded st;
             Analyze.teaching_by_rank := Analyze.teaching_by_rank st;
             Analyze.tenure_by_rank := Analyze.tenure_by_rank st |}.
Proof.
  assert (Hclean : Analyze.is_clean_appointment f = Ok false).
  { destruct Hspan as (t1 & t2 & k1 & k2 & In1 & In2 & T1 & T2 & Hk & R1 & R2).
    rewrite (is_clean_appointment_titles f ps titles Hps Hall)
      by (destruct titles; [destruct In1|discriminate]).
    pose proof (existsb_upper (scan k1) titles t1 In1 (recognised_scanned t1 k1 T1 R1)) as E1.
    pose proof (existsb_upper (scan k2) titles t2 In2 (recognised_scanned t2 k2 T2 R2)) as E2.
    destruct k1, k2; try congruence; rewrite E1, E2;
      repeat match goal with
             | |- context [existsb ?p ?l] => destruct (existsb p l)
             end; reflexivity. }
  split; [exact Hclean|].
  unfold Analyze.consider. rewrite Hft. simpl bind.
  destruct (Analyze.truthy full_time); simpl.
  - rewrite Hclean. simpl. rewrite Hname. reflexivity.
  - destruct st; reflexivity.
Qed.

Lemma split_appointment_excluded_witness :
  spans_recognised_tracks ["LECTURER"; "RES ASST PROF"]
  /\ Analyze.is_clean_appointment (Example.split_entry true) = Ok false
  /\ Analyze.consider Analyze.empty (Example.split_entry true)
     = Ok {| Analyze.excluded := [JStr "Doe, John"];
             Analyze.teaching_by_rank := [];
             Analyze.tenure_by_rank := [] |}.
Proof.
  assert (Hspan : spans_recognised_tracks ["LECTURER"; "RES ASST PROF"]).
  { exists "LECTURER", "RES ASST PROF", Teaching, Research.
    split; [left; reflexivity|]. split; [right; left; reflexivity|].
    split; [reflexivity|]. split; [reflexivity|]. split; [discriminate|].
    split; split; intros H; first [reflexivity | discriminate H]. }
  split; [exact Hspan|].
  refine (split_appointment_excluded Analyze.empty (Example.split_entry true) _
            ["LECTURER"; "RES ASST PROF"] (JBool true) (JStr "Doe, John")
            eq_refl _ Hspan eq_refl eq_refl).
  repeat constructor; exists (JStr "AA"); split; reflexivity.
Defined.

(** C4 as stated fails on the notice: an entry that spans two tracks
    and is not full-time is left out without any notice being logged. *)
Lemma part_time_split_not_logged :
  spans_tracks ["LECTURER"; "RES ASST PROF"]
  /\ Analyze.is_clean_appointment (Example.split_entry false) = Ok false
  /\ exists st,
      Analyze.consider Analyze.empty (Example.split_entry false) = Ok st
      /\ Analyze.excluded st = [].
Proof.
  split.
  - exists "LECTURER", "RES ASST PROF", Teaching, Research.
    split; [left; reflexivity|]. split; [right; left; reflexivity|].
    split; [reflexivity|]. split; [reflexivity|discriminate].
  - split; [reflexivity|]. eexists. split; reflexivity.
Qed.

(** C4 as stated fails, too, on titles that the scan of the aggregator
    does not recognise: a lecturer who is also a "RESEARCH PROF", and a
    professor who is also an instructor, span the teaching and the
    tenure-track tracks of the classifier, yet [is_clean_appointment]
    returns [True] for both. *)
Lemma unrecognised_split_is_clean :
  spans_tracks ["LECTURER"; "RESEARCH PROF"]
  /\ Analyze.is_clean_appointment (Example.titled_entry "LECTURER" "RESEARCH PROF") = Ok true
  /\ spans_tracks ["PROF"; "INSTR"]
  /\ Analyze.is_clean_appointment (Example.titled_entry "PROF" "INSTR") = Ok true.
Proof.
  split; [|split; [reflexivity|split; [|reflexivity]]].
  - exists "LECTURER", "RESEARCH PROF", Teaching, TenureTrack.
    split; [left; reflexivity|]. split; [right; left; reflexivity|].
    split; [reflexivity|]. split; [reflexivity|discriminate].
  - exists "PROF", "INSTR", TenureTrack, Teaching.
    split; [left; reflexivity|]. split; [right; left; reflexivity|].
    split; [reflexivity|]. split; [reflexivity|discriminate].
Qed.

(* ================================================================= *)
(** * The artifact *)

Lemma html_record_fields fsum (h : Html.FacultyMember) :
  keys (Html.faculty_record fsum h) = artifact_fields
  /\ Analyze.subscript (Html.faculty_record fsum h) "is_full_time_here"
     = Ok (JBool (Html.is_full_time_here fsum h)).
Proof. split; reflexivity. Qed.

Lemma docx_record_fields (d : Docx.FacultyMember) (st : Analyze.buckets) :
  keys (Docx.faculty_record d) = docx_fields
  /\ Analyze.consider st (Docx.faculty_record d) = Raise (KeyError "is_full_time_here").
Proof. split; reflexivity. Qed.

(** C7: every record that the HTML entry point writes has exactly the
    nine fields of the artifact, and [is_full_time_here] can be read from
    it; every record that the DOCX entry point writes has [is_full_time]
    in place of [is_full_time_here] and no [is_joint_appointment], so
    that the analysis stage raises [KeyError] on the artifact of a DOCX
    run as soon as it holds one record. *)
Theorem docx_record_lacks_is_full_time_here
    (fsum : list pyfloat -> pyfloat) (finditer : string -> list Docx.entry_match)
    (full_text : string) (h3_matches : list (string * string)) (events : list Html.event) :
  match Html.main fsum h3_matches events with
  | Ok (Html.Saved out _) =>
      exists records,
        Analyze.subscript out "faculty" = Ok (JArr records)
        /\ Forall (fun r => keys r = artifact_fields
                            /\ exists b, Analyze.subscript r "is_full_time_here" = Ok (JBool b))
                  records
  | _ => True
  end
  /\ match Docx.main fsum finditer full_text with
     | Ok out =>
         exists records,
           Analyze.subscript out "faculty" = Ok (JArr records)
           /\ Forall (fun r => keys r = docx_fields) records
           /\ Analyze.aggregate out
              = match records with
                | [] => Ok Analyze.empty
                | _ :: _ => Raise (KeyError "is_full_time_here")
                end
     | Raise _ => True
     end.
Proof.
  split.
  - unfold Html.main.
    destruct (option_map _ _) as [[|c id]|]; try exact I.
    destruct (Html.parse_graybook_html events) as [departments|]; simpl; [|exact I].
    destruct (dict_get _ _ _) as [cs_dept|]; [|exact I].
    eexists. split; [reflexivity|].
    apply Forall_forall. intros r Hr. apply in_map_iff in Hr as (h & <- & _).
    split; [reflexivity|]. eexists. reflexivity.
  - unfold Docx.main.
    destruct (Docx.extract_department_section _ _ _) as [cs_text|]; simpl; [|exact I].
    destruct (Docx.parse_faculty_simple fsum finditer cs_text) as [faculty|]; simpl; [|exact I].
    exists (map Docx.faculty_record faculty). split; [reflexivity|]. split.
    + apply Forall_forall. intros r Hr. apply in_map_iff in Hr as (d & <- & _).
      reflexivity.
    + destruct faculty; reflexivity.
Qed.

(* ================================================================= *)
(** * Absent department *)

Lemma find_all_absent pattern s :
  contains pattern s = false -> forall skip pos, Docx.find_all pattern skip pos s = [].
Proof.
  induction s as [|c s IH]; intros H skip pos; simpl; [reflexivity|].
  simpl in H. apply orb_false_iff in H as [Hp Hc].
  destruct skip; [|apply IH, Hc].
  change (prefix pattern (String c s)) with
    (match pattern with
     | EmptyString => true
     | String a p' => if Ascii.ascii_dec a c then prefix p' s else false
     end) in Hp.
  simpl. destruct pattern as [|a p']; [discriminate|].
  destruct (Ascii.ascii_dec a c); [rewrite Hp|]; apply IH, Hc.
Qed.

Lemma department_names_values (P : string -> Prop) matches :
  Forall (fun m => P (snd m)) matches ->
  Forall (fun kv => P (snd kv)) (Html.extract_department_names matches).
Proof.
  unfold Html.extract_department_names. intros H.
  assert (G : forall acc : dict string string,
             Forall (fun kv => P (snd kv)) acc ->
             Forall (fun kv => P (snd kv))
                    (fold_left (fun d m => dict_set String.eqb d (fst m) (snd m)) matches acc)).
  { induction H as [|m ms Hm _ IH]; intros acc Hacc; simpl; [exact Hacc|].
    apply IH. apply (dict_set_Forall _ String.eqb_eq); assumption. }
  apply G. constructor.
Qed.

Lemma find_none {A} (f : A -> bool) l :
  Forall (fun x => f x = false) l -> find f l = None.
Proof. induction 1 as [|x l Hx _ IH]; simpl; [reflexivity|]. rewrite Hx. exact IH. Qed.

(** C8 (amended): when the heading of the department is absent, the
    DOCX entry point ends with an uncaught [ValueError] raised by
    [extract_department_section] (exit status 1), and the HTML entry
    point prints that it could not find the department and returns
    (exit status 0). *)
Theorem department_absent
    (fsum : list pyfloat -> pyfloat) (finditer : string -> list Docx.entry_match)
    (full_text : string) (h3_matches : list (string * string)) (events : list Html.event)
    (Hdocx : contains "434 - Siebel School Comp & Data Sci" full_text = false)
    (Hhtml : forallb (fun m => negb (contains "Siebel School" (snd m)
                                     || contains "434 -" (snd m))) h3_matches = true) :
  Docx.extract_department_section full_text "434" "Siebel School Comp & Data Sci"
    = Raise ValueError
  /\ Docx.main fsum finditer full_text = Raise ValueError
  /\ exit_status (Docx.main fsum finditer full_text) = 1
  /\ Html.main fsum h3_matches events = Ok Html.NotFound
  /\ exit_status (Html.main fsum h3_matches events) = 0.
Proof.
  assert (E : Docx.extract_department_section full_text "434" "Siebel School Comp & Data Sci"
              = Raise ValueError).
  { unfold Docx.extract_department_section. simpl append.
    rewrite (find_all_absent _ _ Hdocx). reflexivity. }
  assert (M : Docx.main fsum finditer full_text = Raise ValueError)
    by (unfold Docx.main; rewrite E; reflexivity).
  assert (N : Html.main fsum h3_matches events = Ok Html.NotFound).
  { unfold Html.main. rewrite find_none; [reflexivity|].
    apply (department_names_values
             (fun n => contains "Siebel School" n || contains "434 -" n = false)).
    apply Forall_forall. intros m Hm. rewrite forallb_forall in Hhtml.
    apply negb_true_iff, Hhtml, Hm. }
  rewrite M, N. split; [exact E|]. repeat split; reflexivity.
Qed.

Lemma department_absent_witness :
  contains "434 - Siebel School Comp & Data Sci" Example.physics_text = false
  /\ forallb (fun m => negb (contains "Siebel School" (snd m) || contains "434 -" (snd m)))
       Example.physics_headings = true
  /\ Docx.main Example.exact_sum (fun _ => []) Example.physics_text = Raise ValueError
  /\ Html.main Example.exact_sum Example.physics_headings Example.physics_events
     = Ok Html.NotFound.
Proof.
  split; [reflexivity|]. split; [reflexivity|].
  destruct (department_absent Example.exact_sum (fun _ => [])
              Example.physics_text Example.physics_headings Example.physics_events
              eq_refl eq_refl)
    as (_ & H1 & _ & H2 & _).
  split; [exact H1|exact H2].
Defined.

(** C8 as stated fails for the HTML entry point: on a document without
    the department, [main] returns normally. *)
Lemma html_absent_department_returns :
  forallb (fun m => negb (contains "Siebel School" (snd m) || contains "434 -" (snd m)))
          Example.physics_headings = true
  /\ Html.main Example.exact_sum Example.physics_headings Example.physics_events
     = Ok Html.NotFound
  /\ exit_status
       (Html.main Example.exact_sum Example.physics_headings Example.physics_events) = 0.
Proof. repeat split; reflexivity. Qed.

(** Running the analysis on an artifact of the DOCX entry point. *)
Lemma docx_artifact_example :
  exists out,
    Docx.main Example.exact_sum (fun _ => [Example.smith_match]) Example.siebel_text = Ok out
    /\ Analyze.aggregate out = Raise (KeyError "is_full_time_here").
Proof. eexists. split; vm_compute; reflexivity. Qed.

(** Running the analysis on an artifact of the HTML entry point: the
    professor is counted once, in the tenure-track bucket. *)
Lemma html_artifact_example :
  exists out faculty_only st m,
    Html.main Example.exact_sum [("c42-d6", "434 - Siebel School Comp & Data Sci")]
      (Example.heading ++ Example.table [Example.smith_row; Example.stipend_row])
    = Ok (Html.Saved out faculty_only)
    /\ Analyze.aggregate out = Ok st
    /\ Analyze.excluded st = []
    /\ Analyze.teaching_by_rank st = []
    /\ Analyze.tenure_by_rank st = [(JStr "full", m)]
    /\ Analyze.member_name m = JStr "Smith, Jane"
    /\ Analyze.salary m = Finite 150000%Q.
Proof.
  eexists _, _, _, _. split; [vm_compute; reflexivity|].
  split; [vm_compute; reflexivity|]. repeat split; reflexivity.
Qed.

(* ================================================================= *)
(** * Keywords in titles *)

Ltac split_keywords :=
  repeat match goal with
         | |- context [contains ?k ?t] =>
             lazymatch goal with
             | H : contains k t = _ |- _ => rewrite H
             | _ => destruct (contains k t) eqn:?
             end
         end.

(** X10: the two pipelines give a member the same rank whenever they
    agree on the title of the primary position and that title, in upper
    case, contains neither "ASSISTANT" nor "ASSOCIATE"; the rank rules of
    the two files differ on no other title. *)
Theorem ranks_agree_without_long_keywords
    (h : Html.FacultyMember) (d : Docx.FacultyMember)
    (Hsame : option_map Html.title (Html.primary_position h)
             = option_map Docx.title (Docx.primary_position d))
    (Hassistant :
       forall t, option_map Html.title (Html.primary_position h) = Some t ->
                 contains "ASSISTANT" (upper t) = false
                 /\ contains "ASSOCIATE" (upper t) = false) :
  Html.rank h = Docx.rank d.
Proof.
  unfold Html.rank, Docx.rank.
  destruct (Html.primary_position h) as [p|], (Docx.primary_position d) as [q|];
    try discriminate; [|reflexivity].
  simpl in Hsame. injection Hsame as Hsame. rewrite <- Hsame.
  destruct (Hassistant _ eq_refl) as [Ha Hc].
  unfold Html.rank_of_title, Docx.rank_of_title. cbv zeta.
  pose proof (without_keyword_l "ASSISTANT" " PROF" _ Ha) as Ha'.
  pose proof (without_keyword_l "ASSOCIATE" " PROF" _ Hc) as Hc'.
  change ("ASSISTANT" ++ " PROF")%string with "ASSISTANT PROF" in Ha'.
  change ("ASSOCIATE" ++ " PROF")%string with "ASSOCIATE PROF" in Hc'.
  rewrite Ha, Hc, Ha', Hc'.
  split_keywords; reflexivity.
Qed.

Lemma ranks_agree_without_long_keywords_witness :
  Html.rank (Example.html_member [Example.html_position "Sr Lecturer" "AA" zero])
  = Docx.rank (Example.docx_member [Example.docx_position "Sr Lecturer" zero]).
Proof.
  apply ranks_agree_without_long_keywords; [reflexivity|].
  intros t H. injection H as <-. split; reflexivity.
Defined.

(** X11: when the two pipelines agree on the title of the primary
    position, a member that the DOCX pipeline types tenure_track is typed
    tenure_track by the HTML pipeline, one typed research_only is typed
    research, one that the HTML pipeline types teaching is typed teaching
    or other by the DOCX pipeline, and either says unknown exactly when
    the other does. *)
Theorem docx_track_kept_by_html
    (h : Html.FacultyMember) (d : Docx.FacultyMember)
    (Hsame : option_map Html.title (Html.primary_position h)
             = option_map Docx.title (Docx.primary_position d)) :
  (Docx.faculty_type d = "tenure_track" -> Html.faculty_type h = "tenure_track")
  /\ (Docx.faculty_type d = "research_only" -> Html.faculty_type h = "research")
  /\ (Html.faculty_type h = "teaching" ->
      Docx.faculty_type d = "teaching" \/ Docx.faculty_type d = "other")
  /\ (Docx.faculty_type d = "unknown" <-> Html.faculty_type h = "unknown").
Proof.
  unfold Html.faculty_type, Docx.faculty_type.
  destruct (Html.primary_position h) as [p|], (Docx.primary_position d) as [q|];
    try discriminate.
  2: { repeat split; intros; try discriminate; reflexivity. }
  simpl in Hsame. injection Hsame as Hsame. rewrite <- Hsame.
  unfold Html.faculty_type_of_title, Docx.faculty_type_of_title. cbv zeta.
  cbn [existsb]. rewrite !orb_false_r.
  set (t := upper (Html.title p)).
  pose proof (without_keyword_r "SR. " "LECTURER" t) as L1.
  pose proof (without_keyword_r "SR " "LECTURER" t) as L2.
  pose proof (without_keyword_l "CLIN" "ICAL" t) as L3.
  pose proof (without_keyword_l "INSTR" " " t) as L4.
  change ("SR. " ++ "LECTURER")%string with "SR. LECTURER" in L1.
  change ("SR " ++ "LECTURER")%string with "SR LECTURER" in L2.
  change ("CLIN" ++ "ICAL")%string with "CLINICAL" in L3.
  change ("INSTR" ++ " ")%string with "INSTR " in L4.
  destruct (contains "LECTURER" t); [|rewrite (L1 eq_refl), (L2 eq_refl)];
    destruct (contains "CLIN" t); try rewrite (L3 eq_refl);
    destruct (contains "INSTR" t); try rewrite (L4 eq_refl);
    clear L1 L2 L3 L4; simpl;
    repeat (try solve [repeat split; intros; try discriminate; try reflexivity; auto];
            match goal with
            | |- context [contains ?k t] => destruct (contains k t); simpl
            end).
Qed.

Lemma docx_track_kept_by_html_witness :
  Html.faculty_type (Example.html_member [Example.html_position "ASSOC PROF" "AA" zero])
  = "tenure_track".
Proof.
  apply (docx_track_kept_by_html
           (Example.html_member [Example.html_position "ASSOC PROF" "AA" zero])
           (Example.docx_member [Example.docx_position "ASSOC PROF" zero]) eq_refl).
  reflexivity.
Defined.

(* ================================================================= *)
(** * FTE strings, full-time and joint appointments *)

Lemma append_nil_r (a : string) : (a ++ "" = a)%string.
Proof. induction a; simpl; congruence. Qed.

Lemma parse_decimal_integer (d : string) :
  all_digits d = true -> d <> EmptyString ->
  parse_decimal d = Some (Z.of_N (digits_value 0 d) # 1)%Q.
Proof.
  intros Hd Hne. unfold parse_decimal.
  rewrite span_digits_all by assumption. simpl. rewrite append_nil_r.
  destruct d; [congruence|reflexivity].
Qed.

(** X1: [parse_fte] reads a string of digits as the float nearest to
    the integer it denotes, and digits, a point and digits as the float
    nearest to that decimal number; it returns a number on every string,
    and zero on every string that holds a character which is neither
    white space nor a character of numbers, and on every string that
    holds neither a digit nor the letter n. *)
Theorem parse_fte_reads_decimals (d f s : string)
    (Hd : all_digits d = true) (Hne : d <> EmptyString) (Hf : all_digits f = true) :
  Html.parse_fte d = Ok (binary64 (Z.of_N (digits_value 0 d) # 1)%Q)
  /\ Html.parse_fte (d ++ String "." f)
     = Ok (binary64 (scale10 (digits_value 0 (d ++ f)) (- Z.of_nat (String.length f))))
  /\ (exists v, Html.parse_fte s = Ok v)
  /\ (every (fun c => numeral_char c || is_space c) s = false ->
      Html.parse_fte s = Ok zero)
  /\ (numberless s = true -> Html.parse_fte s = Ok zero).
Proof.
  unfold Html.parse_fte. split; [|split; [|split; [|split]]].
  - pose proof (all_digits_plain d Hd) as Hp.
    rewrite strip_plain, float_plain, parse_decimal_integer by assumption.
    destruct (binary64 _); reflexivity.
  - assert (Hp : plain (d ++ String "." f) = true).
    { rewrite plain_app. simpl.
      rewrite (all_digits_plain d Hd), (all_digits_plain f Hf). reflexivity. }
    rewrite strip_plain, float_plain, parse_decimal_fixed by assumption.
    destruct (binary64 _); reflexivity.
  - apply try_float_total.
  - intros Hs. apply try_float_failed. intros v Hv.
    apply float_chars in Hv.
    assert (E : every (fun c => numeral_char c || is_space c) (strip s) = true).
    { revert Hv. apply every_impl. intros c Hc. rewrite Hc. reflexivity. }
    apply (strip_by_chars _ is_space) in E; [congruence|].
    intros c Hc. rewrite Hc. apply orb_true_r.
  - intros Hs. rewrite float_numberless; [reflexivity|].
    apply strip_by_sub, Hs.
Qed.

Lemma parse_fte_reads_decimals_witness :
  Html.parse_fte "1" = Ok (Finite 1%Q)
  /\ Html.parse_fte "0.75" = Ok (Finite (3 # 4)%Q)
  /\ Html.parse_fte "0.1" = Ok (Finite (3602879701896397 # 36028797018963968)%Q)
  /\ Html.parse_fte "half" = Ok zero
  /\ Html.parse_fte "-" = Ok zero.
Proof.
  destruct (parse_fte_reads_decimals "1" "" "half" eq_refl ltac:(discriminate) eq_refl)
    as (H1 & _ & _ & H4 & _).
  destruct (parse_fte_reads_decimals "0" "75" "-" eq_refl ltac:(discriminate) eq_refl)
    as (_ & H2 & _ & _ & H5).
  destruct (parse_fte_reads_decimals "0" "1" "" eq_refl ltac:(discriminate) eq_refl)
    as (_ & H3 & _).
  split; [exact H1|]. split; [exact H2|]. split; [exact H3|].
  split; [exact (H4 eq_refl)|exact (H5 eq_refl)].
Defined.

(** X2: a member who is full-time here is a joint appointment exactly
    when the total present salary is zero; a member who is not full-time
    here is a joint appointment, unless the total FTE is NaN, in which
    case the member is not full-time and is joint only on a zero total
    salary. *)
Theorem part_time_is_joint (fsum : list pyfloat -> pyfloat) (h : Html.FacultyMember) :
  (Html.is_full_time_here fsum h = true ->
   Html.is_joint_appointment fsum h = py_eq (Html.total_present_salary fsum h) zero)
  /\ (Html.is_full_time_here fsum h = false ->
      Html.total_present_fte fsum h <> NaN ->
      Html.is_joint_appointment fsum h = true)
  /\ (Html.total_present_fte fsum h = NaN ->
      Html.is_full_time_here fsum h = false
      /\ Html.is_joint_appointment fsum h
         = py_eq (Html.total_present_salary fsum h) zero).
Proof.
  unfold Html.is_full_time_here, Html.is_joint_appointment.
  destruct (Html.total_present_fte fsum h) as [q|[]|]; simpl; (split; [|split]); intros H;
    try discriminate; try reflexivity; try congruence; try (split; reflexivity).
  - rewrite H. reflexivity.
  - intros _. rewrite H. reflexivity.
Qed.

Lemma part_time_is_joint_witness :
  Html.is_joint_appointment Example.exact_sum Example.three_html
  = py_eq (Html.total_present_salary Example.exact_sum Example.three_html) zero.
Proof.
  exact (proj1 (part_time_is_joint Example.exact_sum Example.three_html) eq_refl).
Defined.

(* ================================================================= *)
(** * Rows of the table walker *)

Lemma feed_cell self c :
  Html.in_row self = true ->
  Html.feed self (cell_events c)
  = Ok (Html.set_row (Html.set_cell self false c) true
          (Html.current_row self ++ [strip c])).
Proof.
  intros Hrow. unfold Html.feed, cell_events. simpl foldM.
  unfold Html.handle_starttag. cbn [String.eqb Ascii.eqb Bool.eqb andb dict_get
                                    Html.attrs_dict fold_left Html.is_cell_tag orb].
  cbv zeta. rewrite Hrow. cbn [andb bind].
  unfold Html.handle_data. cbn [Html.in_cell Html.set_cell Html.current_cell_text
                                String.append bind].
  unfold Html.handle_endtag. cbn [String.eqb Ascii.eqb Bool.eqb andb Html.is_cell_tag orb].
  cbv zeta. cbn [Html.in_cell Html.set_cell Html.set_row Html.current_cell_text
                 Html.in_row Html.current_row andb].
  rewrite Hrow. reflexivity.
Qed.

Lemma feed_cells cells : forall self,
  Html.in_row self = true ->
  exists self',
    Html.feed self (flat_map cell_events cells) = Ok self'
    /\ Html.in_row self' = true
    /\ Html.current_row self' = Html.current_row self ++ map strip cells
    /\ Html.departments self' = Html.departments self
    /\ Html.current_dept_id self' = Html.current_dept_id self
    /\ Html.in_table self' = Html.in_table self
    /\ Html.in_thead self' = Html.in_thead self.
Proof.
  induction cells as [|c cells IH]; intros self Hrow.
  - exists self. simpl. rewrite app_nil_r. repeat split; auto.
  - change (flat_map cell_events (c :: cells))
      with (cell_events c ++ flat_map cell_events cells).
    unfold Html.feed. rewrite foldM_app.
    change (foldM Html.handle self (cell_events c)) with (Html.feed self (cell_events c)).
    rewrite (feed_cell self c Hrow). cbn [bind].
    destruct (IH (Html.set_row (Html.set_cell self false c) true
                    (Html.current_row self ++ [strip c]))) as [s [Hf [H1 [H2 [H3 [H4 [H5 H6]]]]]]];
      [reflexivity|].
    exists s. unfold Html.feed in Hf. rewrite Hf.
    repeat split; auto.
    rewrite H2. simpl. rewrite <- app_assoc. reflexivity.
Qed.

(** X3: inside a table and outside its header, the events of a row -- a
    [tr] element holding one [td] element per cell -- hand the stripped
    cell texts to [_process_row], provided the row has a cell and a
    heading with a non-empty id came before; otherwise the row changes no
    department.  The walker is then ready for the next row of the table. *)
Theorem table_row_is_processed self cells :
  Html.in_table self = true -> Html.in_thead self = false ->
  exists self1,
    Html.departments self1 = Html.departments self
    /\ Html.current_dept_id self1 = Html.current_dept_id self
    /\ Html.in_table self1 = true /\ Html.in_thead self1 = false
    /\ Html.in_row self1 = false
    /\ Html.feed self (Example.row_events cells)
       = if negb (Nat.eqb (List.length cells) 0) && truthy_id (Html.current_dept_id self)
         then Html._process_row self1 (map strip cells)
         else Ok self1.
Proof.
  intros Htable Hthead.
  unfold Example.row_events.
  change (fun c => [Html.StartTag "td" []; Html.Data c; Html.EndTag "td"]) with cell_events.
  unfold Html.feed. cbn [foldM Html.handle bind].
  rewrite foldM_app.
  assert (Hstart : Html.handle_starttag self "tr" [] = Html.set_row self true []).
  { unfold Html.handle_starttag. cbn [String.eqb Ascii.eqb Bool.eqb andb dict_get
                                    Html.attrs_dict fold_left Html.is_cell_tag orb].
    cbv zeta. rewrite Htable, Hthead. reflexivity. }
  rewrite Hstart.
  destruct (feed_cells cells (Html.set_row self true [])) as [s [Hf [H1 [H2 [H3 [H4 [H5 H6]]]]]]];
    [reflexivity|].
  unfold Html.feed in Hf. rewrite Hf. cbn [bind foldM Html.handle].
  exists (Html.set_row s false (map strip cells)).
  simpl in H2, H3, H4, H5, H6.
  repeat split; simpl; try congruence.
  unfold Html.handle_endtag. cbn [String.eqb Ascii.eqb Bool.eqb andb Html.is_cell_tag orb].
  cbv zeta. rewrite H1. cbn [andb Html.set_row Html.current_row Html.current_dept_id].
  rewrite H2, H4.
  destruct cells as [|c cells]; [reflexivity|].
  cbn [map List.length Nat.eqb negb andb].
  destruct (truthy_id (Html.current_dept_id self)); [|reflexivity].
  destruct (Html._process_row _ _); reflexivity.
Qed.

Lemma table_row_is_processed_witness :
  exists self1,
    Html.feed (Html.set_in_table Example.in_department true)
              (Example.row_events Example.smith_row)
    = Html._process_row self1 (map strip Example.smith_row)
    /\ Html.departments self1 = [].
Proof.
  destruct (table_row_is_processed (Html.set_in_table Example.in_department true)
              Example.smith_row eq_refl eq_refl)
    as (self1 & Hd & _ & _ & _ & _ & Hrun).
  exists self1. split; [exact Hrun|exact Hd].
Defined.

Lemma handle_starttag_between_rows self tag attrs :
  between_rows self -> String.eqb tag "table" = false ->
  between_rows (Html.handle_starttag self tag attrs).
Proof.
  unfold between_rows, Html.handle_starttag. intros [Hrow Hout] Htable.
  rewrite Htable. cbv zeta.
  set (s1 := if String.eqb tag "h3" then _ else self).
  assert (H1 : Html.in_row s1 = Html.in_row self /\ Html.in_table s1 = Html.in_table self
               /\ Html.in_thead s1 = Html.in_thead self).
  { subst s1. destruct (String.eqb tag "h3"); [|auto].
    destruct (dict_get _ _ _); auto. }
  clearbody s1. destruct H1 as (R1 & T1 & D1). rewrite <- R1, <- T1, <- D1 in *.
  clear R1 T1 D1 self.
  destruct (String.eqb tag "thead").
  - simpl. rewrite andb_false_r. simpl. rewrite Hrow, andb_false_r. simpl. auto.
  - assert (E : String.eqb tag "tr" && Html.in_table s1 && negb (Html.in_thead s1) = false).
    { destruct Hout as [-> | ->]; [rewrite andb_false_r|simpl; rewrite andb_false_r];
        reflexivity. }
    rewrite E, Hrow, andb_false_r. auto.
Qed.

Lemma handle_endtag_between_rows self tag :
  between_rows self -> String.eqb tag "thead" = false ->
  exists self',
    Html.handle_endtag self tag = Ok self'
    /\ Html.departments self' = Html.departments self
    /\ between_rows self'.
Proof.
  unfold between_rows, Html.handle_endtag. intros [Hrow Hout] Hthead.
  rewrite Hthead. cbv zeta.
  set (s2 := if String.eqb tag "table" then Html.set_in_table self false else self).
  assert (H2 : Html.departments s2 = Html.departments self
               /\ Html.in_row s2 = false
               /\ (Html.in_table s2 = false \/ Html.in_thead s2 = true)).
  { subst s2. destruct (String.eqb tag "table"); simpl; auto. }
  clearbody s2. destruct H2 as (<- & R2 & O2). clear Hrow Hout self.
  set (s3 := if Html.is_cell_tag tag && Html.in_cell s2 then _ else s2).
  assert (H3 : Html.departments s3 = Html.departments s2
               /\ Html.in_row s3 = false
               /\ (Html.in_table s3 = false \/ Html.in_thead s3 = true)).
  { subst s3. destruct (Html.is_cell_tag tag && Html.in_cell s2); simpl; auto. }
  clearbody s3. destruct H3 as (<- & R3 & O3).
  rewrite R3, andb_false_r. exists s3. auto.
Qed.

(** X4: while no row is open and the walker is outside any table or
    inside a table header, events that neither open a table nor close a
    header are fed without an exception and change no department: rows
    outside tables and header rows are never assembled. *)
Theorem header_rows_never_assembled (self : Html.GrayBookHTMLParser)
    (events : list Html.event)
    (Hself : between_rows self)
    (Hevents : forallb (fun e => negb (is_start "table" e || is_end "thead" e)) events = true) :
  exists self',
    Html.feed self events = Ok self'
    /\ Html.departments self' = Html.departments self
    /\ between_rows self'.
Proof.
  unfold Html.feed. revert self Hself.
  induction events as [|e events IH]; intros self Hself; simpl; [eauto|].
  simpl in Hevents. apply andb_true_iff in Hevents as [He Hevents].
  apply negb_true_iff, orb_false_iff in He as [Hs He].
  assert (exists self1, Html.handle self e = Ok self1
                        /\ Html.departments self1 = Html.departments self
                        /\ between_rows self1) as (self1 & -> & Hd & Hb).
  { destruct e as [tag attrs|tag|data]; simpl in *.
    - eexists. split; [reflexivity|]. split; [apply handle_starttag_departments|].
      apply handle_starttag_between_rows; assumption.
    - apply handle_endtag_between_rows; assumption.
    - eexists. split; [reflexivity|].
      unfold Html.handle_data, between_rows in *.
      destruct (Html.in_cell self); simpl; auto. }
  simpl. destruct (IH Hevents self1 Hb) as (self' & -> & Hd' & Hb').
  exists self'. rewrite Hd', Hd. auto.
Qed.

Lemma header_rows_never_assembled_witness :
  exists self',
    Html.feed Example.in_department (Example.row_events Example.smith_row) = Ok self'
    /\ Html.departments self' = []
    /\ between_rows self'.
Proof.
  apply (header_rows_never_assembled Example.in_department
           (Example.row_events Example.smith_row)).
  - split; [reflexivity|left; reflexivity].
  - reflexivity.
Defined.

(** X5: a row that is processed (eight cells or more, no
    "Employee Total" in its title) adds exactly its own position at the
    end of the positions of the current department, in document order;
    the members of every other department, and the current department
    id, are unchanged. *)
Theorem processed_row_appends_position
    (self : Html.GrayBookHTMLParser) (row : list string)
    (Hrow : processed row = true) :
  exists pos self',
    position_of_row row pos
    /\ Html._process_row self row = Ok self'
    /\ all_positions_of (faculty_of self' (Html.current_dept_id self))
       = all_positions_of (faculty_of self (Html.current_dept_id self)) ++ [pos]
    /\ (forall k, k <> Html.current_dept_id self -> faculty_of self' k = faculty_of self k)
    /\ Html.current_dept_id self' = Html.current_dept_id self.
Proof.
  destruct (process_row_processed self row Hrow)
    as (pos & depts & dept & Hpos & Hdepts & Hrun).
  exists pos. eexists. split; [exact Hpos|]. split; [exact Hrun|].
  split; [|split; [|reflexivity]].
  - unfold faculty_of at 1. simpl. rewrite (dict_get_set_same _ dept_eqb_eq). simpl.
    rewrite place_positions. unfold faculty_of.
    destruct Hdepts as [[_ ->]|(_ & -> & ->)]; reflexivity.
  - intros k Hk. unfold faculty_of. simpl.
    rewrite (dict_get_set_other _ dept_eqb_eq) by congruence.
    destruct Hdepts as [[-> _]|(-> & _ & _)]; [reflexivity|].
    rewrite (dict_get_set_other _ dept_eqb_eq) by congruence. reflexivity.
Qed.

Lemma processed_row_appends_position_witness :
  exists pos self',
    position_of_row Example.smith_row pos
    /\ Html._process_row Example.in_department Example.smith_row = Ok self'
    /\ all_positions_of (faculty_of self' (Some "c42-d6")) = [pos].
Proof.
  destruct (processed_row_appends_position Example.in_department Example.smith_row eq_refl)
    as (pos & self' & Hpos & Hrun & Hall & _).
  exists pos, self'. split; [exact Hpos|]. split; [exact Hrun|exact Hall].
Defined.

Lemma distinct_neighbours_snoc names a b :
  distinct_neighbours (names ++ [a]) -> a <> b -> distinct_neighbours (names ++ [a; b]).
Proof.
  induction names as [|x names IH]; simpl; intros H Hab; [auto|].
  destruct names as [|y names]; simpl in *; [tauto|].
  destruct H as [Hxy H]. split; [exact Hxy|]. apply IH; assumption.
Qed.

Lemma well_named_snoc names a b :
  well_named (names ++ [a]) -> a <> b -> b <> "" -> well_named (names ++ [a; b]).
Proof.
  intros [Hd Ht] Hab Hb. split; [apply distinct_neighbours_snoc; assumption|].
  destruct names as [|x names]; simpl in *.
  - constructor; [exact Hb|constructor].
  - change (names ++ [a; b]) with (names ++ [a] ++ [b]). rewrite app_assoc.
    apply Forall_app. split; [exact Ht|]. constructor; [exact Hb|constructor].
Qed.

Lemma place_names fs id name pos :
  well_named (map Html.name fs) ->
  well_named (map Html.name (place fs id name pos)).
Proof.
  intros H. unfold place. pose proof (unsnoc_inv fs) as U.
  destruct (unsnoc fs) as [[earlier m]|].
  - subst fs. rewrite map_app in *. simpl in *.
    unfold continues. destruct (String.eqb name "") eqn:E1; simpl.
    + rewrite map_app. exact H.
    + destruct (String.eqb name (Html.name m)) eqn:E2.
      * rewrite map_app. exact H.
      * rewrite map_app, map_app. simpl. rewrite <- app_assoc. simpl.
        apply well_named_snoc; [exact H| |].
        -- apply String.eqb_neq in E2. congruence.
        -- apply String.eqb_neq, E1.
  - subst fs. simpl. split; [exact I|constructor].
Qed.

Lemma well_formed_kept id row : kept_by_rows department_well_formed id row.
Proof.
  intros pos _. unfold department_well_formed. simpl. split.
  - split; [constructor|]. split; [exact I|constructor].
  - intros dept [Hp Hn]. split; [|apply place_names, Hn].
    apply place_Forall; [exact Hp|discriminate|].
    intros m _. simpl. destruct (Html.positions m); discriminate.
Qed.

(** X6: whatever the events of the document, the table walker ends
    without an exception, and in each department every member holds at
    least one position, no two adjacent members have the same name, and
    only the first member may have an empty name. *)
Theorem members_well_formed (events : list Html.event) :
  exists self,
    Html.feed Html.init events = Ok self
    /\ Forall department_well_formed (Html.departments self).
Proof.
  apply (feed_invariant department_well_formed events).
  - intros id row _. apply well_formed_kept.
  - constructor.
Qed.

(* ================================================================= *)
(** * The HTML entry point *)

Lemma find_app {A} (f : A -> bool) (a b : list A) :
  find f (a ++ b) = match find f a with Some x => Some x | None => find f b end.
Proof. induction a as [|x a IH]; simpl; [reflexivity|]. destruct (f x); auto. Qed.

Lemma dict_get_set (d : dict string string) k v id :
  dict_get String.eqb (dict_set String.eqb d k v) id
  = if String.eqb k id then Some v else dict_get String.eqb d id.
Proof.
  destruct (String.eqb k id) eqn:E.
  - apply String.eqb_eq in E. subst. apply (dict_get_set_same _ String.eqb_eq).
  - apply String.eqb_neq in E. apply (dict_get_set_other _ String.eqb_eq). exact E.
Qed.

Lemma dict_set_keys (d : dict string string) k v x :
  In x (map fst (dict_set String.eqb d k v)) -> In x (map fst d) \/ x = k.
Proof.
  induction d as [|[k' v'] d IH]; simpl.
  - intros [<-|[]]. auto.
  - destruct (String.eqb k' k); simpl; [tauto|].
    intros [<-|H]; [auto|]. destruct (IH H); auto.
Qed.

Lemma dict_set_NoDup (d : dict string string) k v :
  NoDup (map fst d) -> NoDup (map fst (dict_set String.eqb d k v)).
Proof.
  induction d as [|[k' v'] d IH]; simpl; intros H.
  - constructor; [intros []|constructor].
  - inversion H as [|? ? Hnot Hd]; subst.
    destruct (String.eqb k' k) eqn:E; simpl; [constructor; assumption|].
    constructor; [|apply IH, Hd].
    intros Hin. apply dict_set_keys in Hin as [Hin| ->]; [contradiction|].
    rewrite String.eqb_refl in E. discriminate.
Qed.

(** X7: the dictionary of department names maps an id to the name of
    the last heading that carries it, holds no other id, and holds each id
    once. *)
Theorem department_names_last_wins (matches : list (string * string)) (id : string) :
  dict_get String.eqb (Html.extract_department_names matches) id
  = option_map snd (find (fun m => String.eqb (fst m) id) (rev matches))
  /\ NoDup (map fst (Html.extract_department_names matches)).
Proof.
  unfold Html.extract_department_names.
  assert (G : forall acc : dict string string,
             dict_get String.eqb
               (fold_left (fun d m => dict_set String.eqb d (fst m) (snd m)) matches acc) id
             = match find (fun m => String.eqb (fst m) id) (rev matches) with
               | Some m => Some (snd m)
               | None => dict_get String.eqb acc id
               end
             /\ (NoDup (map fst acc) ->
                 NoDup (map fst (fold_left (fun d m => dict_set String.eqb d (fst m) (snd m))
                                           matches acc)))).
  { induction matches as [|m ms IH]; intros acc; simpl; [auto|].
    destruct (IH (dict_set String.eqb acc (fst m) (snd m))) as [IH1 IH2].
    split; [|intros H; apply IH2, dict_set_NoDup, H].
    rewrite IH1, find_app. destruct (find _ (rev ms)); [reflexivity|].
    simpl. rewrite dict_get_set. destruct (String.eqb (fst m) id); reflexivity. }
  destruct (G []) as [G1 G2]. split; [|apply G2; constructor].
  rewrite G1. destruct (find _ _); reflexivity.
Qed.

(** X8: on every list of headings and every sequence of events the
    HTML entry point returns -- department not found, department not
    parsed, or the saved artifact -- and never ends in an exception. *)
Theorem html_main_never_raises
    (fsum : list pyfloat -> pyfloat) (h3_matches : list (string * string))
    (events : list Html.event) :
  exists outcome, Html.main fsum h3_matches events = Ok outcome.
Proof.
  unfold Html.main.
  destruct (option_map _ _) as [[|c id]|]; eauto.
  unfold Html.parse_graybook_html.
  destruct (feed_invariant (fun _ => True) events) with (self := Html.init)
    as (self & -> & _).
  - intros id' row _ pos _. auto.
  - constructor.
  - simpl. destruct (dict_get _ _ _); eauto.
Qed.

(* lemmas *)
Lemma filter_length_le {A} (f : A -> bool) l : List.length (filter f l) <= List.length l.
Proof. induction l as [|x l IH]; simpl; [lia|]. destruct (f x); simpl; lia. Qed.

Lemma html_faculty_type_values t :
  In (Html.faculty_type_of_title t) ["teaching"; "research"; "clinical"; "tenure_track"; "other"].
Proof.
  unfold Html.faculty_type_of_title. cbv zeta.
  repeat match goal with
         | |- context [if ?b then _ else _] => destruct b
         end; simpl; auto 10.
Qed.

Lemma tracks_partition (l : list Html.FacultyMember) :
  Forall (fun f => Html.primary_position f <> None) l ->
  List.length (filter (Html.is_type "teaching") l)
  + List.length (filter (Html.is_type "tenure_track") l)
  + List.length (filter (Html.is_type "research") l)
  + List.length (filter (Html.is_type "clinical") l)
  + List.length (filter (Html.is_type "other") l)
  = List.length l.
Proof.
  induction 1 as [|f l Hf _ IH]; [reflexivity|].
  assert (Hv : In (Html.faculty_type f)
                  ["teaching"; "research"; "clinical"; "tenure_track"; "other"]).
  { unfold Html.faculty_type. destruct (Html.primary_position f) as [p|]; [|congruence].
    apply html_faculty_type_values. }
  cbn [filter].
  repeat match goal with
         | |- context [Html.is_type ?t f] =>
             change (Html.is_type t f) with (String.eqb (Html.faculty_type f) t)
         end.
  simpl in Hv.
  destruct Hv as [<-|[<-|[<-|[<-|[<-|[]]]]]];
    cbn [String.eqb Ascii.eqb Bool.eqb andb List.length]; lia.
Qed.

(** X9: in a saved artifact the summary counts are consistent:
    [total_faculty] is the number of saved members, each full-time count
    is at most the count of its track, and the teaching, tenure-track,
    research and clinical counts together with the members typed other,
    who are not counted, add up to the total. *)
Theorem summary_counts_partition
    (fsum : list pyfloat -> pyfloat) (h3_matches : list (string * string))
    (events : list Html.event) (out : json) (faculty_only : list Html.FacultyMember)
    (Hrun : Html.main fsum h3_matches events = Ok (Html.Saved out faculty_only)) :
  exists teaching teaching_ft tenure tenure_ft research clinical,
    summary_of out "total_faculty" = Ok (JInt (List.length faculty_only))
    /\ summary_of out "teaching_track" = Ok (JInt teaching)
    /\ summary_of out "teaching_track_fulltime" = Ok (JInt teaching_ft)
    /\ summary_of out "tenure_track" = Ok (JInt tenure)
    /\ summary_of out "tenure_track_fulltime" = Ok (JInt tenure_ft)
    /\ summary_of out "research" = Ok (JInt research)
    /\ summary_of out "clinical" = Ok (JInt clinical)
    /\ teaching_ft <= teaching /\ tenure_ft <= tenure
    /\ teaching + tenure + research + clinical
       + List.length (filter (Html.is_type "other") faculty_only)
       = List.length faculty_only.
Proof.
  unfold Html.main in Hrun.
  destruct (option_map _ _) as [[|c id]|]; try discriminate.
  destruct (Html.parse_graybook_html events) as [departments|]; simpl in Hrun; [|discriminate].
  destruct (dict_get _ _ _) as [cs_dept|]; [|discriminate].
  injection Hrun as <- <-.
  do 6 eexists.
  repeat (split; [reflexivity|]).
  split; [apply filter_length_le|]. split; [apply filter_length_le|].
  apply tracks_partition.
  apply Forall_forall. intros f Hf. apply filter_In in Hf as [_ Hf].
  destruct (Html.primary_position f); [discriminate|discriminate].
Qed.

Lemma summary_counts_partition_witness :
  exists out faculty_only,
    Html.main Example.exact_sum sample_matches sample_events
    = Ok (Html.Saved out faculty_only)
    /\ summary_of out "total_faculty" = Ok (JInt (List.length faculty_only)).
Proof.
  destruct (Html.main Example.exact_sum sample_matches sample_events)
    as [[| |out faculty_only]|] eqn:Hrun; try (vm_compute in Hrun; discriminate Hrun).
  exists out, faculty_only. split; [reflexivity|].
  destruct (summary_counts_partition _ _ _ _ _ Hrun) as (? & ? & ? & ? & ? & ? & H & _).
  exact H.
Defined.

(* ================================================================= *)
(** * The section of a department in the DOCX text *)

(* lemmas *)
Lemma prefix_nonempty_nil pattern : pattern <> EmptyString -> prefix pattern "" = false.
Proof. destruct pattern; [congruence|reflexivity]. Qed.

Lemma find_all_present pattern s :
  pattern <> EmptyString ->
  contains pattern s = true -> forall pos, Docx.find_all pattern 0 pos s <> [].
Proof.
  intros Hne. induction s as [|c s IH]; intros H pos.
  - rewrite contains_unfold, orb_false_r, (prefix_nonempty_nil _ Hne) in H. discriminate.
  - change (contains pattern (String c s))
      with (prefix pattern (String c s) || contains pattern s) in H.
    change (Docx.find_all pattern 0 pos (String c s))
      with (if prefix pattern (String c s)
            then pos :: Docx.find_all pattern (String.length pattern - 1) (S pos) s
            else Docx.find_all pattern 0 (S pos) s).
    destruct (prefix pattern (String c s)); [discriminate|].
    apply IH, H.
Qed.

Lemma prefix_substring pattern :
  forall s m,
    prefix pattern s = true -> String.length pattern <= m ->
    prefix pattern (substring 0 m s) = true.
Proof.
  induction pattern as [|a pattern IH]; intros s m H Hm.
  - destruct (substring 0 m s); reflexivity.
  - destruct s as [|b s]; simpl in H; [discriminate|].
    destruct (ascii_dec a b) as [->|]; [|discriminate].
    destruct m as [|m]; simpl in Hm; [lia|].
    simpl. destruct (ascii_dec b b); [|congruence].
    apply IH; [exact H|lia].
Qed.

Lemma prefix_app_more pattern :
  forall x y, prefix pattern x = true -> prefix pattern (x ++ y) = true.
Proof.
  induction pattern as [|a pattern IH]; intros x y H; [destruct (x ++ y)%string; reflexivity|].
  destruct x as [|b x]; simpl in H; [discriminate|].
  destruct (ascii_dec a b) as [->|]; [|discriminate].
  simpl. destruct (ascii_dec b b); [|congruence]. apply IH, H.
Qed.

Lemma substring_skip n m c s : substring (S n) m (String c s) = substring n m s.
Proof. destruct m; reflexivity. Qed.

Lemma find_all_first pattern :
  forall s skip pos p rest,
    Docx.find_all pattern skip pos s = p :: rest ->
    pos <= p
    /\ forall stop, p - pos + String.length pattern <= stop ->
                    prefix pattern (Docx.slice s (p - pos) stop) = true.
Proof.
  induction s as [|c s IH]; intros skip pos p rest H; [discriminate|].
  destruct skip as [|skip].
  - change (Docx.find_all pattern 0 pos (String c s))
      with (if prefix pattern (String c s)
            then pos :: Docx.find_all pattern (String.length pattern - 1) (S pos) s
            else Docx.find_all pattern 0 (S pos) s) in H.
    destruct (prefix pattern (String c s)) eqn:E.
    + injection H as <- _. split; [lia|]. intros stop Hstop.
      rewrite Nat.sub_diag in *. unfold Docx.slice. rewrite Nat.sub_0_r.
      apply prefix_substring; [exact E|lia].
    + destruct (IH _ _ _ _ H) as [Hp Hs]. split; [lia|]. intros stop Hstop.
      unfold Docx.slice in *. replace (p - pos) with (S (p - S pos)) by lia.
      rewrite substring_skip.
      replace (stop - S (p - S pos)) with ((stop - 1) - (p - S pos)) by lia.
      apply Hs. lia.
  - change (Docx.find_all pattern (S skip) pos (String c s))
      with (Docx.find_all pattern skip (S pos) s) in H.
    destruct (IH _ _ _ _ H) as [Hp Hs]. split; [lia|]. intros stop Hstop.
    unfold Docx.slice in *. replace (p - pos) with (S (p - S pos)) by lia.
    rewrite substring_skip.
    replace (stop - S (p - S pos)) with ((stop - 1) - (p - S pos)) by lia.
    apply Hs. lia.
Qed.

Lemma concat_begins sep x xs pattern :
  prefix pattern x = true -> prefix pattern (String.concat sep (x :: xs)) = true.
Proof.
  intros H. destruct xs; [exact H|].
  change (String.concat sep (x :: s :: xs))
    with (x ++ sep ++ String.concat sep (s :: xs))%string.
  apply prefix_app_more, H.
Qed.

(** X12: for a heading of at most 10000 characters,
    [extract_department_section] returns a section exactly when the
    heading "<code> - <name>" occurs in the text, and raises [ValueError]
    otherwise; the section returned begins with the heading. *)
Theorem section_found_when_heading_occurs (full_text dept_code dept_name : string)
    (Hshort : (String.length (heading_of dept_code dept_name) <=? section_limit)%nat = true) :
  if contains (heading_of dept_code dept_name) full_text
  then exists section,
         Docx.extract_department_section full_text dept_code dept_name = Ok section
         /\ prefix (heading_of dept_code dept_name) section = true
  else Docx.extract_department_section full_text dept_code dept_name = Raise ValueError.
Proof.
  unfold Docx.extract_department_section. fold (heading_of dept_code dept_name).
  set (pattern := heading_of dept_code dept_name) in *.
  assert (Hne : pattern <> EmptyString).
  { subst pattern. unfold heading_of. destruct dept_code; discriminate. }
  apply Nat.leb_le in Hshort. unfold section_limit in Hshort.
  destruct (contains pattern full_text) eqn:E.
  - pose proof (find_all_present pattern full_text Hne E 0) as Hfound.
    destruct (Docx.find_all pattern 0 0 full_text) as [|p rest] eqn:F; [congruence|].
    eexists. split; [reflexivity|].
    destruct (find_all_first pattern _ _ _ _ _ F) as [_ Hs].
    rewrite Nat.sub_0_r in Hs.
    cbn [map]. apply concat_begins, Hs.
    destruct (Docx.search_page_break 0 _); lia.
  - rewrite (find_all_absent pattern full_text E). reflexivity.
Qed.

Lemma section_found_when_heading_occurs_witness :
  exists section,
    Docx.extract_department_section Example.siebel_text "434" "Siebel School Comp & Data Sci"
    = Ok section
    /\ prefix (heading_of "434" "Siebel School Comp & Data Sci") section = true.
Proof.
  exact (section_found_when_heading_occurs Example.siebel_text
           "434" "Siebel School Comp & Data Sci" eq_refl).
Defined.

(* ================================================================= *)
(** * The assembler of the DOCX pipeline *)

Lemma docx_parse_salary_total s : exists v, Docx.parse_salary s = Ok v.
Proof. apply try_float_total. Qed.

Lemma foldM_invariant {S A} (f : S -> A -> result S) (I : S -> Prop) l :
  (forall s x s', I s -> f s x = Ok s' -> I s') ->
  forall s s', I s -> foldM f s l = Ok s' -> I s'.
Proof.
  intros Hstep. induction l as [|x l IH]; intros s s' Hs H; simpl in H.
  - injection H as <-. exact Hs.
  - destruct (f s x) as [s1|] eqn:E; [|discriminate]. simpl in H.
    apply (IH s1 s'); [apply (Hstep s x s1 Hs E)|exact H].
Qed.

Lemma foldM_raises {S A} (f : S -> A -> result S) (P : exn -> Prop) l :
  (forall s x e, f s x = Raise e -> P e) ->
  forall s e, foldM f s l = Raise e -> P e.
Proof.
  intros Hstep. induction l as [|x l IH]; intros s e H; simpl in H; [discriminate|].
  destruct (f s x) as [s1|e1] eqn:E; simpl in H.
  - apply (IH s1 e H).
  - injection H as <-. apply (Hstep s x e1 E).
Qed.

Lemma flush_well_formed fsum st who :
  Forall (docx_member_well_formed fsum) (Docx.faculty st) ->
  who <> "" ->
  Forall (docx_member_well_formed fsum) (Docx.flush fsum st who).
Proof.
  intros H Hwho. unfold Docx.flush.
  destruct (Docx.current_positions st) as [|p ps]; [exact H|].
  apply Forall_app. split; [exact H|]. constructor; [|constructor].
  unfold docx_member_well_formed. simpl. repeat split; [discriminate|exact Hwho].
Qed.

Lemma assemble_well_formed fsum st m st' :
  Forall (docx_member_well_formed fsum) (Docx.faculty st) ->
  Docx.assemble fsum st m = Ok st' ->
  Forall (docx_member_well_formed fsum) (Docx.faculty st').
Proof.
  intros H. unfold Docx.assemble.
  destruct (float (Docx.group4 m)); [|discriminate].
  destruct (float (Docx.group5 m)); [|discriminate].
  destruct (Docx.parse_salary (Docx.group6 m)); [|discriminate].
  destruct (Docx.parse_salary (Docx.group7 m)); [|discriminate].
  simpl bind. destruct (_ || _); [intros E; injection E as <-; exact H|].
  intros E. injection E as <-. simpl.
  destruct (Docx.current_name st) as [[|c current]|]; try exact H.
  destruct (negb _); [|exact H]. simpl.
  apply flush_well_formed; [exact H|discriminate].
Qed.

(** X13: every member that [parse_faculty_simple] returns holds at
    least one position and has a non-empty name, and its stored totals
    are the sums of the salaries and FTEs of its positions. *)
Theorem docx_members_well_formed
    (fsum : list pyfloat -> pyfloat) (finditer : string -> list Docx.entry_match)
    (text : string) (faculty : list Docx.FacultyMember)
    (Hrun : Docx.parse_faculty_simple fsum finditer text = Ok faculty) :
  Forall (docx_member_well_formed fsum) faculty.
Proof.
  unfold Docx.parse_faculty_simple in Hrun.
  destruct (foldM _ _ _) as [st|] eqn:E; [|discriminate]. simpl in Hrun.
  assert (H : Forall (docx_member_well_formed fsum) (Docx.faculty st)).
  { apply (foldM_invariant (Docx.assemble fsum)
             (fun s => Forall (docx_member_well_formed fsum) (Docx.faculty s))
             (finditer text)) with (s := {| Docx.faculty := []; Docx.current_name := None;
                                            Docx.current_positions := [] |}).
    - intros s x s'. apply assemble_well_formed.
    - constructor.
    - exact E. }
  destruct (Docx.current_name st) as [[|c current]|]; injection Hrun as <-; try exact H.
  apply flush_well_formed; [exact H|discriminate].
Qed.

Lemma docx_members_well_formed_witness :
  exists faculty,
    Docx.parse_faculty_simple Example.exact_sum (fun _ => [Example.smith_match]) "" = Ok faculty
    /\ Forall (docx_member_well_formed Example.exact_sum) faculty.
Proof.
  destruct (Docx.parse_faculty_simple Example.exact_sum (fun _ => [Example.smith_match]) "")
    as [faculty|] eqn:Hrun; [|vm_compute in Hrun; discriminate Hrun].
  exists faculty. split; [reflexivity|].
  exact (docx_members_well_formed _ _ _ _ Hrun).
Defined.

Lemma assemble_progress fsum st m done :
  entry_named m = true ->
  docx_progress st done ->
  exists st',
    Docx.assemble fsum st m = Ok st'
    /\ if is_header m
       then docx_progress st' done
       else exists p, position_of_match m = Ok p /\ docx_progress st' (done ++ [p]).
Proof.
  unfold entry_named, readable, position_of_match, Docx.assemble. intros H Hst.
  apply andb_true_iff in H as [H Hname]. apply andb_true_iff in H as [H4 H5].
  destruct (float (Docx.group4 m)) as [f1|]; [|discriminate].
  destruct (float (Docx.group5 m)) as [f2|]; [|discriminate].
  destruct (docx_parse_salary_total (Docx.group6 m)) as [v6 ->].
  destruct (docx_parse_salary_total (Docx.group7 m)) as [v7 ->].
  simpl bind. fold (is_header m).
  destruct (is_header m); [eauto|]. simpl in Hname.
  apply negb_true_iff, String.eqb_neq in Hname.
  eexists. split; [reflexivity|]. eexists. split; [reflexivity|].
  unfold docx_progress in *. simpl.
  destruct (Docx.current_name st) as [current|].
  - destruct Hst as (Hcur & Hcps & Hdone & Hnames).
    destruct current as [|c current]; [congruence|].
    destruct (String.eqb (strip (Docx.group1 m)) (String c current)) eqn:E; simpl.
    + apply String.eqb_eq in E. rewrite E.
      split; [discriminate|]. split; [destruct (Docx.current_positions st); discriminate|].
      split; [rewrite app_assoc, Hdone; reflexivity|exact Hnames].
    + apply String.eqb_neq in E.
      split; [exact Hname|]. split; [discriminate|].
      unfold Docx.flush. destruct (Docx.current_positions st) as [|p ps] eqn:P; [congruence|].
      rewrite flat_map_app, map_app. simpl. rewrite app_nil_r, <- Hdone.
      split; [reflexivity|]. rewrite <- app_assoc. simpl.
      apply distinct_neighbours_snoc; [exact Hnames|congruence].
  - destruct Hst as (-> & -> & ->). simpl. repeat split; [exact Hname|discriminate].
Qed.

Lemma assemble_all_progress fsum ms :
  forallb entry_named ms = true ->
  forall st done,
    docx_progress st done ->
    exists st' ps,
      foldM (Docx.assemble fsum) st ms = Ok st'
      /\ mapM position_of_match (filter (fun m => negb (is_header m)) ms) = Ok ps
      /\ docx_progress st' (done ++ ps).
Proof.
  induction ms as [|m ms IH]; intros H st done Hst; simpl.
  - exists st, []. rewrite app_nil_r. auto.
  - simpl in H. apply andb_true_iff in H as [Hm Hms].
    destruct (assemble_progress fsum st m done Hm Hst) as (st1 & -> & H1). simpl.
    destruct (is_header m); simpl.
    + apply IH; assumption.
    + destruct H1 as (p & -> & H1). simpl.
      destruct (IH Hms st1 (done ++ [p]) H1) as (st' & ps & -> & -> & H').
      exists st', (p :: ps). rewrite <- app_assoc in H'. auto.
Qed.

(** X14: when [float] reads the FTE groups of every match and no
    match that is kept has a blank name, [parse_faculty_simple] returns,
    and the positions of the members it returns, taken in order, are
    exactly the positions of the matches that are not skipped as
    headers, in document order; no two adjacent members have the same
    name. *)
Theorem docx_positions_conserved
    (fsum : list pyfloat -> pyfloat) (finditer : string -> list Docx.entry_match)
    (text : string)
    (Hmatches : forallb entry_named (finditer text) = true) :
  exists faculty positions,
    Docx.parse_faculty_simple fsum finditer text = Ok faculty
    /\ mapM position_of_match (filter (fun m => negb (is_header m)) (finditer text))
       = Ok positions
    /\ flat_map Docx.positions faculty = positions
    /\ distinct_neighbours (map Docx.name faculty).
Proof.
  unfold Docx.parse_faculty_simple.
  destruct (assemble_all_progress fsum (finditer text) Hmatches
              {| Docx.faculty := []; Docx.current_name := None;
                 Docx.current_positions := [] |} [])
    as (st & ps & -> & Hps & Hst).
  { unfold docx_progress. simpl. auto. }
  simpl in Hst. simpl bind. unfold docx_progress in Hst.
  destruct (Docx.current_name st) as [current|].
  - destruct Hst as (Hcur & Hcps & Hdone & Hnames).
    destruct current as [|c current]; [congruence|].
    eexists _, ps. split; [reflexivity|]. split; [exact Hps|].
    unfold Docx.flush. destruct (Docx.current_positions st) as [|p cps]; [congruence|].
    rewrite flat_map_app, map_app. simpl. rewrite app_nil_r. auto.
  - destruct Hst as (-> & _ & ->). exists [], []. simpl. auto.
Qed.

Lemma docx_positions_conserved_witness :
  exists faculty positions,
    Docx.parse_faculty_simple Example.exact_sum
      (fun _ => [Example.smith_match; Example.smith_match]) "" = Ok faculty
    /\ mapM position_of_match
         (filter (fun m => negb (is_header m)) [Example.smith_match; Example.smith_match])
       = Ok positions
    /\ flat_map Docx.positions faculty = positions
    /\ distinct_neighbours (map Docx.name faculty).
Proof.
  apply (docx_positions_conserved Example.exact_sum
           (fun _ => [Example.smith_match; Example.smith_match]) "").
  vm_compute. reflexivity.
Defined.

Lemma assemble_raises fsum st m e : Docx.assemble fsum st m = Raise e -> e = ValueError.
Proof.
  unfold Docx.assemble.
  destruct (float (Docx.group4 m)) eqn:F4; [|intros H; injection H as <-;
                                             apply (float_only_ValueError _ _ F4)].
  destruct (float (Docx.group5 m)) eqn:F5; [|intros H; injection H as <-;
                                             apply (float_only_ValueError _ _ F5)].
  destruct (docx_parse_salary_total (Docx.group6 m)) as [v6 ->].
  destruct (docx_parse_salary_total (Docx.group7 m)) as [v7 ->].
  simpl bind. destruct (_ || _); discriminate.
Qed.

(** X15: the only exception with which the DOCX entry point ends is
    [ValueError]: from the section that is not found, or from an FTE
    group that [float] does not read. *)
Theorem docx_main_raises_only_ValueError
    (fsum : list pyfloat -> pyfloat) (finditer : string -> list Docx.entry_match)
    (full_text : string) (e : exn)
    (Hrun : Docx.main fsum finditer full_text = Raise e) :
  e = ValueError.
Proof.
  unfold Docx.main in Hrun.
  destruct (Docx.extract_department_section _ _ _) as [cs_text|e1] eqn:E; simpl in Hrun.
  - unfold Docx.parse_faculty_simple in Hrun.
    destruct (foldM _ _ _) as [st|e2] eqn:F; simpl in Hrun.
    + destruct (Docx.current_name st) as [[|c current]|]; discriminate.
    + injection Hrun as <-.
      apply (foldM_raises (Docx.assemble fsum) (fun e => e = ValueError) _
               (assemble_raises fsum) _ _ F).
  - injection Hrun as <-. unfold Docx.extract_department_section in E.
    destruct (Docx.find_all _ _ _ _); [congruence|discriminate].
Qed.

Lemma docx_main_raises_only_ValueError_witness :
  exists e,
    Docx.main Example.exact_sum (fun _ => []) Example.physics_text = Raise e
    /\ e = ValueError.
Proof.
  destruct (Docx.main Example.exact_sum (fun _ => []) Example.physics_text)
    as [out|e] eqn:Hrun; [vm_compute in Hrun; discriminate Hrun|].
  exists e. split; [reflexivity|].
  exact (docx_main_raises_only_ValueError _ _ _ _ Hrun).
Defined.

(* ================================================================= *)
(** * The analysis on the records of the HTML entry point *)

(** X16: [normalize_rank] is idempotent, whatever the faculty types
    passed; its result is never senior_lecturer nor instructor; and when
    it changes the rank, the result is lecturer or assistant. *)
Theorem normalize_rank_idempotent (rank type1 type2 : json) :
  Analyze.normalize_rank (Analyze.normalize_rank rank type1) type2
  = Analyze.normalize_rank rank type1
  /\ Analyze.normalize_rank rank type1 <> JStr "senior_lecturer"
  /\ Analyze.normalize_rank rank type1 <> JStr "instructor"
  /\ (Analyze.normalize_rank rank type1 <> rank ->
      Analyze.normalize_rank rank type1 = JStr "lecturer"
      \/ Analyze.normalize_rank rank type1 = JStr "assistant").
Proof.
  unfold Analyze.normalize_rank, Analyze.is_str.
  destruct rank as [| | |s| |]; try (repeat split; try discriminate; congruence).
  destruct (String.eqb s "senior_lecturer") eqn:E1;
    [repeat split; try discriminate; auto|].
  destruct (String.eqb s "instructor") eqn:E2;
    [repeat split; try discriminate; auto|].
  rewrite E1, E2. repeat split; try congruence.
  - intros H. injection H as ->. discriminate E1.
  - intros H. injection H as ->. discriminate E2.
Qed.

Lemma filterM_map {A B} (g : A -> B) (keep : B -> result bool) (f : A -> bool) l :
  (forall x, keep (g x) = Ok (f x)) ->
  Analyze.filterM keep (map g l) = Ok (map g (filter f l)).
Proof.
  intros H. induction l as [|x l IH]; simpl; [reflexivity|].
  rewrite H, IH. simpl. destruct (f x); reflexivity.
Qed.

Lemma mapM_map {A B C} (g : A -> B) (h : B -> result C) (k : A -> C) l :
  (forall x, h (g x) = Ok (k x)) -> mapM h (map g l) = Ok (map k l).
Proof.
  intros H. induction l as [|x l IH]; simpl; [reflexivity|].
  rewrite H, IH. reflexivity.
Qed.

Lemma filter_both {A} (f g : A -> bool) l :
  filter (fun x => f x && g x) l = filter g (filter f l).
Proof.
  induction l as [|x l IH]; simpl; [reflexivity|].
  destruct (f x); simpl; [destruct (g x)|]; rewrite IH; reflexivity.
Qed.

Lemma max_from_map {A} (key : A -> pyfloat) l :
  forall best,
    max_from (fun x => x) (key best) (map key l) = key (max_from key best l).
Proof.
  induction l as [|x l IH]; intros best; simpl; [reflexivity|].
  destruct (py_gt (key x) (key best)); apply IH.
Qed.

Lemma record_positions fsum h :
  Analyze.subscript (Html.faculty_record fsum h) "positions"
  = Ok (JArr (map Html.asdict (Html.positions h))).
Proof. reflexivity. Qed.

Lemma is_clean_appointment_record fsum h :
  Analyze.is_clean_appointment (Html.faculty_record fsum h) = Ok (clean_positions h).
Proof.
  unfold Analyze.is_clean_appointment. rewrite record_positions. simpl bind.
  rewrite (filterM_map Html.asdict _ faculty_class) by reflexivity. simpl bind.
  unfold clean_positions, faculty_positions.
  destruct (filter faculty_class (Html.positions h)) as [|p ps]; [reflexivity|].
  change (map Html.asdict (p :: ps)) with (Html.asdict p :: map Html.asdict ps).
  cbv iota beta.
  change (Html.asdict p :: map Html.asdict ps) with (map Html.asdict (p :: ps)).
  rewrite (mapM_map Html.asdict _ (fun p => upper (Html.title p))) by reflexivity.
  reflexivity.
Qed.

Lemma primary_salary_record fsum h :
  Analyze.get_primary_faculty_salary (Html.faculty_record fsum h) = Ok (compared_salary h).
Proof.
  unfold Analyze.get_primary_faculty_salary. rewrite record_positions. simpl bind.
  rewrite (filterM_map Html.asdict _
             (fun p => faculty_class p && positive Html.present_salary p)).
  2: { intros x. unfold faculty_class.
       change (Analyze.subscript (Html.asdict x) "empl_class") with (Ok (JStr (Html.empl_class x))).
       cbn [bind Analyze.is_faculty_class].
       destruct (existsb (String.eqb (Html.empl_class x)) ["AA"; "AB"; "AL"; "AM"]);
         reflexivity. }
  simpl bind. rewrite filter_both. unfold compared_salary, faculty_positions.
  destruct (filter (positive Html.present_salary) (filter faculty_class (Html.positions h)))
    as [|p ps]; [reflexivity|].
  change (map Html.asdict (p :: ps)) with (Html.asdict p :: map Html.asdict ps).
  cbv iota beta.
  change (Html.asdict p :: map Html.asdict ps) with (map Html.asdict (p :: ps)).
  rewrite (mapM_map Html.asdict _ Html.present_salary) by reflexivity.
  simpl. rewrite max_from_map. reflexivity.
Qed.

(** X17: on a record of the HTML entry point
    [get_primary_faculty_salary] returns, without an exception, the
    greatest positive present salary among the positions of a faculty
    employment class, and zero when there is none; when every position
    is of a faculty class and some salary is positive, this is the
    salary of the member's primary position. *)
Theorem compared_salary_is_greatest_faculty_salary
    (fsum : list pyfloat -> pyfloat) (h : Html.FacultyMember) :
  exists v,
    Analyze.get_primary_faculty_salary (Html.faculty_record fsum h) = Ok v
    /\ (if existsb (positive Html.present_salary) (faculty_positions h)
        then exists p, first_greatest_positive Html.present_salary (faculty_positions h) p
                       /\ v = Html.present_salary p
        else v = zero)
    /\ (forallb faculty_class (Html.positions h) = true ->
        existsb (positive Html.present_salary) (Html.positions h) = true ->
        exists p, Html.primary_position h = Some p /\ v = Html.present_salary p).
Proof.
  exists (compared_salary h). split; [apply primary_salary_record|].
  unfold compared_salary. split.
  - rewrite existsb_filter.
    destruct (filter (positive Html.present_salary) (faculty_positions h)) as [|p ps] eqn:F;
      [reflexivity|].
    exists (max_from Html.present_salary p ps). split; [|reflexivity].
    apply max_of_positive, F.
  - intros Hall Hsome. unfold faculty_positions.
    assert (E : filter faculty_class (Html.positions h) = Html.positions h).
    { rewrite forallb_forall in Hall. clear Hsome.
      induction (Html.positions h) as [|x l IH]; simpl; [reflexivity|].
      rewrite (Hall x (or_introl eq_refl)). f_equal. apply IH.
      intros y Hy. apply Hall. right. exact Hy. }
    rewrite E. unfold Html.primary_position. rewrite existsb_filter in Hsome.
    destruct (Html.positions h) as [|first rest] eqn:P; [discriminate|].
    change (fun p => py_gt (Html.present_salary p) zero) with (positive Html.present_salary).
    destruct (filter (positive Html.present_salary) (first :: rest)) as [|p ps];
      [discriminate|].
    eauto.
Qed.

Lemma compared_salary_is_greatest_faculty_salary_witness :
  exists p,
    Html.primary_position
      (Example.html_member [Example.html_position "LECTURER" "AA" (Finite 90000%Q);
                            Example.html_position "PROF" "AB" (Finite 150000%Q)])
    = Some p
    /\ Analyze.get_primary_faculty_salary
         (Html.faculty_record Example.exact_sum
            (Example.html_member [Example.html_position "LECTURER" "AA" (Finite 90000%Q);
                                  Example.html_position "PROF" "AB" (Finite 150000%Q)]))
       = Ok (Html.present_salary p).
Proof.
  destruct (compared_salary_is_greatest_faculty_salary Example.exact_sum
              (Example.html_member [Example.html_position "LECTURER" "AA" (Finite 90000%Q);
                                    Example.html_position "PROF" "AB" (Finite 150000%Q)]))
    as (v & Hv & _ & Hprimary).
  destruct (Hprimary eq_refl eq_refl) as (p & Hp & Hvp).
  exists p. split; [exact Hp|]. rewrite <- Hvp. exact Hv.
Defined.

Lemma compared_salary_positive h :
  py_eq (compared_salary h) zero = false -> py_gt (compared_salary h) zero = true.
Proof.
  unfold compared_salary.
  destruct (filter (positive Html.present_salary) (faculty_positions h)) as [|p ps] eqn:F.
  - intros H. discriminate H.
  - intros _. destruct (max_of_positive Html.present_salary _ _ _ F) as (_ & _ & _ & H & _).
    exact H.
Qed.

Lemma normalize_rank_string s t : exists s', Analyze.normalize_rank (JStr s) t = JStr s'.
Proof.
  unfold Analyze.normalize_rank.
  destruct (Analyze.is_str (JStr s) "senior_lecturer"); [eauto|].
  destruct (Analyze.is_str (JStr s) "instructor"); eauto.
Qed.

Lemma salaries_positive_snoc_teaching st e :
  salaries_positive st -> py_gt (Analyze.salary (snd e)) zero = true ->
  salaries_positive {| Analyze.excluded := Analyze.excluded st;
                       Analyze.teaching_by_rank := Analyze.teaching_by_rank st ++ [e];
                       Analyze.tenure_by_rank := Analyze.tenure_by_rank st |}.
Proof.
  unfold salaries_positive. simpl. intros H He.
  apply Forall_app in H as [H1 H2].
  repeat (apply Forall_app; split); auto.
Qed.

Lemma salaries_positive_snoc_tenure st e :
  salaries_positive st -> py_gt (Analyze.salary (snd e)) zero = true ->
  salaries_positive {| Analyze.excluded := Analyze.excluded st;
                       Analyze.teaching_by_rank := Analyze.teaching_by_rank st;
                       Analyze.tenure_by_rank := Analyze.tenure_by_rank st ++ [e] |}.
Proof.
  unfold salaries_positive. simpl. intros H He.
  apply Forall_app in H as [H1 H2].
  repeat (apply Forall_app; split); auto.
Qed.

Lemma consider_record fsum h st :
  exists st',
    Analyze.consider st (Html.faculty_record fsum h) = Ok st'
    /\ (salaries_positive st -> salaries_positive st')
    /\ bucket_size st' <= S (bucket_size st).
Proof.
  unfold Analyze.consider.
  change (Analyze.subscript (Html.faculty_record fsum h) "is_full_time_here")
    with (Ok (JBool (Html.is_full_time_here fsum h))).
  cbn [bind Analyze.truthy].
  destruct (Html.is_full_time_here fsum h); cbn [negb]; [|exists st; auto].
  rewrite is_clean_appointment_record. cbn [bind].
  change (Analyze.subscript (Html.faculty_record fsum h) "name")
    with (Ok (JStr (Html.name h))).
  destruct (clean_positions h); cbn [negb bind].
  2: { eexists. split; [reflexivity|]. split; [intros H; exact H|].
       unfold bucket_size. simpl. rewrite length_app. simpl. lia. }
  change (Analyze.subscript (Html.faculty_record fsum h) "faculty_type")
    with (Ok (JStr (Html.faculty_type h))).
  change (Analyze.subscript (Html.faculty_record fsum h) "rank")
    with (Ok (JStr (Html.rank h))).
  change (Analyze.subscript (Html.faculty_record fsum h) "total_present_salary")
    with (Ok (JNum (Html.total_present_salary fsum h))).
  cbn [bind]. rewrite primary_salary_record. cbn [bind].
  destruct (py_eq (compared_salary h) zero) eqn:Z; [exists st; auto|].
  pose proof (compared_salary_positive h Z) as Hpos.
  destruct (normalize_rank_string (Html.rank h) (JStr (Html.faculty_type h))) as [r ->].
  cbn [Analyze.hashable bind].
  destruct (Analyze.is_str (JStr (Html.faculty_type h)) "teaching").
  - eexists. split; [reflexivity|]. split.
    + intros H. apply salaries_positive_snoc_teaching; [exact H|exact Hpos].
    + unfold bucket_size. simpl. rewrite length_app. simpl. lia.
  - destruct (Analyze.is_str (JStr (Html.faculty_type h)) "tenure_track").
    + eexists. split; [reflexivity|]. split.
      * intros H. apply salaries_positive_snoc_tenure; [exact H|exact Hpos].
      * unfold bucket_size. simpl. rewrite length_app. simpl. lia.
    + exists st. auto.
Qed.

Lemma consider_records fsum l :
  forall st,
    exists st',
      foldM Analyze.consider st (map (Html.faculty_record fsum) l) = Ok st'
      /\ (salaries_positive st -> salaries_positive st')
      /\ bucket_size st' <= bucket_size st + List.length l.
Proof.
  induction l as [|h l IH]; intros st; simpl.
  - exists st. split; [reflexivity|]. split; [auto|lia].
  - destruct (consider_record fsum h st) as (st1 & -> & P1 & S1). simpl.
    destruct (IH st1) as (st' & -> & P' & S').
    exists st'. split; [reflexivity|]. split; [auto|lia].
Qed.

(** X19: the analysis accepts every artifact that the HTML entry
    point saves: the loop over its members ends without an exception,
    every salary it puts in a teaching or tenure-track bucket is
    positive, and no more members are kept or excluded than the artifact
    holds. *)
Theorem analysis_accepts_html_artifact
    (fsum : list pyfloat -> pyfloat) (h3_matches : list (string * string))
    (events : list Html.event) (out : json) (faculty_only : list Html.FacultyMember)
    (Hrun : Html.main fsum h3_matches events = Ok (Html.Saved out faculty_only)) :
  exists st,
    Analyze.aggregate out = Ok st
    /\ salaries_positive st
    /\ bucket_size st <= List.length faculty_only.
Proof.
  unfold Html.main in Hrun.
  destruct (option_map _ _) as [[|c id]|]; try discriminate.
  destruct (Html.parse_graybook_html events) as [departments|]; simpl in Hrun; [|discriminate].
  destruct (dict_get _ _ _) as [cs_dept|]; [|discriminate].
  injection Hrun as <- <-.
  unfold Analyze.aggregate. cbn [Analyze.subscript dict_get String.eqb Ascii.eqb Bool.eqb
                                 andb bind Analyze.iterate].
  match goal with
  | |- context [map (Html.faculty_record fsum) ?l] =>
      destruct (consider_records fsum l Analyze.empty) as (st & Hagg & Hpos & Hsize)
  end.
  exists st. split; [exact Hagg|]. split; [apply Hpos; constructor|exact Hsize].
Qed.

Lemma analysis_accepts_html_artifact_witness :
  exists out faculty_only st,
    Html.main Example.exact_sum sample_matches sample_events
    = Ok (Html.Saved out faculty_only)
    /\ Analyze.aggregate out = Ok st
    /\ salaries_positive st.
Proof.
  destruct (Html.main Example.exact_sum sample_matches sample_events)
    as [[| |out faculty_only]|] eqn:Hrun; try (vm_compute in Hrun; discriminate Hrun).
  destruct (analysis_accepts_html_artifact _ _ _ _ _ Hrun) as (st & Hst & Hpos & _).
  exists out, faculty_only, st. split; [reflexivity|]. split; [exact Hst|exact Hpos].
Defined.
